(** * OBD-II logger: adapter discovery, connection negotiation, sample
      formatting and the acquisition loop

    A shallow embedding of the Python sources [OBD-v2.py], [OBD-v3.py],
    [OBD-v4.py] and [OBD-v5.py], and the properties of their MAC extractor,
    port scanner, connection negotiator, sample formatter and monitoring
    loop.

    Conventions of the embedding.
    - A Python [str] is a [string]; the hardware ids and descriptions the
      serial enumerator returns are ASCII, and a byte above 127 is treated as
      a character without case mapping.
    - A Python [float] is an IEEE-754 binary64 value, [spec_float] with
      precision 53 and maximal exponent 1024, and the arithmetic is the
      correctly rounded one of [SpecFloat].
    - Calls into the operating system and the [obd], [serial] and [tkinter]
      libraries are answered by an explicit environment and recorded, in
      program order, in a trace of events; exceptions are a result of the
      monad [M]. *)

From Stdlib Require Import ZArith String Ascii List Bool Lia PeanoNat.
From Stdlib Require Import Floats.SpecFloat.
Import ListNotations.

Local Open Scope list_scope.
Local Open Scope string_scope.

(* ================================================================= *)
(** ** Python strings *)

Module PyStr.

Definition is_lower (c : ascii) : bool :=
  let n := nat_of_ascii c in (97 <=? n)%nat && (n <=? 122)%nat.

(** [str.upper] on one ASCII character. *)
Definition upper_char (c : ascii) : ascii :=
  if is_lower c then ascii_of_nat (nat_of_ascii c - 32) else c.

(** [str.upper()]. *)
Fixpoint upper (s : string) : string :=
  match s with
  | EmptyString => EmptyString
  | String c s' => String (upper_char c) (upper s')
  end.

(** [sep.join(parts)]. *)
Fixpoint join (sep : string) (parts : list string) : string :=
  match parts with
  | [] => ""
  | [p] => p
  | p :: ps => p ++ sep ++ join sep ps
  end.

(** [needle in hay] on strings. *)
Fixpoint contains (needle hay : string) : bool :=
  prefix needle hay ||
  match hay with
  | EmptyString => false
  | String _ hay' => contains needle hay'
  end.

(** [range(start, stop, step)] for a positive step. *)
Definition range_step (start stop step : nat) : list nat :=
  map (fun k => start + k * step) (seq 0 ((stop - start + (step - 1)) / step)).

(** [range(1, stop)] over Python integers: empty when [stop <= 1]. *)
Definition range_from_1 (stop : Z) : list Z :=
  map Z.of_nat (seq 1 (Z.to_nat (stop - 1))).

(** [s[i:i+n]]: a slice is truncated at the end of the string. *)
Definition slice (s : string) (i n : nat) : string := substring i n s.

Definition digit_char (d : nat) : ascii := ascii_of_nat (48 + d).

Fixpoint nat_digits (fuel n : nat) (acc : string) : string :=
  match fuel with
  | O => acc
  | S fuel' =>
      let acc' := String (digit_char (n mod 10)) acc in
      if (n / 10 =? 0)%nat then acc' else nat_digits fuel' (n / 10) acc'
  end.

(** [str(n)] for a natural number. *)
Definition str_nat (n : nat) : string := nat_digits (S n) n "".

(** [str(z)] for a Python integer. *)
Definition str_int (z : Z) : string :=
  match z with
  | Z0 => "0"
  | Zpos _ => str_nat (Z.to_nat z)
  | Zneg p => "-" ++ str_nat (Pos.to_nat p)
  end.

(** [c.isspace()] on one ASCII character: tab to carriage return, the
    four separators [\x1c] to [\x1f], and the space. *)
Definition is_space (c : ascii) : bool :=
  let n := nat_of_ascii c in
  ((9 <=? n)%nat && (n <=? 13)%nat) || ((28 <=? n)%nat && (n <=? 32)%nat).

(** [s.lstrip()]. *)
Fixpoint lstrip (s : string) : string :=
  match s with
  | EmptyString => EmptyString
  | String c s' => if is_space c then lstrip s' else s
  end.

(** [s.rstrip()]. *)
Fixpoint rstrip (s : string) : string :=
  match s with
  | EmptyString => EmptyString
  | String c s' =>
      match rstrip s' with
      | EmptyString => if is_space c then EmptyString else String c EmptyString
      | String c' r => String c (String c' r)
      end
  end.

(** [s.strip()]: the white space at both ends is removed. *)
Definition strip (s : string) : string := rstrip (lstrip s).

End PyStr.

(* ================================================================= *)
(** ** The fragment of [re] the sources use

    The only pattern is [&([0-9A-F]{12})]: a sequence of character classes
    of fixed length, with one group.  [search] scans the start positions from
    the left and returns the first match. *)

Module Re.

Definition char_class := ascii -> bool.

Definition lit (c : ascii) : char_class := fun a => Ascii.eqb a c.

(** The class [[0-9A-F]]. *)
Definition hex_upper : char_class := fun a =>
  let n := nat_of_ascii a in
  ((48 <=? n)%nat && (n <=? 57)%nat) || ((65 <=? n)%nat && (n <=? 70)%nat).

(** Match the pattern at the start of [s]; the result is the matched text. *)
Fixpoint match_here (pat : list char_class) (s : string) : option string :=
  match pat with
  | [] => Some ""
  | cl :: pat' =>
      match s with
      | EmptyString => None
      | String a s' =>
          if cl a then option_map (String a) (match_here pat' s') else None
      end
  end.

(** [re.search(pat, s)]: the leftmost match, or [None]. *)
Fixpoint search (pat : list char_class) (s : string) : option string :=
  match match_here pat s with
  | Some m => Some m
  | None =>
      match s with
      | EmptyString => None
      | String _ s' => search pat s'
      end
  end.

(** [r'&([0-9A-F]{12})'] *)
Definition mac_pattern : list char_class :=
  lit "&" :: repeat hex_upper 12.

(** [match.group(1)] for [mac_pattern]: the twelve characters after [&]. *)
Definition group1 (m : string) : string := substring 1 12 m.

End Re.

(* ================================================================= *)
(** ** Python numbers and their formatting *)

Module PyNum.

Local Open Scope Z_scope.

Definition prec : Z := 53.
Definition emax : Z := 1024.

(** A magnitude is a Python [int] or a Python [float]. *)
Inductive pynum : Type :=
| PyInt (z : Z)
| PyFloat (f : spec_float).

(** An integer as an exact, not yet rounded, binary value. *)
Definition exact_int (z : Z) : spec_float :=
  match z with
  | Z0 => S754_zero false
  | Zpos p => S754_finite false p 0
  | Zneg p => S754_finite true p 0
  end.

(** [float(z)]: the nearest binary64 value, ties to even. *)
Definition float_of_int (z : Z) : spec_float :=
  binary_normalize prec emax z 0 false.

Definition to_float (x : pynum) : spec_float :=
  match x with
  | PyInt z => float_of_int z
  | PyFloat f => f
  end.

(** [isinstance(value, float)] *)
Definition is_float (x : pynum) : bool :=
  match x with PyFloat _ => true | PyInt _ => false end.

(** [x * y]: integer product of two integers, otherwise the binary64 product
    of the operands converted to [float]. *)
Definition mul (x y : pynum) : pynum :=
  match x, y with
  | PyInt a, PyInt b => PyInt (a * b)
  | _, _ => PyFloat (SFmul prec emax (to_float x) (to_float y))
  end.

(** [x + y] *)
Definition add (x y : pynum) : pynum :=
  match x, y with
  | PyInt a, PyInt b => PyInt (a + b)
  | _, _ => PyFloat (SFadd prec emax (to_float x) (to_float y))
  end.

(** [x / y], true division: always a [float]; the quotient of two integers
    is rounded once.  The sources divide by the literal [5] only, so that
    [ZeroDivisionError] does not arise. *)
Definition truediv (x y : pynum) : pynum :=
  match x, y with
  | PyInt a, PyInt b => PyFloat (SFdiv prec emax (exact_int a) (exact_int b))
  | _, _ => PyFloat (SFdiv prec emax (to_float x) (to_float y))
  end.

(** A decimal literal [num / 10^digits] read as a [float]. *)
Definition decimal_literal (num : Z) (digits : nat) : pynum :=
  PyFloat (SFdiv prec emax (exact_int num) (exact_int (10 ^ Z.of_nat digits))).

(** Round the exact quotient [num / den] ([den > 0], [num >= 0]) to the
    nearest integer, ties to even. *)
Definition round_half_even (num den : Z) : Z :=
  let q := num / den in
  let r := num mod den in
  if (den <? 2 * r) || ((den =? 2 * r) && Z.odd q) then q + 1 else q.

(** The magnitude [m * 2^e] scaled by [10^digits] and rounded to an
    integer. *)
Definition scaled_round (digits : nat) (m : positive) (e : Z) : Z :=
  let num := Zpos m * 10 ^ Z.of_nat digits in
  if 0 <=? e then num * 2 ^ e else round_half_even num (2 ^ (- e)).

Fixpoint zero_pad (width : nat) (s : string) : string :=
  match width with
  | O => s
  | S w => if (String.length s <=? w)%nat then zero_pad w (String "0" s) else s
  end.

(** The digits of the scaled integer [n] with the decimal point put back. *)
Definition fixed_digits (digits : nat) (n : Z) : string :=
  let p := 10 ^ Z.of_nat digits in
  let int_part := PyStr.str_int (n / p) in
  match digits with
  | O => int_part
  | _ => (int_part ++ "." ++ zero_pad digits (PyStr.str_int (n mod p)))%string
  end.

(** [format(x, ".<digits>f")] on a [float]: the exact binary value rounded
    to [digits] decimals, ties to even; the sign of a negative value is kept
    also when it rounds to zero. *)
Definition format_f (digits : nat) (x : spec_float) : string :=
  match x with
  | S754_zero s => ((if s then "-" else "") ++ fixed_digits digits 0)%string
  | S754_infinity s => ((if s then "-" else "") ++ "inf")%string
  | S754_nan => "nan"%string
  | S754_finite s m e =>
      ((if s then "-" else "") ++ fixed_digits digits (scaled_round digits m e))%string
  end.

(** [f"{value:.<digits>f}"]: an [int] is converted to [float] first. *)
Definition format_fixed (digits : nat) (x : pynum) : string :=
  format_f digits (to_float x).

End PyNum.

(* ================================================================= *)
(** ** The outside world: values, events and the effect monad *)

Module World.

(** One entry of [serial.tools.list_ports.comports()]. *)
Record ListPortInfo : Type := {
  device : string;
  description : string;
  hwid : string
}.

(** The commands of [obd.commands] the loggers query. *)
Inductive command : Type :=
| COOLANT_TEMP | RPM | THROTTLE_POS | ENGINE_LOAD
| SPEED | FUEL_LEVEL | INTAKE_TEMP | AMBIANT_AIR_TEMP
| OTHER_COMMAND (name : string).

Definition command_eqb (a b : command) : bool :=
  match a, b with
  | COOLANT_TEMP, COOLANT_TEMP | RPM, RPM | THROTTLE_POS, THROTTLE_POS
  | ENGINE_LOAD, ENGINE_LOAD | SPEED, SPEED | FUEL_LEVEL, FUEL_LEVEL
  | INTAKE_TEMP, INTAKE_TEMP | AMBIANT_AIR_TEMP, AMBIANT_AIR_TEMP => true
  | OTHER_COMMAND x, OTHER_COMMAND y => String.eqb x y
  | _, _ => false
  end.

(** [cmd in (c1, c2, ...)] *)
Definition command_in (c : command) (cs : list command) : bool :=
  existsb (command_eqb c) cs.

(** A [pint] quantity: [value.magnitude] and [str(value.u)]. *)
Record Quantity : Type := {
  magnitude : PyNum.pynum;
  units : string
}.

(** An [obd.OBDResponse]. *)
Record OBDResponse : Type := {
  resp_command : option command;
  resp_messages : list string;
  resp_value : option Quantity
}.

(** [OBDResponse.is_null()]:
    [(not self.messages) or (self.value == None)]. *)
Definition is_null (r : OBDResponse) : bool :=
  match resp_messages r with
  | [] => true
  | _ :: _ =>
      match resp_value r with
      | None => true
      | Some _ => false
      end
  end.

(** [OBDResponse.unit]: the unit of the value when it is a quantity. *)
Definition resp_unit (r : OBDResponse) : option string :=
  option_map units (resp_value r).

(** An [obd.OBD] connection object as the negotiator sees it right after
    construction: what [is_connected()] answers. *)
Record Conn : Type := {
  conn_id : nat;
  conn_port : string;
  connected : bool
}.

Inductive obd_result : Type :=
| Opened (c : Conn)
| OpenRaises (msg : string).

Inductive query_result : Type :=
| Response (r : OBDResponse)
| QueryRaises (msg : string).

(** Callbacks handed to [root.after(0, ...)]. *)
Inductive callback : Type :=
| UpdateUiOnConnect (port : string)
| UpdateUiOnFail (reason : string)
| Disconnect
| ToggleMonitoring
| UpdateGuiAndCsv (timestamp : string) (row_data : list string)
| MonitorBtnConfigText (text : string).

(** What a run does to the outside, in program order. *)
Inductive event : Type :=
| Print (msg : string)
| Log (msg : string)
| Sleep (seconds : PyNum.pynum)
| SerialOpen (port : string) (baudrate timeout : Z)
| SerialClose (port : string)
| ObdOpen (port : string) (baudrate : Z) (protocol : option string)
          (fast : bool) (timeout : Z)
| ObdClose (c : Conn)
| ObdQuery (cmd : command)
| After (cb : callback)
| SetConnection (c : Conn)
| SetRunning (b : bool)
| DisplayTable (data : list (list (option string))) (port : string)
| Input (prompt : string)
| SaveToCsv (data : list (list (option string))).

(** The answers of the operating system, the adapter and the user.  The
    OBD session capability is simulated: [OBD port attempt] is what the
    [attempt]-th constructor call of the retry loop on [port] yields; the
    monitoring answers are indexed by the tick of the loop. *)
Record Env : Type := {
  comports : list ListPortInfo;
  serial_Serial : string -> option string;
  serial_close : string -> option string;
  OBD : string -> Z -> obd_result;
  query : nat -> command -> query_result;
  now : nat -> string;
  ctrl_c : nat -> bool;
  save_answer_is_y : bool;
  self_running : nat -> bool;
  self_connection_set : nat -> bool;
  is_connected : nat -> bool;
  str_float : spec_float -> string
}.

(** An exception caught by [except Exception], with [str(e)]. *)
Inductive exn : Type :=
| Exception (msg : string).

Inductive outcome (A : Type) : Type :=
| Ret (a : A)
| Raise (e : exn)
| OutOfFuel.

Arguments Ret {A} a.
Arguments Raise {A} e.
Arguments OutOfFuel {A}.

(** A computation: the events it performed and how it ended. *)
Definition M (A : Type) : Type := (list event * outcome A)%type.

Definition ret {A} (a : A) : M A := ([], Ret a).

Definition bind {A B} (m : M A) (f : A -> M B) : M B :=
  match m with
  | (t, Ret a) => let (t', r) := f a in ((t ++ t')%list, r)
  | (t, Raise e) => (t, Raise e)
  | (t, OutOfFuel) => (t, OutOfFuel)
  end.

Definition emit (e : event) : M unit := ([e], Ret tt).

Definition raise {A} (e : exn) : M A := ([], Raise e).

(** [try: m  except Exception as e: h(str(e))] *)
Definition try_except {A} (m : M A) (h : string -> M A) : M A :=
  match m with
  | (t, Raise (Exception msg)) => let (t', r) := h msg in ((t ++ t')%list, r)
  | _ => m
  end.

(** [try: m  finally: fin]: the [finally] block runs when the [try] block
    is left, by its end or by an exception; a [try] block that is still
    running has not reached it. *)
Definition try_finally {A} (m : M A) (fin : M unit) : M A :=
  match m with
  | (t, OutOfFuel) => (t, OutOfFuel)
  | (t, r) =>
      match fin with
      | (t', Ret _) => ((t ++ t')%list, r)
      | (t', Raise e) => ((t ++ t')%list, Raise e)
      | (t', OutOfFuel) => ((t ++ t')%list, OutOfFuel)
      end
  end.

Definition trace {A} (m : M A) : list event := fst m.
Definition result {A} (m : M A) : outcome A := snd m.

End World.

Export World.

Notation "x <- m ;; k" := (bind m (fun x => k))
  (at level 61, m at next level, right associativity).
Notation "m ;; k" := (bind m (fun _ => k))
  (at level 61, right associativity).

(** [time.sleep(n)] with an integer argument. *)
Definition sleep (n : Z) : M unit := emit (Sleep (PyNum.PyInt n)).
Definition print (msg : string) : M unit := emit (Print msg).

(** The newline character of ["\n"]. *)
Definition nl : string := String (ascii_of_nat 10) "".

(** [connection.query(cmd)] at tick [n]. *)
Definition do_query (env : Env) (n : nat) (cmd : command) : M OBDResponse :=
  emit (ObdQuery cmd);;
  match query env n cmd with
  | Response r => ret r
  | QueryRaises msg => raise (Exception msg)
  end.

(** [OBD(portstr=port, baudrate=..., protocol=..., fast=..., timeout=...)]
    as the [attempt]-th call of a retry loop. *)
Definition do_OBD (env : Env) (port : string) (baudrate : Z)
    (protocol : option string) (fast : bool) (timeout : Z) (attempt : Z)
    : M Conn :=
  emit (ObdOpen port baudrate protocol fast timeout);;
  match OBD env port attempt with
  | Opened c => ret c
  | OpenRaises msg => raise (Exception msg)
  end.

(* ================================================================= *)
(** ** [OBD-v2.py] *)

Module V2.

Definition REFRESH_RATE : PyNum.pynum := PyNum.PyFloat (PyNum.float_of_int 1).

Definition extract_mac_from_hwid (hwid : string) : string :=
  match Re.search Re.mac_pattern (PyStr.upper hwid) with
  | Some m =>
      let mac_raw := Re.group1 m in
      let mac :=
        PyStr.join ":" (map (fun i => PyStr.slice mac_raw i 2)
                            (PyStr.range_step 0 12 2)) in
      mac
  | None => "00:00:00:00:00:00"
  end.

Fixpoint list_paired_bluetooth_ports (ports : list ListPortInfo)
    : list (string * string) :=
  match ports with
  | [] => []
  | port :: ports' =>
      if PyStr.contains "Bluetooth" (description port) then
        let mac := extract_mac_from_hwid (hwid port) in
        if negb (String.eqb mac "00:00:00:00:00:00") then
          (device port, mac) :: list_paired_bluetooth_ports ports'
        else list_paired_bluetooth_ports ports'
      else list_paired_bluetooth_ports ports'
  end.

(** [get_formatted_value(response, unit)]; the module constant [UNITS] is
    an argument.  The result is a [str] or [None]. *)
Definition get_formatted_value (UNITS : string) (response : OBDResponse)
    (unit : string) : option string :=
  if is_null response then None
  else
    match resp_value response with
    | None => None (* not reached: [is_null] holds when the value is None *)
    | Some q =>
        let value := magnitude q in
        let '(value, unit) :=
          if String.eqb unit "°C" && String.eqb UNITS "imperial" then
            (PyNum.add (PyNum.truediv (PyNum.mul value (PyNum.PyInt 9))
                                      (PyNum.PyInt 5))
                       (PyNum.PyInt 32),
             "°F")
          else if String.eqb unit "km/h" && String.eqb UNITS "imperial" then
            (PyNum.mul value (PyNum.decimal_literal 621371 6), "mph")
          else (value, unit) in
        Some (match value with
              | PyNum.PyFloat _ => PyNum.format_fixed 1 value ++ " " ++ unit
              | PyNum.PyInt z => PyStr.str_int z ++ " " ++ unit
              end)
    end.

Section Connect.

Variable env : Env.
Variables (protocol : string) (baudrate retries delay timeout : Z).

(** The settle pre-check of one port: [true] when it went through,
    [false] when the [except] branch skipped the port. *)
Definition precheck (port mac : string) : M bool :=
  print (nl ++ "🔍 Pre-checking " ++ port ++ " (" ++ mac ++ ")...");;
  try_except
    (sleep 2;;
     emit (SerialOpen port baudrate timeout);;
     match serial_Serial env port with
     | Some msg => raise (Exception msg)
     | None =>
         sleep 2;;
         emit (SerialClose port);;
         match serial_close env port with
         | Some msg => raise (Exception msg)
         | None => sleep 10;; ret true
         end
     end)
    (fun e => print ("⚠️ Skipping " ++ port ++ ": " ++ e);; ret false).

(** One pass of the body of [for attempt in range(1, retries + 1)]:
    [Some] is the [return] of the function, [None] lets the loop go on. *)
Definition attempt_once (port : string) (attempt : Z)
    : M (option (Conn * string)) :=
  print ("🧪 Trying OBD connection on " ++ port ++ " (Attempt "
         ++ PyStr.str_int attempt ++ "/" ++ PyStr.str_int retries ++ ")...");;
  r <- try_except
         (connection <- do_OBD env port baudrate (Some protocol) false
                               timeout attempt;;
          if connected connection then
            print ("✅ Connected successfully on " ++ port);;
            ret (Some (connection, port))
          else
            print ("❌ " ++ port ++ " did not respond as OBD.");;
            emit (ObdClose connection);;
            ret None)
         (fun e => print ("⛔ Error on " ++ port ++ ": " ++ e);; ret None);;
  match r with
  | Some found => ret (Some found)
  | None => emit (Sleep (PyNum.PyInt delay));; ret None
  end.

Fixpoint attempts_loop (port : string) (attempts : list Z)
    : M (option (Conn * string)) :=
  match attempts with
  | [] => ret None
  | attempt :: attempts' =>
      r <- attempt_once port attempt;;
      match r with
      | Some found => ret (Some found)
      | None => attempts_loop port attempts'
      end
  end.

(** [for port, mac in available_ports]: pre-check, then the attempts. *)
Fixpoint ports_loop (available_ports : list (string * string))
    : M (option (Conn * string)) :=
  match available_ports with
  | [] => ret None
  | (port, mac) :: rest =>
      ok <- precheck port mac;;
      if ok then
        r <- attempts_loop port (PyStr.range_from_1 (retries + 1));;
        match r with
        | Some found => ret (Some found)
        | None => ports_loop rest
        end
      else ports_loop rest
  end.

Fixpoint print_found (available_ports : list (string * string)) : M unit :=
  match available_ports with
  | [] => ret tt
  | (port, mac) :: rest =>
      print ("  - " ++ port ++ " (MAC: " ++ mac ++ ")");; print_found rest
  end.

(** [connect_with_retry(protocol, baudrate, retries, delay, timeout)]:
    the pair [(connection, port)] or [(None, None)]. *)
Definition connect_with_retry : M (option Conn * option string) :=
  print "🔄 Waiting before first attempt...";;
  sleep 5;;
  print "🔍 Scanning for paired Bluetooth OBD-II devices...";;
  let available_ports := list_paired_bluetooth_ports (comports env) in
  match available_ports with
  | [] =>
      print "🚫 No paired Bluetooth OBD-II ports found.";;
      ret (None, None)
  | _ :: _ =>
      print "🧭 Found paired ports:";;
      print_found available_ports;;
      r <- ports_loop available_ports;;
      match r with
      | Some (connection, port) => ret (Some connection, Some port)
      | None =>
          print "🚫 No responsive OBD-II adapter found.";;
          ret (None, None)
      end
  end.

End Connect.

Section Main.

Variable env : Env.
Variables (UNITS PROTOCOL : string) (BAUDRATE : Z).

Definition row : Type := list (option string).

(** One pass of the body of [while True] in [main]: a row is built from
    the eight queries, appended to [data_log] and displayed.  The session
    is never asked whether it is still connected. *)
Definition sample_once (tick : nat) (detected_port : string)
    (data_log : list row) : M (list row) :=
  let timestamp := now env tick in
  v1 <- do_query env tick COOLANT_TEMP;;
  v2 <- do_query env tick RPM;;
  v3 <- do_query env tick THROTTLE_POS;;
  v4 <- do_query env tick ENGINE_LOAD;;
  v5 <- do_query env tick SPEED;;
  v6 <- do_query env tick FUEL_LEVEL;;
  v7 <- do_query env tick INTAKE_TEMP;;
  v8 <- do_query env tick AMBIANT_AIR_TEMP;;
  let row := [ Some timestamp;
               get_formatted_value UNITS v1 "°C";
               get_formatted_value UNITS v2 "";
               get_formatted_value UNITS v3 "%";
               get_formatted_value UNITS v4 "%";
               get_formatted_value UNITS v5 "km/h";
               get_formatted_value UNITS v6 "%";
               get_formatted_value UNITS v7 "°C";
               get_formatted_value UNITS v8 "°C" ] in
  let data_log := (data_log ++ [row])%list in
  emit (DisplayTable data_log detected_port);;
  ret data_log.

(** [while True: ...]: the loop ends only by [KeyboardInterrupt], which the
    user sends during the sleep of a tick ([ctrl_c env tick]); the result
    is [data_log] at that moment.  [fuel] bounds the ticks looked at. *)
Fixpoint sample_loop (fuel tick : nat) (detected_port : string)
    (data_log : list row) : M (list row) :=
  match fuel with
  | O => ([], OutOfFuel)
  | S fuel' =>
      data_log <- sample_once tick detected_port data_log;;
      emit (Sleep REFRESH_RATE);;
      if ctrl_c env tick then ret data_log
      else sample_loop fuel' (S tick) detected_port data_log
  end.

(** [main()]: connect, then sample until interrupted; the [except
    KeyboardInterrupt] branch follows the loop, the [finally] branch closes
    the connection. *)
Definition main (fuel : nat) : M unit :=
  found <- connect_with_retry env PROTOCOL BAUDRATE 5 2 3;;
  match found with
  | (Some connection, Some detected_port) =>
      if negb (connected connection) then
        print "❌ Could not establish a stable connection to the vehicle."
      else
        print "✅ OBD-II adapter connected.";;
        print "⏳ Waiting 2 seconds to stabilize...";;
        sleep 2;;
        try_finally
          (data_log <- sample_loop fuel 0 detected_port [];;
           print (nl ++ "⏹️ Monitoring stopped by user.");;
           match data_log with
           | [] => ret tt
           | _ :: _ =>
               emit (Input "💾 Save data to CSV? (y/n): ");;
               if save_answer_is_y env then emit (SaveToCsv data_log)
               else ret tt
           end)
          (emit (ObdClose connection);;
           print "🔌 OBD connection closed.")
  | _ => print "❌ Could not establish a stable connection to the vehicle."
  end.

End Main.

End V2.

(* ================================================================= *)
(** ** [OBD-v3.py]

    The text of [extract_mac_from_hwid], [list_paired_bluetooth_ports],
    [get_formatted_value] and [connect_with_retry] in [OBD-v3.py] is that of
    [OBD-v2.py], comments apart. *)

Module V3.

Definition extract_mac_from_hwid := V2.extract_mac_from_hwid.
Definition list_paired_bluetooth_ports := V2.list_paired_bluetooth_ports.
Definition get_formatted_value := V2.get_formatted_value.
Definition ports_loop := V2.ports_loop.
Definition connect_with_retry := V2.connect_with_retry.

End V3.

(* ================================================================= *)
(** ** The monitoring loop of the GUI variants *)

(** How one pass of a [while] body ends. *)
Inductive loop_ctl : Type := Continue | Break.

(** [d.get(key, default)] on a dict literal kept as an association list. *)
Fixpoint dict_get (d : list (string * string)) (key default : string) : string :=
  match d with
  | [] => default
  | (k, v) :: d' => if String.eqb k key then v else dict_get d' key default
  end.

(* ================================================================= *)
(** ** [OBD-v4.py] *)

Module V4.

Definition REFRESH_RATE : PyNum.pynum := PyNum.PyFloat (PyNum.float_of_int 2).

Definition headers : list string :=
  [ "Timestamp"; "Coolant Temp"; "Engine RPM"; "Throttle Pos"; "Engine Load";
    "Speed"; "Fuel Level"; "Intake Temp"; "Ambient Temp" ]%list.

Definition extract_mac_from_hwid (hwid : string) : string :=
  match Re.search Re.mac_pattern (PyStr.upper hwid) with
  | Some m =>
      let mac_raw := Re.group1 m in
      PyStr.join ":" (map (fun i => PyStr.slice mac_raw i 2)
                          (PyStr.range_step 0 12 2))
  | None => "00:00:00:00:00:00"
  end.

Fixpoint list_paired_bluetooth_ports (all_ports : list ListPortInfo)
    : list (string * string) :=
  match all_ports with
  | [] => []
  | port :: ports' =>
      if PyStr.contains "Bluetooth" (description port) then
        let mac := extract_mac_from_hwid (hwid port) in
        if negb (String.eqb mac "00:00:00:00:00:00") then
          (device port, mac) :: list_paired_bluetooth_ports ports'
        else list_paired_bluetooth_ports ports'
      else list_paired_bluetooth_ports ports'
  end.

(** [get_formatted_value(response)]; [response] may be [None]. *)
Definition get_formatted_value (response : option OBDResponse) : string :=
  match response with
  | None => "N/A"
  | Some response =>
      if is_null response then "N/A"
      else
        match resp_value response with
        | None => "N/A"
        | Some q =>
            let value := magnitude q in
            let unit_label :=
              match resp_unit response with
              | Some u => u
              | None => "None"
              end in
            match value with
            | PyNum.PyFloat _ => PyNum.format_fixed 1 value ++ " " ++ unit_label
            | PyNum.PyInt z => PyStr.str_int z ++ " " ++ unit_label
            end
        end
  end.

Section Monitor.

Variable env : Env.

(** The [try] block of one pass of [while self.running]. *)
Definition tick_body (tick : nat) : M loop_ctl :=
  if negb (self_connection_set env tick) || negb (is_connected env tick) then
    emit (Log "⚠️ Connection lost! Stopping monitoring.");;
    emit (After Disconnect);;
    ret Break
  else
    let timestamp := now env tick in
    v1 <- do_query env tick COOLANT_TEMP;;
    v2 <- do_query env tick RPM;;
    v3 <- do_query env tick THROTTLE_POS;;
    v4 <- do_query env tick ENGINE_LOAD;;
    v5 <- do_query env tick SPEED;;
    v6 <- do_query env tick FUEL_LEVEL;;
    v7 <- do_query env tick INTAKE_TEMP;;
    v8 <- do_query env tick AMBIANT_AIR_TEMP;;
    let data_points :=
      [ ("Coolant Temp", get_formatted_value (Some v1));
        ("Engine RPM", get_formatted_value (Some v2));
        ("Throttle Pos", get_formatted_value (Some v3));
        ("Engine Load", get_formatted_value (Some v4));
        ("Speed", get_formatted_value (Some v5));
        ("Fuel Level", get_formatted_value (Some v6));
        ("Intake Temp", get_formatted_value (Some v7));
        ("Ambient Temp", get_formatted_value (Some v8)) ]%list in
    let row_data := map (fun h => dict_get data_points h "N/A") (tl headers) in
    emit (After (UpdateGuiAndCsv timestamp row_data));;
    emit (Sleep REFRESH_RATE);;
    ret Continue.

Definition on_error (e : string) : M loop_ctl :=
  emit (Log ("⛔ ERROR in monitoring loop: " ++ e));;
  emit (Log "⏹️ Halting monitoring due to error.");;
  emit (After ToggleMonitoring);;
  ret Break.

Fixpoint monitor_loop (fuel tick : nat) : M unit :=
  match fuel with
  | O => ([], OutOfFuel)
  | S fuel' =>
      if self_running env tick then
        ctl <- try_except (tick_body tick) on_error;;
        match ctl with
        | Break => ret tt
        | Continue => monitor_loop fuel' (S tick)
        end
      else ret tt
  end.

(** [monitor_data(self)], with [fuel] bounding the number of ticks. *)
Definition monitor_data (fuel : nat) : M unit :=
  monitor_loop fuel 0;;
  emit (After (MonitorBtnConfigText "Start Monitoring"));;
  emit (SetRunning false).

End Monitor.

End V4.

(* ================================================================= *)
(** ** [OBD-v5.py] *)

Module V5.

Definition REFRESH_RATE : PyNum.pynum := PyNum.PyFloat (PyNum.float_of_int 2).
Definition BAUDRATE : Z := 38400.

Definition headers : list string :=
  [ "Timestamp"; "Coolant Temp"; "Engine RPM"; "Throttle Pos"; "Engine Load";
    "Speed"; "Fuel Level"; "Intake Temp"; "Ambient Temp" ]%list.

(** The first [def extract_mac_from_hwid], line 73. *)
Definition extract_mac_from_hwid_line73 (hwid : string) : string :=
  match Re.search Re.mac_pattern (PyStr.upper hwid) with
  | Some m =>
      let mac_raw := Re.group1 m in
      PyStr.join ":" (map (fun i => PyStr.slice mac_raw i 2)
                          (PyStr.range_step 0 12 2))
  | None => "00:00:00:00:00:00"
  end.

(** The second [def extract_mac_from_hwid], line 491. *)
Definition extract_mac_from_hwid_line491 (hwid : string) : string :=
  match Re.search Re.mac_pattern (PyStr.upper hwid) with
  | Some m =>
      let mac_raw := Re.group1 m in
      let mac :=
        PyStr.join ":" (map (fun i => PyStr.slice mac_raw i 2)
                            (PyStr.range_step 0 12 2)) in
      mac
  | None => "Unknown"
  end.

(** The module globals that matter: what the name
    [extract_mac_from_hwid] is bound to ([None] before the first [def]). *)
Record globals : Type := {
  extract_mac_from_hwid : option (string -> string)
}.

(** [list_paired_bluetooth_ports()], which looks the name
    [extract_mac_from_hwid] up in the globals when it is called: the
    argument [extract_mac] is that binding. *)
Fixpoint list_paired_bluetooth_ports (extract_mac : string -> string)
    (all_ports : list ListPortInfo) : list (string * string) :=
  match all_ports with
  | [] => []
  | port :: ports' =>
      if PyStr.contains "Bluetooth" (description port) then
        let mac := extract_mac (hwid port) in
        if negb (String.eqb mac "00:00:00:00:00:00") then
          (device port, mac) :: list_paired_bluetooth_ports extract_mac ports'
        else list_paired_bluetooth_ports extract_mac ports'
      else list_paired_bluetooth_ports extract_mac ports'
  end.

(** The top-level statements of the file that bind or use the name, in
    file order: the [def] of line 73, the GUI entry point of line 482, the
    [def] of line 491 and the entry point of line 524. *)
Inductive toplevel : Type :=
| Def_extract_mac_from_hwid (f : string -> string)
| If_main_run_gui
| If_main_list_ports_with_mac.

Definition module_body : list toplevel :=
  [ Def_extract_mac_from_hwid extract_mac_from_hwid_line73;
    If_main_run_gui;
    Def_extract_mac_from_hwid extract_mac_from_hwid_line491;
    If_main_list_ports_with_mac ]%list.

(** Executing one statement: the globals after it, and the port scans the
    GUI made while it ran ([OBDLoggerApp.__init__] calls
    [update_ports_list], which calls [list_paired_bluetooth_ports]; the GUI
    runs only when the file is the main program). *)
Definition exec_toplevel (is_main : bool) (ports : list ListPortInfo)
    (st : toplevel) (g : globals)
    : globals * list (option (list (string * string))) :=
  match st with
  | Def_extract_mac_from_hwid f => ({| extract_mac_from_hwid := Some f |}, [])
  | If_main_run_gui =>
      if is_main then
        (g, [option_map (fun f => list_paired_bluetooth_ports f ports)
                        (extract_mac_from_hwid g)])
      else (g, [])
  | If_main_list_ports_with_mac => (g, [])
  end.

Fixpoint exec_module (is_main : bool) (ports : list ListPortInfo)
    (body : list toplevel) (g : globals)
    : globals * list (option (list (string * string))) :=
  match body with
  | [] => (g, [])
  | st :: body' =>
      let '(g1, scans1) := exec_toplevel is_main ports st g in
      let '(g2, scans2) := exec_module is_main ports body' g1 in
      (g2, (scans1 ++ scans2)%list)
  end.

(** The globals once the module is loaded. *)
Definition globals_after_load (is_main : bool) (ports : list ListPortInfo)
    : globals :=
  fst (exec_module is_main ports module_body {| extract_mac_from_hwid := None |}).

(** The scans the GUI made during the load. *)
Definition scans_during_load (is_main : bool) (ports : list ListPortInfo)
    : list (option (list (string * string))) :=
  snd (exec_module is_main ports module_body {| extract_mac_from_hwid := None |}).

Section WithEnv.

Variable env : Env.

(** [str(value)] of a magnitude. *)
Definition str_value (value : PyNum.pynum) : string :=
  match value with
  | PyNum.PyInt z => PyStr.str_int z
  | PyNum.PyFloat f => str_float env f
  end.

(** [get_formatted_value(response)]; [response] may be [None]. *)
Definition get_formatted_value (response : option OBDResponse) : string :=
  match response with
  | None => "N/A"
  | Some response =>
      if is_null response then "N/A"
      else
        match resp_value response with
        | None => "N/A"
        | Some q =>
            let value := magnitude q in
            match resp_command response with
            | None => str_value value
            | Some cmd =>
                if command_in cmd [COOLANT_TEMP; INTAKE_TEMP; AMBIANT_AIR_TEMP]%list
                then PyNum.format_fixed 0 value ++ " °C"
                else if command_eqb cmd RPM
                then PyNum.format_fixed 1 value
                else if command_in cmd [THROTTLE_POS; ENGINE_LOAD; FUEL_LEVEL]%list
                then PyNum.format_fixed 1 value ++ " %"
                else if command_eqb cmd SPEED
                then PyNum.format_fixed 1 value ++ " km/h"
                else str_value value
            end
        end
  end.

(** One pass of the body of [for attempt in range(1, 4)]: [true] is the
    [return] after a successful connection. *)
Definition attempt_once (port : string) (attempt : Z) : M bool :=
  emit (Log ("🧪 Trying connection on " ++ port ++ " (Attempt "
             ++ PyStr.str_int attempt ++ "/3)..."));;
  done <- try_except
            (conn <- do_OBD env port BAUDRATE None false 5 attempt;;
             if connected conn then
               emit (Log ("✅ Connection successful on " ++ port ++ "!"));;
               emit (Log "⏳ Stabilizing connection, please wait 5 seconds...");;
               sleep 5;;
               emit (SetConnection conn);;
               emit (After (UpdateUiOnConnect port));;
               ret true
             else
               emit (Log ("❌ " ++ port ++ " did not respond as an OBD device."));;
               emit (ObdClose conn);;
               ret false)
            (fun e => emit (Log ("⛔ Error on " ++ port ++ ": "
                                 ++ PyStr.strip e));;
                      ret false);;
  if done then ret true else sleep 2;; ret false.

Fixpoint attempts_loop (port : string) (attempts : list Z) : M bool :=
  match attempts with
  | [] => ret false
  | attempt :: attempts' =>
      done <- attempt_once port attempt;;
      if done then ret true else attempts_loop port attempts'
  end.

(** [attempt_connection_on_port(self, port)] *)
Definition attempt_connection_on_port (port : string) : M unit :=
  done <- attempts_loop port (PyStr.range_from_1 4);;
  if done then ret tt
  else
    emit (Log ("🚫 All connection attempts failed for " ++ port ++ "."));;
    emit (After (UpdateUiOnFail "Connection Failed")).

(** The [try] block of one pass of [while self.running]. *)
Definition tick_body (tick : nat) : M loop_ctl :=
  if negb (self_connection_set env tick) || negb (is_connected env tick) then
    emit (Log "⚠️ Connection lost! Stopping monitoring.");;
    emit (After Disconnect);;
    ret Break
  else
    let timestamp := now env tick in
    emit (Log "Querying data from vehicle...");;
    v1 <- do_query env tick COOLANT_TEMP;;
    v2 <- do_query env tick RPM;;
    v3 <- do_query env tick THROTTLE_POS;;
    v4 <- do_query env tick ENGINE_LOAD;;
    v5 <- do_query env tick SPEED;;
    v6 <- do_query env tick FUEL_LEVEL;;
    v7 <- do_query env tick INTAKE_TEMP;;
    v8 <- do_query env tick AMBIANT_AIR_TEMP;;
    let data_points :=
      [ ("Coolant Temp", get_formatted_value (Some v1));
        ("Engine RPM", get_formatted_value (Some v2));
        ("Throttle Pos", get_formatted_value (Some v3));
        ("Engine Load", get_formatted_value (Some v4));
        ("Speed", get_formatted_value (Some v5));
        ("Fuel Level", get_formatted_value (Some v6));
        ("Intake Temp", get_formatted_value (Some v7));
        ("Ambient Temp", get_formatted_value (Some v8)) ]%list in
    emit (Log "Data received. Updating GUI and CSV...");;
    let row_data := map (fun h => dict_get data_points h "N/A") (tl headers) in
    emit (After (UpdateGuiAndCsv timestamp row_data));;
    emit (Sleep REFRESH_RATE);;
    ret Continue.

Definition on_error (e : string) : M loop_ctl :=
  emit (Log ("⛔ ERROR in monitoring loop: " ++ e));;
  emit (Log "⏹️ Halting monitoring due to error.");;
  emit (After ToggleMonitoring);;
  ret Break.

Fixpoint monitor_loop (fuel tick : nat) : M unit :=
  match fuel with
  | O => ([], OutOfFuel)
  | S fuel' =>
      if self_running env tick then
        ctl <- try_except (tick_body tick) on_error;;
        match ctl with
        | Break => ret tt
        | Continue => monitor_loop fuel' (S tick)
        end
      else ret tt
  end.

(** [monitor_data(self)], with [fuel] bounding the number of ticks. *)
Definition monitor_data (fuel : nat) : M unit :=
  monitor_loop fuel 0;;
  emit (After (MonitorBtnConfigText "Start Monitoring"));;
  emit (SetRunning false).

End WithEnv.

End V5.

(* ================================================================= *)
(** ** [OBD-v5.py]: the callbacks on the table, the file and the port list

    [initialize_csv], [append_row_to_csv], [update_gui_and_csv],
    [update_ports_list] and the port lookup of [connect]; their text in
    [OBD-v4.py] is the same, comments apart.  The state they work on is
    explicit: the files with their CSV rows, the rows of the table, the
    entries of the vehicle, the dict [port_map] and the combobox.  Failing
    file operations (permissions, a full disk) are outside the model. *)

Module V5Gui.

Definition CSV_FILENAME : string := "obd_dataset.csv".

(** The regular files, each with the rows [csv.writer] wrote to it. *)
Definition filesystem : Type := list (string * list (list string)).

Fixpoint read_file (path : string) (fs : filesystem) : option (list (list string)) :=
  match fs with
  | [] => None
  | (p, rows) :: fs' => if String.eqb p path then Some rows else read_file path fs'
  end.

Fixpoint write_file (path : string) (rows : list (list string)) (fs : filesystem)
    : filesystem :=
  match fs with
  | [] => [(path, rows)]
  | (p, old) :: fs' =>
      if String.eqb p path then (p, rows) :: fs'
      else (p, old) :: write_file path rows fs'
  end.

(** [os.path.isfile(path)] *)
Definition isfile (path : string) (fs : filesystem) : bool :=
  match read_file path fs with
  | Some _ => true
  | None => false
  end.

(** The header row [initialize_csv] writes. *)
Definition csv_header : list string :=
  (["Timestamp"; "Vehicle No"; "Vehicle Type"; "Year"] ++ tl V5.headers)%list.

(** [initialize_csv(file_path)]: mode ['w'] and one [writerow]. *)
Definition initialize_csv (file_path : string) (fs : filesystem) : filesystem :=
  if negb (isfile file_path fs) then write_file file_path [csv_header] fs
  else fs.

(** [append_row_to_csv(file_path, row)]: mode ['a'] creates a missing
    file. *)
Definition append_row_to_csv (file_path : string) (row : list string)
    (fs : filesystem) : filesystem :=
  match read_file file_path fs with
  | Some rows => write_file file_path (rows ++ [row])%list fs
  | None => write_file file_path [row] fs
  end.

(** [s.split(sep)] for a separator of one character. *)
Fixpoint split_char (sep : ascii) (s : string) : list string :=
  match s with
  | EmptyString => [""]
  | String c s' =>
      if Ascii.eqb c sep then "" :: split_char sep s'
      else
        match split_char sep s' with
        | [] => [String c ""]
        | w :: ws => String c w :: ws
        end
  end.

(** [timestamp.split('T')[1].split('+')[0].split('.')[0]]; [None] is the
    [IndexError] of the index [1]. *)
Definition display_ts (timestamp : string) : option string :=
  match nth_error (split_char "T" timestamp) 1 with
  | None => None
  | Some time_part =>
      match nth_error (split_char "+" time_part) 0 with
      | None => None
      | Some no_offset => nth_error (split_char "." no_offset) 0
      end
  end.

Record app_state : Type := {
  tree_exists : bool;
  tree_rows : list (list string);
  veh_no : string;
  veh_type : string;
  yr_mfr : string;
  files : filesystem
}.

(** [update_gui_and_csv(self, timestamp, row_data)]; [None] when the
    first statement raises.  Scrolling the table is left out. *)
Definition update_gui_and_csv (st : app_state) (timestamp : string)
    (row_data : list string) : option app_state :=
  match display_ts timestamp with
  | None => None
  | Some ts =>
      let rows :=
        if tree_exists st then (tree_rows st ++ [ts :: row_data])%list
        else tree_rows st in
      let full_row :=
        ([timestamp; veh_no st; veh_type st; yr_mfr st] ++ row_data)%list in
      Some {| tree_exists := tree_exists st;
              tree_rows := rows;
              veh_no := veh_no st;
              veh_type := veh_type st;
              yr_mfr := yr_mfr st;
              files := append_row_to_csv CSV_FILENAME full_row (files st) |}
  end.

(** A [dict] with string keys: the items in insertion order, every key
    once. *)
Definition dict : Type := list (string * string).

(** [d[k] = v]: a key that is present keeps its place. *)
Fixpoint dict_set (d : dict) (k v : string) : dict :=
  match d with
  | [] => [(k, v)]
  | (k0, v0) :: d' =>
      if String.eqb k0 k then (k0, v) :: d' else (k0, v0) :: dict_set d' k v
  end.

(** [d.get(k)] *)
Fixpoint dict_lookup (d : dict) (k : string) : option string :=
  match d with
  | [] => None
  | (k0, v0) :: d' => if String.eqb k0 k then Some v0 else dict_lookup d' k
  end.

(** [f"{port} (MAC: {mac})"] *)
Definition display_string (port mac : string) : string :=
  port ++ " (MAC: " ++ mac ++ ")".

(** [{f"{port} (MAC: {mac})": port for port, mac in ports_with_mac}] *)
Definition build_port_map (ports_with_mac : list (string * string)) : dict :=
  fold_left (fun d pm => dict_set d (display_string (fst pm) (snd pm)) (fst pm))
            ports_with_mac [].

Record port_widgets : Type := {
  port_map : dict;
  combo_values : list string;
  combo_selection : string;
  logged : list string
}.

(** [update_ports_list(self)] on the result of the scan. *)
Definition update_ports_list (ports_with_mac : list (string * string))
    : port_widgets :=
  let port_map := build_port_map ports_with_mac in
  let display_values := map fst port_map in
  match display_values with
  | first :: _ =>
      {| port_map := port_map;
         combo_values := display_values;
         combo_selection := first;
         logged :=
           [ "Scanning for paired Bluetooth devices by MAC address...";
             "Found paired ports: " ++ PyStr.join ", " display_values ] |}
  | [] =>
      {| port_map := port_map;
         combo_values := display_values;
         combo_selection := "";
         logged :=
           [ "Scanning for paired Bluetooth devices by MAC address...";
             "No paired Bluetooth devices with valid MAC addresses found." ] |}
  end.

(** What [connect(self)] decides from the combobox: the two early
    returns, or the port it hands to [attempt_connection_on_port].  The
    labels and buttons it configures are left out. *)
Inductive connect_decision : Type :=
| PleaseSelect
| PortNotFound (display : string)
| StartAttempt (port : string).

Definition connect (w : port_widgets) : connect_decision :=
  let display := combo_selection w in
  if String.eqb display "" then PleaseSelect
  else
    match dict_lookup (port_map w) display with
    | None => PortNotFound display
    | Some port =>
        if String.eqb port "" then PortNotFound display else StartAttempt port
    end.

End V5Gui.

(* ================================================================= *)
(** ** Observations on traces *)

(** The samples a run handed to the GUI and the CSV file. *)
Fixpoint samples_emitted (t : list event) : list (string * list string) :=
  match t with
  | [] => []
  | After (UpdateGuiAndCsv ts row_data) :: t' => (ts, row_data) :: samples_emitted t'
  | _ :: t' => samples_emitted t'
  end.

(** The tables a run of the command-line logger displayed, one a sample. *)
Fixpoint tables_displayed (t : list event) : nat :=
  match t with
  | [] => 0
  | DisplayTable _ _ :: t' => S (tables_displayed t')
  | _ :: t' => tables_displayed t'
  end.

(** The OBD sessions a run tried to open on [port]. *)
Fixpoint obd_opens (port : string) (t : list event) : nat :=
  match t with
  | [] => 0
  | ObdOpen p _ _ _ _ :: t' =>
      if String.eqb p port then S (obd_opens port t') else obd_opens port t'
  | _ :: t' => obd_opens port t'
  end.

(** The settle pre-checks and OBD open attempts of a run, on any port. *)
Fixpoint negotiation_calls (t : list event) : nat :=
  match t with
  | [] => 0
  | SerialOpen _ _ _ :: t' => S (negotiation_calls t')
  | ObdOpen _ _ _ _ _ :: t' => S (negotiation_calls t')
  | _ :: t' => negotiation_calls t'
  end.

(** The OBD sessions a run tried to open, on any port. *)
Fixpoint total_obd_opens (t : list event) : nat :=
  match t with
  | [] => 0
  | ObdOpen _ _ _ _ _ :: t' => S (total_obd_opens t')
  | _ :: t' => total_obd_opens t'
  end.

(** The raw serial devices a run tried to open. *)
Fixpoint serial_opens (t : list event) : nat :=
  match t with
  | [] => 0
  | SerialOpen _ _ _ :: t' => S (serial_opens t')
  | _ :: t' => serial_opens t'
  end.

(** The sessions a run closed. *)
Fixpoint closed_sessions (t : list event) : list Conn :=
  match t with
  | [] => []
  | ObdClose c :: t' => c :: closed_sessions t'
  | _ :: t' => closed_sessions t'
  end.

(** The callbacks a run scheduled with [root.after]. *)
Fixpoint scheduled (t : list event) : list callback :=
  match t with
  | [] => []
  | After cb :: t' => cb :: scheduled t'
  | _ :: t' => scheduled t'
  end.

(** The sessions a run stored in [self.connection]. *)
Fixpoint stored_sessions (t : list event) : list Conn :=
  match t with
  | [] => []
  | SetConnection c :: t' => c :: stored_sessions t'
  | _ :: t' => stored_sessions t'
  end.

(* ================================================================= *)
(** ** Vocabulary of the statements *)

(** The pattern [pat] matches [s] at start position [i]. *)
Definition matches_at (pat : list Re.char_class) (s : string) (i : nat) : Prop :=
  forall k, k < List.length pat ->
    exists c, get (i + k) s = Some c /\ nth k pat (fun _ => false) c = true.

(** An address token starts at position [i] of [s]: an ampersand followed
    by twelve characters of [[0-9A-F]]. *)
Definition token_at (s : string) (i : nat) : Prop :=
  get i s = Some "&"%char /\
  forall k, k < 12 ->
    exists c, get (i + 1 + k) s = Some c /\ Re.hex_upper c = true.

(** A hexadecimal digit in either case. *)
Definition is_hex_digit (c : ascii) : bool :=
  let n := nat_of_ascii c in
  ((48 <=? n)%nat && (n <=? 57)%nat) || ((65 <=? n)%nat && (n <=? 70)%nat)
  || ((97 <=? n)%nat && (n <=? 102)%nat).

(** The same for a hardware id as the operating system gives it, before
    it is put in upper case. *)
Definition hex_token_at (s : string) (i : nat) : Prop :=
  get i s = Some "&"%char /\
  forall k, k < 12 ->
    exists c, get (i + 1 + k) s = Some c /\ is_hex_digit c = true.

(** [mac] is the twelve characters of [run] in their order, a colon put
    after every second one but the last. *)
Definition octet_grouping (run mac : string) : Prop :=
  exists a b c d e f g h i j k l : ascii,
    run = String a (String b (String c (String d (String e (String f
          (String g (String h (String i (String j (String k (String l
          "")))))))))))
    /\ mac = String a (String b (String ":" (String c (String d (String ":"
             (String e (String f (String ":" (String g (String h (String ":"
             (String i (String j (String ":" (String k (String l
             "")))))))))))))))).

(** *** Sample data *)

(** A hardware id as Windows reports it for a paired adapter, the address
    in lower case. *)
Definition paired_hwid : string :=
  "BTHENUM\{00001101-0000-1000-8000-00805F9B34FB}_LOCALMFG&0002\7&2B1D3A5&0&001da5084912_C00000000".

(** The hardware id of a Bluetooth port with no remote device: the address
    field is all zeros. *)
Definition unpaired_hwid : string :=
  "BTHENUM\{00001101-0000-1000-8000-00805F9B34FB}_LOCALMFG&0000\7&2F2D8A6&0&000000000000_00000000".

Definition two_token_hwid : string := "X&aaaaaaaaaaaa&001DA5084912".

Definition usb_hwid : string := "USB VID:PID=0403:6001 SER=A50285BI".

(** A response that carries a value. *)
Definition answered (cmd : command) (x : PyNum.pynum) (u : string) : OBDResponse :=
  {| resp_command := Some cmd;
     resp_messages := ["7E8 03 41 05 85"]%list;
     resp_value := Some {| magnitude := x; units := u |} |}.

(** The response of a query that got no answer, [OBDResponse()]. *)
Definition null_response : OBDResponse :=
  {| resp_command := None; resp_messages := []%list; resp_value := None |}.

(** The reading [93.0] degrees Celsius of the coolant temperature; the
    unit of the quantity prints as [degree_Celsius]. *)
Definition coolant_93 : OBDResponse :=
  answered COOLANT_TEMP (PyNum.PyFloat (PyNum.float_of_int 93)) "degree_Celsius".

(** The reading [93.04] degrees Celsius. *)
Definition coolant_93_04 : OBDResponse :=
  answered COOLANT_TEMP (PyNum.decimal_literal 9304 2) "degree_Celsius".

(** The hardware id of a second paired adapter. *)
Definition second_paired_hwid : string :=
  "BTHENUM\{00001101-0000-1000-8000-00805F9B34FB}_LOCALMFG&0002\7&2B1D3A5&0&001DA5084913_C00000000".

(** A simulated world: paired adapters on [COM4] and [COM9]; the session opened
    by attempt [good_attempt], if any, is connected, the others are not; the link
    holds for the first [live_ticks] ticks of the monitoring loop, which
    nobody stops; the user interrupts the command-line logger during
    tick [stop_tick]. *)
Definition simulated_env (good_attempt : option Z) (live_ticks stop_tick : nat)
    : Env :=
  {| comports :=
       [ {| device := "COM4";
            description := "Standard Serial over Bluetooth link (COM4)";
            hwid := paired_hwid |};
         {| device := "COM9";
            description := "Standard Serial over Bluetooth link (COM9)";
            hwid := second_paired_hwid |} ]%list;
     serial_Serial := fun _ => None;
     serial_close := fun _ => None;
     OBD := fun port attempt =>
       Opened {| conn_id := Z.to_nat attempt; conn_port := port;
                 connected :=
                   match good_attempt with
                   | Some good => Z.eqb attempt good
                   | None => false
                   end |};
     query := fun tick cmd =>
       Response (if (tick <? live_ticks)%nat
                 then answered cmd (PyNum.PyInt 50) "percent"
                 else null_response);
     now := fun tick => "12:00:0" ++ PyStr.str_nat tick;
     ctrl_c := fun tick => (tick =? stop_tick)%nat;
     save_answer_is_y := false;
     self_running := fun _ => true;
     self_connection_set := fun _ => true;
     is_connected := fun tick => (tick <? live_ticks)%nat;
     str_float := fun _ => "?" |}.

(** The same world with another list of serial ports. *)
Definition with_comports (ports : list ListPortInfo) (env : Env) : Env :=
  {| comports := ports;
     serial_Serial := serial_Serial env;
     serial_close := serial_close env;
     OBD := OBD env;
     query := query env;
     now := now env;
     ctrl_c := ctrl_c env;
     save_answer_is_y := save_answer_is_y env;
     self_running := self_running env;
     self_connection_set := self_connection_set env;
     is_connected := is_connected env;
     str_float := str_float env |}.

(** A machine with a USB serial port and an unpaired Bluetooth port. *)
Definition unpaired_ports : list ListPortInfo :=
  [ {| device := "COM1"; description := "USB Serial Port (COM1)";
       hwid := usb_hwid |};
    {| device := "COM3";
       description := "Standard Serial over Bluetooth link (COM3)";
       hwid := unpaired_hwid |} ]%list.

(** *** Traces of the negotiator *)

(** The [attempt]-th open on [port] fails: the session is not connected,
    or the constructor raises. *)
Definition attempt_fails (env : Env) (port : string) (attempt : Z) : Prop :=
  match OBD env port attempt with
  | Opened c => connected c = false
  | OpenRaises _ => True
  end.

Section V2Traces.

Variable env : Env.
Variables (protocol : string) (baudrate retries delay timeout : Z).

(** The settle pre-check of a port that opens and closes. *)
Definition v2_precheck_events (port mac : string) : list event :=
  [ Print (nl ++ "🔍 Pre-checking " ++ port ++ " (" ++ mac ++ ")...");
    Sleep (PyNum.PyInt 2);
    SerialOpen port baudrate timeout;
    Sleep (PyNum.PyInt 2);
    SerialClose port;
    Sleep (PyNum.PyInt 10) ]%list.

Definition v2_open_events (port : string) (attempt : Z) : list event :=
  [ Print ("🧪 Trying OBD connection on " ++ port ++ " (Attempt "
           ++ PyStr.str_int attempt ++ "/" ++ PyStr.str_int retries ++ ")...");
    ObdOpen port baudrate (Some protocol) false timeout ]%list.

(** An attempt whose session [c] opens but is not connected: the session
    is closed, then the negotiator waits [delay]. *)
Definition v2_not_connected_events (port : string) (attempt : Z) (c : Conn)
    : list event :=
  (v2_open_events port attempt
   ++ [ Print ("❌ " ++ port ++ " did not respond as OBD.");
        ObdClose c;
        Sleep (PyNum.PyInt delay) ])%list.

(** A failed attempt of either kind. *)
Definition v2_failed_events (port : string) (attempt : Z) : list event :=
  match OBD env port attempt with
  | Opened c => v2_not_connected_events port attempt c
  | OpenRaises msg =>
      (v2_open_events port attempt
       ++ [ Print ("⛔ Error on " ++ port ++ ": " ++ msg);
            Sleep (PyNum.PyInt delay) ])%list
  end.

(** The attempt that connects. *)
Definition v2_connected_events (port : string) (attempt : Z) : list event :=
  (v2_open_events port attempt
   ++ [ Print ("✅ Connected successfully on " ++ port) ])%list.

(** The run on a port that settles, fails [k - 1] times and connects at
    attempt [k]. *)
Definition v2_success_trace (port mac : string) (k : Z) : list event :=
  (v2_precheck_events port mac
   ++ flat_map (v2_failed_events port) (PyStr.range_from_1 k)
   ++ v2_connected_events port k)%list.

End V2Traces.

Definition v5_open_events (port : string) (attempt : Z) : list event :=
  [ Log ("🧪 Trying connection on " ++ port ++ " (Attempt "
         ++ PyStr.str_int attempt ++ "/3)...");
    ObdOpen port 38400 None false 5 ]%list.

Definition v5_not_connected_events (port : string) (attempt : Z) (c : Conn)
    : list event :=
  (v5_open_events port attempt
   ++ [ Log ("❌ " ++ port ++ " did not respond as an OBD device.");
        ObdClose c;
        Sleep (PyNum.PyInt 2) ])%list.

Definition v5_failed_events (env : Env) (port : string) (attempt : Z)
    : list event :=
  match OBD env port attempt with
  | Opened c => v5_not_connected_events port attempt c
  | OpenRaises msg =>
      (v5_open_events port attempt
       ++ [ Log ("⛔ Error on " ++ port ++ ": " ++ PyStr.strip msg);
            Sleep (PyNum.PyInt 2) ])%list
  end.

Definition v5_connected_events (port : string) (attempt : Z) (c : Conn)
    : list event :=
  (v5_open_events port attempt
   ++ [ Log ("✅ Connection successful on " ++ port ++ "!");
        Log "⏳ Stabilizing connection, please wait 5 seconds...";
        Sleep (PyNum.PyInt 5);
        SetConnection c;
        After (UpdateUiOnConnect port) ])%list.

Definition v5_all_failed_events (port : string) : list event :=
  [ Log ("🚫 All connection attempts failed for " ++ port ++ ".");
    After (UpdateUiOnFail "Connection Failed") ]%list.

(** The session the simulated world opens on [COM4] at an attempt. *)
Definition com4_session (is_up : bool) (attempt : Z) : Conn :=
  {| conn_id := Z.to_nat attempt; conn_port := "COM4"; connected := is_up |}.

(** *** Traces of the monitoring loop *)

(** Every query of tick [n] is answered (none raises). *)
Definition queries_answered (env : Env) (n : nat) : Prop :=
  forall cmd, exists r, query env n cmd = Response r.

(** The response to the query of [cmd] at tick [n]. *)
Definition answer (env : Env) (n : nat) (cmd : command) : OBDResponse :=
  match query env n cmd with
  | Response r => r
  | QueryRaises _ => null_response
  end.

(** The eight parameters in the order in which a tick queries them. *)
Definition parameter_set : list command :=
  [ COOLANT_TEMP; RPM; THROTTLE_POS; ENGINE_LOAD;
    SPEED; FUEL_LEVEL; INTAKE_TEMP; AMBIANT_AIR_TEMP ]%list.

Definition v5_row (env : Env) (n : nat) : list string :=
  map (fun cmd => V5.get_formatted_value env (Some (answer env n cmd)))
      parameter_set.

Definition v4_row (env : Env) (n : nat) : list string :=
  map (fun cmd => V4.get_formatted_value (Some (answer env n cmd)))
      parameter_set.

(** A tick of [OBD-v5.py] on a live session: eight queries, one sample,
    the sleep. *)
Definition v5_tick_events (env : Env) (n : nat) : list event :=
  (Log "Querying data from vehicle..."
   :: map ObdQuery parameter_set
   ++ [ Log "Data received. Updating GUI and CSV...";
        After (UpdateGuiAndCsv (now env n) (v5_row env n));
        Sleep V5.REFRESH_RATE ])%list.

Definition v4_tick_events (env : Env) (n : nat) : list event :=
  (map ObdQuery parameter_set
   ++ [ After (UpdateGuiAndCsv (now env n) (v4_row env n));
        Sleep V4.REFRESH_RATE ])%list.

(** The tick that finds the session gone: no query, no sample. *)
Definition connection_lost_events : list event :=
  [ Log "⚠️ Connection lost! Stopping monitoring.";
    After Disconnect ]%list.

(** What [monitor_data] does after its loop. *)
Definition loop_exit_events : list event :=
  [ After (MonitorBtnConfigText "Start Monitoring");
    SetRunning false ]%list.

(** The same world with other answers of [is_connected()]. *)
Definition with_is_connected (f : nat -> bool) (env : Env) : Env :=
  {| comports := comports env;
     serial_Serial := serial_Serial env;
     serial_close := serial_close env;
     OBD := OBD env;
     query := query env;
     now := now env;
     ctrl_c := ctrl_c env;
     save_answer_is_y := save_answer_is_y env;
     self_running := self_running env;
     self_connection_set := self_connection_set env;
     is_connected := f;
     str_float := str_float env |}.

(** *** The port scan *)

(** The leftmost token of the upper-case hardware id is twelve zeros. *)
Definition zero_first_token (hwid : string) : Prop :=
  exists i,
    token_at (PyStr.upper hwid) i
    /\ (forall j, j < i -> ~ token_at (PyStr.upper hwid) j)
    /\ substring (i + 1) 12 (PyStr.upper hwid) = "000000000000".

(** A Bluetooth port whose hardware id holds no address. *)
Definition bluetooth_port_without_mac : ListPortInfo :=
  {| device := "COM7";
     description := "Bluetooth Peripheral Device (COM7)";
     hwid := "BTHENUM\LOCALMFG" |}.

(** The unpaired Bluetooth port of [unpaired_ports]. *)
Definition unpaired_bluetooth_port : ListPortInfo :=
  {| device := "COM3";
     description := "Standard Serial over Bluetooth link (COM3)";
     hwid := unpaired_hwid |}.

(** *** Further vocabulary *)

Fixpoint canonical_from (pos : nat) (s : string) : bool :=
  match s with
  | EmptyString => (pos =? 17)%nat
  | String c s' =>
      (if (pos mod 3 =? 2)%nat then Ascii.eqb c ":" else Re.hex_upper c)
      && canonical_from (S pos) s'
  end.

(** [mac] has the form [XX:XX:XX:XX:XX:XX], the [X] in [[0-9A-F]]. *)
Definition is_canonical_mac (mac : string) : bool := canonical_from 0 mac.

(** The leftmost token of the upper-case hardware id is not all zeros. *)
Definition nonzero_first_token (hwid : string) : Prop :=
  exists i,
    token_at (PyStr.upper hwid) i
    /\ (forall j, j < i -> ~ token_at (PyStr.upper hwid) j)
    /\ substring (i + 1) 12 (PyStr.upper hwid) <> "000000000000".

(** The settle pre-check of [port] raises, at the open or at the close. *)
Definition precheck_fails (env : Env) (port : string) : Prop :=
  serial_Serial env port <> None \/ serial_close env port <> None.

(** The events of a pre-check that raises. *)
Definition v2_precheck_failed_events (env : Env) (baudrate timeout : Z)
    (port mac : string) : list event :=
  ([ Print (nl ++ "🔍 Pre-checking " ++ port ++ " (" ++ mac ++ ")...");
     Sleep (PyNum.PyInt 2);
     SerialOpen port baudrate timeout ]
   ++ match serial_Serial env port with
      | Some msg => [ Print ("⚠️ Skipping " ++ port ++ ": " ++ msg) ]
      | None =>
          [ Sleep (PyNum.PyInt 2); SerialClose port ]
          ++ match serial_close env port with
             | Some msg => [ Print ("⚠️ Skipping " ++ port ++ ": " ++ msg) ]
             | None => []
             end
      end)%list.

(** The [except] branch of the monitoring loop. *)
Definition monitor_error_events (msg : string) : list event :=
  [ Log ("⛔ ERROR in monitoring loop: " ++ msg);
    Log "⏹️ Halting monitoring due to error.";
    After ToggleMonitoring ]%list.

(** The sample of tick [n] in [OBD-v5.py] and in [OBD-v4.py]. *)
Definition v5_sample (env : Env) (n : nat) : string * list string :=
  (now env n, v5_row env n).

Definition v4_sample (env : Env) (n : nat) : string * list string :=
  (now env n, v4_row env n).

(** Tick [n] of the monitoring loop finds the session set and connected
    and gets every query answered. *)
Definition live_tick (env : Env) (n : nat) : Prop :=
  self_connection_set env n = true
  /\ is_connected env n = true
  /\ queries_answered env n.

(** The same world with other answers of the serial driver. *)
Definition with_serial (open_answer close_answer : string -> option string)
    (env : Env) : Env :=
  {| comports := comports env;
     serial_Serial := open_answer;
     serial_close := close_answer;
     OBD := OBD env;
     query := query env;
     now := now env;
     ctrl_c := ctrl_c env;
     save_answer_is_y := save_answer_is_y env;
     self_running := self_running env;
     self_connection_set := self_connection_set env;
     is_connected := is_connected env;
     str_float := str_float env |}.

(** The same world with other answers to the queries. *)
Definition with_query (q : nat -> command -> query_result) (env : Env) : Env :=
  {| comports := comports env;
     serial_Serial := serial_Serial env;
     serial_close := serial_close env;
     OBD := OBD env;
     query := q;
     now := now env;
     ctrl_c := ctrl_c env;
     save_answer_is_y := save_answer_is_y env;
     self_running := self_running env;
     self_connection_set := self_connection_set env;
     is_connected := is_connected env;
     str_float := str_float env |}.

(** The same world with another user of the GUI. *)
Definition with_running (r : nat -> bool) (env : Env) : Env :=
  {| comports := comports env;
     serial_Serial := serial_Serial env;
     serial_close := serial_close env;
     OBD := OBD env;
     query := query env;
     now := now env;
     ctrl_c := ctrl_c env;
     save_answer_is_y := save_answer_is_y env;
     self_running := r;
     self_connection_set := self_connection_set env;
     is_connected := is_connected env;
     str_float := str_float env |}.

(** A character that ends the clock time in an ISO timestamp. *)
Definition ends_time (c : ascii) : bool :=
  Ascii.eqb c "T" || Ascii.eqb c "+" || Ascii.eqb c ".".

Fixpoint clock_text (s : string) : bool :=
  match s with
  | EmptyString => true
  | String c s' => negb (ends_time c) && clock_text s'
  end.

Fixpoint no_char (c : ascii) (s : string) : bool :=
  match s with
  | EmptyString => true
  | String a s' => negb (Ascii.eqb a c) && no_char c s'
  end.

(** The row the command-line logger builds at tick [n]. *)
Definition v2_row (env : Env) (UNITS : string) (n : nat) : list (option string) :=
  [ Some (now env n);
    V2.get_formatted_value UNITS (answer env n COOLANT_TEMP) "°C";
    V2.get_formatted_value UNITS (answer env n RPM) "";
    V2.get_formatted_value UNITS (answer env n THROTTLE_POS) "%";
    V2.get_formatted_value UNITS (answer env n ENGINE_LOAD) "%";
    V2.get_formatted_value UNITS (answer env n SPEED) "km/h";
    V2.get_formatted_value UNITS (answer env n FUEL_LEVEL) "%";
    V2.get_formatted_value UNITS (answer env n INTAKE_TEMP) "°C";
    V2.get_formatted_value UNITS (answer env n AMBIANT_AIR_TEMP) "°C" ]%list.

(** The text of [s] before the first [sep], all of [s] when there is
    none. *)
Fixpoint first_field (sep : ascii) (s : string) : string :=
  match s with
  | EmptyString => EmptyString
  | String c s' =>
      if Ascii.eqb c sep then EmptyString else String c (first_field sep s')
  end.

(** The rows [rows] appended one after the other to the file [path]. *)
Definition append_rows (path : string) (rows : list (list string))
    (fs : V5Gui.filesystem) : V5Gui.filesystem :=
  fold_left (fun fs row => V5Gui.append_row_to_csv path row fs) rows fs.

(** The rows of a file, none for a missing file. *)
Definition rows_of (path : string) (fs : V5Gui.filesystem) : list (list string) :=
  match V5Gui.read_file path fs with
  | Some rows => rows
  | None => []
  end.

(* ================================================================= *)
(** ** Strings and the pattern search *)

Lemma upper_char_amp (c : ascii) :
  PyStr.upper_char c = "&"%char <-> c = "&"%char.
Proof.
  split.
  - destruct c as [[] [] [] [] [] [] [] []]; vm_compute; intro H;
      first [ reflexivity | discriminate H ].
  - intros ->. reflexivity.
Qed.

Lemma hex_upper_upper_char (c : ascii) :
  Re.hex_upper (PyStr.upper_char c) = is_hex_digit c.
Proof. destruct c as [[] [] [] [] [] [] [] []]; reflexivity. Qed.

Lemma get_upper (s : string) (i : nat) :
  get i (PyStr.upper s) = option_map PyStr.upper_char (get i s).
Proof.
  revert i. induction s as [|a s IH]; intros [|i]; simpl; auto.
Qed.

Lemma hex_token_at_upper (s : string) (i : nat) :
  hex_token_at s i <-> token_at (PyStr.upper s) i.
Proof.
  unfold hex_token_at, token_at. rewrite get_upper. split.
  - intros [H0 Hk]. split.
    + rewrite H0. reflexivity.
    + intros k Hlt. destruct (Hk k Hlt) as (c & Hc & Hh).
      exists (PyStr.upper_char c). rewrite get_upper, Hc.
      split; [reflexivity | now rewrite hex_upper_upper_char].
  - intros [H0 Hk]. split.
    + destruct (get i s) as [c|]; cbn [option_map] in H0; [|discriminate].
      injection H0 as H0. apply (proj1 (upper_char_amp c)) in H0. now subst.
    + intros k Hlt. destruct (Hk k Hlt) as (c & Hc & Hh).
      rewrite get_upper in Hc.
      destruct (get (i + 1 + k) s) as [c0|]; cbn [option_map] in Hc;
        [|discriminate].
      injection Hc as <-. exists c0.
      split; [reflexivity | now rewrite <- hex_upper_upper_char].
Qed.

Lemma matches_at_cons_shift (pat : list Re.char_class) a s i :
  matches_at pat (String a s) (S i) <-> matches_at pat s i.
Proof. unfold matches_at. simpl. reflexivity. Qed.

Lemma match_here_matches (pat : list Re.char_class) :
  forall s m, Re.match_here pat s = Some m ->
    matches_at pat s 0 /\ m = substring 0 (List.length pat) s.
Proof.
  induction pat as [|cl pat IH]; intros s m H; simpl in H.
  - injection H as <-. split.
    + intros k Hk. simpl in Hk. lia.
    + destruct s; reflexivity.
  - destruct s as [|a s]; [discriminate|].
    destruct (cl a) eqn:Ecl; [|discriminate].
    destruct (Re.match_here pat s) as [m'|] eqn:Em; [|discriminate].
    injection H as <-. destruct (IH _ _ Em) as [Hm ->]. split.
    + intros [|k] Hk; simpl.
      * exists a. auto.
      * apply Hm. simpl in Hk. lia.
    + reflexivity.
Qed.

Lemma matches_match_here (pat : list Re.char_class) :
  forall s, matches_at pat s 0 ->
    Re.match_here pat s = Some (substring 0 (List.length pat) s).
Proof.
  induction pat as [|cl pat IH]; intros s H; simpl.
  - destruct s; reflexivity.
  - destruct (H 0) as (c & Hc & Hcl); [simpl; lia|].
    destruct s as [|a s]; [discriminate|]. simpl in Hc. injection Hc as ->.
    simpl in Hcl. rewrite Hcl. rewrite IH; [reflexivity|].
    intros k Hk. destruct (H (S k)) as (c' & Hc' & Hcl'); [simpl; lia|].
    exists c'. auto.
Qed.

Lemma search_none (pat : list Re.char_class) :
  forall s, (forall i, ~ matches_at pat s i) -> Re.search pat s = None.
Proof.
  induction s as [|a s IH]; intros H; simpl.
  - destruct (Re.match_here pat "") eqn:E; [|reflexivity].
    exfalso. apply (H 0). now apply match_here_matches in E.
  - destruct (Re.match_here pat (String a s)) eqn:E.
    + exfalso. apply (H 0). now apply match_here_matches in E.
    + apply IH. intros i Hi. apply (H (S i)).
      exact (proj2 (matches_at_cons_shift pat a s i) Hi).
Qed.

Lemma search_leftmost (pat : list Re.char_class) :
  forall i s, matches_at pat s i ->
    (forall j, j < i -> ~ matches_at pat s j) ->
    Re.search pat s = Some (substring i (List.length pat) s).
Proof.
  induction i as [|i IH]; intros s Hi Hmin.
  - destruct s; simpl; now rewrite (matches_match_here _ _ Hi).
  - assert (Hno : Re.match_here pat s = None).
    { destruct (Re.match_here pat s) eqn:E; [|reflexivity].
      exfalso. apply (Hmin 0); [lia|]. now apply match_here_matches in E. }
    destruct s as [|a s].
    + exfalso. apply (Hmin 0); [lia|]. intros k Hk.
      destruct (Hi k Hk) as (c & Hc & _). destruct (S i + k); discriminate.
    + simpl Re.search. rewrite Hno. simpl substring. apply IH.
      * exact (proj1 (matches_at_cons_shift pat a s i) Hi).
      * intros j Hj Hm. apply (Hmin (S j)); [lia|].
        exact (proj2 (matches_at_cons_shift pat a s j) Hm).
Qed.

Lemma search_some (pat : list Re.char_class) :
  forall s m, Re.search pat s = Some m ->
    exists i, matches_at pat s i /\ (forall j, j < i -> ~ matches_at pat s j)
              /\ m = substring i (List.length pat) s.
Proof.
  induction s as [|a s IH]; intros m H; simpl in H.
  - destruct (Re.match_here pat "") eqn:E; [|discriminate].
    injection H as <-. exists 0. apply match_here_matches in E.
    destruct E as [E1 E2]. repeat split; [exact E1 | lia | exact E2].
  - destruct (Re.match_here pat (String a s)) eqn:E.
    + injection H as <-. exists 0. apply match_here_matches in E.
      destruct E as [E1 E2]. repeat split; [exact E1 | lia | exact E2].
    + destruct (IH _ H) as (i & Hi & Hmin & ->). exists (S i).
      split; [|split].
      * exact (proj2 (matches_at_cons_shift pat a s i) Hi).
      * intros [|j] Hj Hm.
        -- apply matches_match_here in Hm. congruence.
        -- apply (Hmin j); [lia|].
           exact (proj1 (matches_at_cons_shift pat a s j) Hm).
      * reflexivity.
Qed.

Lemma token_at_matches (s : string) (i : nat) :
  token_at s i <-> matches_at Re.mac_pattern s i.
Proof.
  unfold token_at, matches_at. split.
  - intros [H0 Hk] [|k] Hlt.
    + exists "&"%char. rewrite Nat.add_0_r. split; [exact H0 | reflexivity].
    + simpl in Hlt. destruct (Hk k) as (c & Hc & Hh); [lia|].
      exists c. replace (i + S k) with (i + 1 + k) by lia. split; [exact Hc|].
      do 12 (destruct k as [|k]; [exact Hh|]). lia.
  - intros H. split.
    + destruct (H 0) as (c & Hc & Hl); [simpl; lia|].
      rewrite Nat.add_0_r in Hc. simpl in Hl. unfold Re.lit in Hl.
      apply Ascii.eqb_eq in Hl. now subst.
    + intros k Hlt. destruct (H (S k)) as (c & Hc & Hh); [simpl; lia|].
      exists c. replace (i + 1 + k) with (i + S k) by lia. split; [exact Hc|].
      do 12 (destruct k as [|k]; [exact Hh|]). lia.
Qed.

Lemma substring_0_r (s : string) : forall i, substring i 0 s = "".
Proof. induction s as [|a s IH]; intros [|i]; simpl; auto. Qed.

Lemma substring_S (n : nat) (c : ascii) :
  forall i s, get i s = Some c ->
    substring i (S n) s = String c (substring (S i) n s).
Proof.
  induction i as [|i IH]; intros [|a s] H; try discriminate; simpl in H.
  - injection H as ->. reflexivity.
  - simpl. rewrite (IH s H). reflexivity.
Qed.

Lemma substring_length_defined :
  forall n i s, (forall k, k < n -> exists c, get (i + k) s = Some c) ->
    String.length (substring i n s) = n.
Proof.
  induction n as [|n IH]; intros i s H.
  - now rewrite substring_0_r.
  - destruct (H 0) as (c & Hc); [lia|]. rewrite Nat.add_0_r in Hc.
    rewrite (substring_S n c i s Hc). simpl. f_equal. apply IH.
    intros k Hk. destruct (H (S k)) as (c' & Hc'); [lia|].
    exists c'. now replace (S i + k) with (i + S k) by lia.
Qed.

Lemma length_12_shape (r : string) :
  String.length r = 12 ->
  exists a b c d e f g h i j k l : ascii,
    r = String a (String b (String c (String d (String e (String f
        (String g (String h (String i (String j (String k (String l
        ""))))))))))).
Proof.
  intros H.
  do 12 (destruct r as [|? r]; [discriminate H|]).
  destruct r; [|discriminate H].
  repeat eexists.
Qed.

(** The text the pattern matches at a token, its group and the grouping
    of the group into octets. *)
Lemma token_grouping (s : string) (i : nat) :
  token_at s i ->
  octet_grouping (substring (i + 1) 12 s)
    (PyStr.join ":"
       (map (fun j => PyStr.slice (Re.group1 (substring i 13 s)) j 2)
            (PyStr.range_step 0 12 2))).
Proof.
  intros [H0 Hk].
  assert (Hlen : String.length (substring (i + 1) 12 s) = 12).
  { apply substring_length_defined. intros k Hlt.
    destruct (Hk k Hlt) as (c & Hc & _). now exists c. }
  rewrite (substring_S 12 _ i s H0).
  replace (S i) with (i + 1) by lia.
  destruct (length_12_shape _ Hlen)
    as (a & b & c & d & e & f & g & h & i' & j & k & l & Hrun).
  rewrite Hrun. exists a, b, c, d, e, f, g, h, i', j, k, l.
  split; reflexivity.
Qed.

Lemma no_hex_token_search_none (hwid : string) :
  (forall i, ~ hex_token_at hwid i) ->
  Re.search Re.mac_pattern (PyStr.upper hwid) = None.
Proof.
  intros H. apply search_none. intros i Hi.
  apply (H i). apply hex_token_at_upper. now apply token_at_matches.
Qed.

Lemma leftmost_token_search (s : string) (i : nat) :
  token_at s i -> (forall j, j < i -> ~ token_at s j) ->
  Re.search Re.mac_pattern s = Some (substring i 13 s).
Proof.
  intros Hi Hmin.
  apply (search_leftmost Re.mac_pattern i s).
  - now apply token_at_matches.
  - intros j Hj Hm. apply (Hmin j Hj). now apply token_at_matches.
Qed.

Lemma search_none_inv (pat : list Re.char_class) :
  forall s i, Re.search pat s = None -> ~ matches_at pat s i.
Proof.
  induction s as [|a s IH]; intros i E Hm.
  - destruct pat as [|cl pat]; [discriminate E|].
    destruct (Hm 0) as (c & Hc & _); [simpl; lia|].
    destruct (i + 0); discriminate Hc.
  - simpl in E.
    destruct (Re.match_here pat (String a s)) eqn:Eh; [discriminate E|].
    destruct i as [|i].
    + apply matches_match_here in Hm. congruence.
    + apply (IH i E). exact (proj1 (matches_at_cons_shift pat a s i) Hm).
Qed.

Lemma some_token_leftmost (s : string) :
  (exists i, token_at s i) ->
  exists i, token_at s i /\ (forall j, j < i -> ~ token_at s j).
Proof.
  intros [i0 H0].
  destruct (Re.search Re.mac_pattern s) as [m|] eqn:E.
  - destruct (search_some _ _ _ E) as (i & Hi & Hmin & _). exists i. split.
    + now apply token_at_matches.
    + intros j Hj Hm. apply (Hmin j Hj). now apply token_at_matches.
  - exfalso. apply (search_none_inv _ _ i0 E). now apply token_at_matches.
Qed.

(* ================================================================= *)
(** ** The MAC extractor *)

(** X22: every definition of the extractor but the one of line 491 of
    [OBD-v5.py] answers the sentinel for a hardware id without a token. *)
Lemma extract_without_token_is_sentinel (hwid : string) :
  (forall i, ~ hex_token_at hwid i) ->
  V2.extract_mac_from_hwid hwid = "00:00:00:00:00:00"
  /\ V3.extract_mac_from_hwid hwid = "00:00:00:00:00:00"
  /\ V4.extract_mac_from_hwid hwid = "00:00:00:00:00:00"
  /\ V5.extract_mac_from_hwid_line73 hwid = "00:00:00:00:00:00".
Proof.
  intros H. apply no_hex_token_search_none in H.
  unfold V3.extract_mac_from_hwid, V2.extract_mac_from_hwid,
    V4.extract_mac_from_hwid, V5.extract_mac_from_hwid_line73.
  rewrite H. repeat split.
Qed.

(** The definition of line 491 answers ["Unknown"] instead. *)
Lemma extract_line491_without_token (hwid : string) :
  (forall i, ~ hex_token_at hwid i) ->
  V5.extract_mac_from_hwid_line491 hwid = "Unknown".
Proof.
  intros H. apply no_hex_token_search_none in H.
  unfold V5.extract_mac_from_hwid_line491. now rewrite H.
Qed.

(** Loading [OBD-v5.py], as the main program or as a module, leaves the
    name bound to the definition of line 491. *)
Lemma v5_binding_after_load (is_main : bool) (ports : list ListPortInfo) :
  V5.extract_mac_from_hwid (V5.globals_after_load is_main ports)
  = Some V5.extract_mac_from_hwid_line491.
Proof. destruct is_main; reflexivity. Qed.

(** C7 (code defect): after [OBD-v5.py] is loaded, [extract_mac_from_hwid]
    is the definition of line 491, and on the hardware id
    ["USB VID:PID=0403:6001 SER=A50285BI"], which holds no ampersand at all,
    it answers ["Unknown"], not the sentinel ["00:00:00:00:00:00"] that the
    definition of line 73 and the other variants answer there. *)
Theorem C7_v5_extract_answers_unknown :
  (forall is_main ports,
     exists f, V5.extract_mac_from_hwid (V5.globals_after_load is_main ports) = Some f
               /\ f "USB VID:PID=0403:6001 SER=A50285BI" = "Unknown")
  /\ V5.extract_mac_from_hwid_line73 "USB VID:PID=0403:6001 SER=A50285BI"
     = "00:00:00:00:00:00"
  /\ V2.extract_mac_from_hwid "USB VID:PID=0403:6001 SER=A50285BI"
     = "00:00:00:00:00:00".
Proof.
  split; [|split; reflexivity].
  intros is_main ports. exists V5.extract_mac_from_hwid_line491.
  split; [apply v5_binding_after_load | reflexivity].
Qed.

(** C8: for every hardware id whose upper-case form holds an address
    token, the extractor of [OBD-v2.py] and [OBD-v3.py] returns the twelve
    characters of a token (the leftmost one) in their order, grouped in
    six pairs separated by colons. *)
Theorem C8_extract_groups_token (hwid : string)
    (Htoken : exists i, token_at (PyStr.upper hwid) i) :
  exists i,
    token_at (PyStr.upper hwid) i
    /\ octet_grouping (substring (i + 1) 12 (PyStr.upper hwid))
                      (V2.extract_mac_from_hwid hwid)
    /\ octet_grouping (substring (i + 1) 12 (PyStr.upper hwid))
                      (V3.extract_mac_from_hwid hwid).
Proof.
  destruct (some_token_leftmost _ Htoken) as (i & Hi & Hmin).
  exists i. split; [exact Hi|].
  unfold V3.extract_mac_from_hwid, V2.extract_mac_from_hwid.
  rewrite (leftmost_token_search _ i Hi Hmin). cbv zeta.
  split; apply token_grouping; exact Hi.
Qed.

(** C10: when the upper-case form of a hardware id holds two tokens (or
    more), the extractor of [OBD-v2.py] and [OBD-v4.py] returns the
    grouping of the leftmost one. *)
Theorem C10_extract_leftmost_token (hwid : string) (i k : nat)
    (Hi : token_at (PyStr.upper hwid) i)
    (Hk : token_at (PyStr.upper hwid) k)
    (Hik : i < k)
    (Hleft : forall j, j < i -> ~ token_at (PyStr.upper hwid) j) :
  octet_grouping (substring (i + 1) 12 (PyStr.upper hwid))
                 (V2.extract_mac_from_hwid hwid)
  /\ octet_grouping (substring (i + 1) 12 (PyStr.upper hwid))
                    (V4.extract_mac_from_hwid hwid).
Proof.
  unfold V2.extract_mac_from_hwid, V4.extract_mac_from_hwid.
  rewrite (leftmost_token_search _ i Hi Hleft). cbv zeta.
  split; apply token_grouping; exact Hi.
Qed.

Example extract_paired_hwid :
  V2.extract_mac_from_hwid ("PORT&001DA5084912") = "00:1D:A5:08:49:12"
  /\ V2.extract_mac_from_hwid paired_hwid = "00:1D:A5:08:49:12".
Proof. split; reflexivity. Qed.

Ltac solve_token_at :=
  split;
  [ reflexivity
  | let k := fresh "k" in let Hk := fresh "Hk" in
    intros k Hk;
    do 12 (destruct k as [|k]; [eexists; split; reflexivity|]);
    exfalso; lia ].

Lemma C8_extract_groups_token_witness :
  (exists i, token_at (PyStr.upper paired_hwid) i)
  /\ exists i,
       token_at (PyStr.upper paired_hwid) i
       /\ octet_grouping (substring (i + 1) 12 (PyStr.upper paired_hwid))
                         (V2.extract_mac_from_hwid paired_hwid)
       /\ octet_grouping (substring (i + 1) 12 (PyStr.upper paired_hwid))
                         (V3.extract_mac_from_hwid paired_hwid).
Proof.
  assert (H : exists i, token_at (PyStr.upper paired_hwid) i).
  { exists 72. solve_token_at. }
  split; [exact H | exact (C8_extract_groups_token paired_hwid H)].
Defined.

Lemma C10_extract_leftmost_token_witness :
  octet_grouping (substring (1 + 1) 12 (PyStr.upper two_token_hwid))
                 (V2.extract_mac_from_hwid two_token_hwid)
  /\ octet_grouping (substring (1 + 1) 12 (PyStr.upper two_token_hwid))
                    (V4.extract_mac_from_hwid two_token_hwid).
Proof.
  apply (C10_extract_leftmost_token two_token_hwid 1 14).
  - solve_token_at.
  - solve_token_at.
  - lia.
  - intros j Hj [H0 _]. destruct j as [|j]; [discriminate H0 | lia].
Defined.

Example extract_two_tokens :
  V2.extract_mac_from_hwid two_token_hwid = "AA:AA:AA:AA:AA:AA".
Proof. reflexivity. Qed.

(* ================================================================= *)
(** ** The sample formatter *)

Lemma value_none_is_null (r : OBDResponse) :
  resp_value r = None -> is_null r = true.
Proof. unfold is_null. intros ->. now destruct (resp_messages r). Qed.

(** C1 as stated fails on [OBD-v2.py]: for the response of an unanswered
    query its formatter returns [None], not the string ["N/A"]. *)
Lemma C1_v2_null_reading_is_None :
  resp_value null_response = None
  /\ V2.get_formatted_value "imperial" null_response "°C" = None
  /\ V2.get_formatted_value "metric" null_response "km/h" <> Some "N/A".
Proof. repeat split. discriminate. Qed.

(** C1 (amended): for every null response, whatever the unit and the unit
    system, the formatter of [OBD-v4.py] and of [OBD-v5.py] returns the
    string ["N/A"] (also for the response [None]), and the formatter of
    [OBD-v2.py] and [OBD-v3.py] returns [None]. *)
Theorem C1_null_reading_marker (env : Env) (r : OBDResponse)
    (Hnull : is_null r = true) :
  V4.get_formatted_value (Some r) = "N/A"
  /\ V5.get_formatted_value env (Some r) = "N/A"
  /\ V4.get_formatted_value None = "N/A"
  /\ V5.get_formatted_value env None = "N/A"
  /\ forall UNITS unit,
       V2.get_formatted_value UNITS r unit = None
       /\ V3.get_formatted_value UNITS r unit = None.
Proof.
  unfold V3.get_formatted_value, V2.get_formatted_value,
    V4.get_formatted_value, V5.get_formatted_value.
  rewrite Hnull. repeat split.
Qed.

Lemma C1_null_reading_marker_witness :
  is_null null_response = true
  /\ V4.get_formatted_value (Some null_response) = "N/A"
  /\ V5.get_formatted_value (simulated_env (Some 2%Z) 3 5) (Some null_response) = "N/A"
  /\ V4.get_formatted_value None = "N/A"
  /\ V5.get_formatted_value (simulated_env (Some 2%Z) 3 5) None = "N/A"
  /\ forall UNITS unit,
       V2.get_formatted_value UNITS null_response unit = None
       /\ V3.get_formatted_value UNITS null_response unit = None.
Proof.
  split; [reflexivity|].
  apply (C1_null_reading_marker (simulated_env (Some 2%Z) 3 5) null_response).
  reflexivity.
Defined.

(** C6 as stated fails on [OBD-v5.py]: its formatter has no unit-system
    argument or test and renders the reading in degrees Celsius. *)
Lemma C6_v5_keeps_celsius :
  V5.get_formatted_value (simulated_env (Some 2%Z) 3 5) (Some coolant_93) = "93 °C"
  /\ V5.get_formatted_value (simulated_env (Some 2%Z) 3 5) (Some coolant_93)
     <> "199.4 °F".
Proof. split; [vm_compute; reflexivity | vm_compute; discriminate]. Qed.

(** C6 (amended): under [UNITS = "imperial"] the formatter of [OBD-v2.py]
    and [OBD-v3.py] turns the reading [93.0] with unit ["°C"] into
    ["199.4 °F"], converting before it rounds ([93.04] gives ["199.5 °F"],
    where rounding first would give ["199.4 °F"]), and leaves it as
    ["93.0 °C"] under ["metric"]; the formatter of [OBD-v5.py] does not
    look at the unit system and renders the reading as ["93 °C"]. *)
Theorem C6_celsius_to_fahrenheit :
  V2.get_formatted_value "imperial" coolant_93 "°C" = Some "199.4 °F"
  /\ V3.get_formatted_value "imperial" coolant_93 "°C" = Some "199.4 °F"
  /\ V2.get_formatted_value "imperial" coolant_93_04 "°C" = Some "199.5 °F"
  /\ V2.get_formatted_value "metric" coolant_93 "°C" = Some "93.0 °C"
  /\ (forall env, V5.get_formatted_value env (Some coolant_93) = "93 °C").
Proof.
  repeat split; try (vm_compute; reflexivity).
Qed.

(** The formatter of [OBD-v4.py] prints the magnitude of a [float] reading
    with one decimal, followed by the unit text of the response itself. *)
Lemma v4_format_prints_response_unit (r : OBDResponse) (x : spec_float)
    (u : string) :
  is_null r = false ->
  resp_value r = Some {| magnitude := PyNum.PyFloat x; units := u |} ->
  V4.get_formatted_value (Some r)
  = PyNum.format_fixed 1 (PyNum.PyFloat x) ++ " " ++ u.
Proof.
  intros Hn Hv. unfold V4.get_formatted_value, resp_unit.
  rewrite Hn, Hv. reflexivity.
Qed.

(** The conversion of [OBD-v2.py] on any [float] magnitude: the value
    that is rounded to one decimal is [value * 9 / 5 + 32]. *)
Lemma v2_imperial_temperature (r : OBDResponse) (x : spec_float) (u : string) :
  is_null r = false ->
  resp_value r = Some {| magnitude := PyNum.PyFloat x; units := u |} ->
  V2.get_formatted_value "imperial" r "°C"
  = Some (PyNum.format_fixed 1
            (PyNum.add (PyNum.truediv (PyNum.mul (PyNum.PyFloat x) (PyNum.PyInt 9))
                                      (PyNum.PyInt 5))
                       (PyNum.PyInt 32))
          ++ " °F").
Proof.
  intros Hn Hv. unfold V2.get_formatted_value. rewrite Hn, Hv. reflexivity.
Qed.

(* ================================================================= *)
(** ** The connection negotiator *)

(** C4: when the scan finds no paired port, [connect_with_retry] of
    [OBD-v2.py] and [OBD-v3.py] prints the no-paired-ports failure and
    returns [(None, None)] after the initial wait alone: the run holds no
    settle pre-check and no OBD open attempt. *)
Theorem C4_no_paired_ports (env : Env) (protocol : string)
    (baudrate retries delay timeout : Z)
    (Hempty : V2.list_paired_bluetooth_ports (comports env) = []%list) :
  V2.connect_with_retry env protocol baudrate retries delay timeout
  = ([ Print "🔄 Waiting before first attempt...";
       Sleep (PyNum.PyInt 5);
       Print "🔍 Scanning for paired Bluetooth OBD-II devices...";
       Print "🚫 No paired Bluetooth OBD-II ports found." ]%list,
     Ret (None, None))
  /\ V3.connect_with_retry env protocol baudrate retries delay timeout
     = V2.connect_with_retry env protocol baudrate retries delay timeout
  /\ negotiation_calls
       (trace (V2.connect_with_retry env protocol baudrate retries delay timeout))
     = 0.
Proof.
  unfold V3.connect_with_retry, V2.connect_with_retry.
  rewrite Hempty. repeat split.
Qed.

Lemma C4_no_paired_ports_witness :
  V2.list_paired_bluetooth_ports
    (comports (with_comports unpaired_ports (simulated_env (Some 2%Z) 3 5))) = []%list
  /\ V2.connect_with_retry (with_comports unpaired_ports (simulated_env (Some 2%Z) 3 5))
       "6" 38400 5 2 3
     = ([ Print "🔄 Waiting before first attempt...";
          Sleep (PyNum.PyInt 5);
          Print "🔍 Scanning for paired Bluetooth OBD-II devices...";
          Print "🚫 No paired Bluetooth OBD-II ports found." ]%list,
        Ret (None, None))
  /\ V3.connect_with_retry (with_comports unpaired_ports (simulated_env (Some 2%Z) 3 5))
       "6" 38400 5 2 3
     = V2.connect_with_retry (with_comports unpaired_ports (simulated_env (Some 2%Z) 3 5))
         "6" 38400 5 2 3
  /\ negotiation_calls
       (trace (V2.connect_with_retry
                 (with_comports unpaired_ports (simulated_env (Some 2%Z) 3 5))
                 "6" 38400 5 2 3))
     = 0.
Proof.
  split; [reflexivity|].
  apply (C4_no_paired_ports (with_comports unpaired_ports (simulated_env (Some 2%Z) 3 5))).
  reflexivity.
Defined.

(** *** The effect monad *)

Lemma bind_ret_l {A B : Type} (t : list event) (a : A) (f : A -> M B) :
  bind (t, Ret a) f = ((t ++ trace (f a))%list, result (f a)).
Proof. unfold bind, trace, result. now destruct (f a). Qed.

Lemma obd_opens_app (port : string) (t1 t2 : list event) :
  obd_opens port (t1 ++ t2) = obd_opens port t1 + obd_opens port t2.
Proof.
  induction t1 as [|e t1 IH]; [reflexivity|].
  destruct e; simpl; auto. destruct (port0 =? port)%string; simpl; auto.
Qed.

Lemma negotiation_calls_app (t1 t2 : list event) :
  negotiation_calls (t1 ++ t2) = negotiation_calls t1 + negotiation_calls t2.
Proof.
  induction t1 as [|e t1 IH]; [reflexivity|].
  destruct e; simpl; auto.
Qed.

Lemma range_from_1_split (k n : Z) :
  (1 <= k <= n)%Z ->
  PyStr.range_from_1 (n + 1)
  = (PyStr.range_from_1 k
     ++ k :: map Z.of_nat (seq (S (Z.to_nat k)) (Z.to_nat (n - k))))%list.
Proof.
  intros Hk. unfold PyStr.range_from_1.
  replace (Z.to_nat (n + 1 - 1)) with (Z.to_nat (k - 1) + S (Z.to_nat (n - k)))
    by lia.
  rewrite seq_app, map_app. f_equal. simpl. f_equal.
  - lia.
  - f_equal. f_equal. lia.
Qed.

Lemma range_from_1_bounds (k a : Z) :
  In a (PyStr.range_from_1 k) -> (1 <= a < k)%Z.
Proof.
  unfold PyStr.range_from_1. rewrite in_map_iff.
  intros (n & <- & Hn). apply in_seq in Hn. lia.
Qed.

Lemma range_from_1_length (n : Z) :
  (0 <= n)%Z -> Z.of_nat (List.length (PyStr.range_from_1 (n + 1))) = n.
Proof.
  intros Hn. unfold PyStr.range_from_1.
  rewrite length_map, length_seq. lia.
Qed.

Section NegotiatorV2.

Variable env : Env.
Variables (protocol : string) (baudrate retries delay timeout : Z).

Let attempt_once := V2.attempt_once env protocol baudrate retries delay timeout.
Let attempts_loop := V2.attempts_loop env protocol baudrate retries delay timeout.
Let ports_loop := V2.ports_loop env protocol baudrate retries delay timeout.

Lemma v2_precheck_settles (port mac : string) :
  serial_Serial env port = None ->
  serial_close env port = None ->
  V2.precheck env baudrate timeout port mac
  = (v2_precheck_events baudrate timeout port mac, Ret true).
Proof.
  intros H1 H2. unfold V2.precheck. rewrite H1, H2. reflexivity.
Qed.

Lemma v2_attempt_failed (port : string) (attempt : Z) :
  attempt_fails env port attempt ->
  attempt_once port attempt
  = (v2_failed_events env protocol baudrate retries delay timeout port attempt,
     Ret None).
Proof.
  unfold attempt_fails, attempt_once, V2.attempt_once, v2_failed_events, do_OBD.
  destruct (OBD env port attempt) as [c|msg]; intros H.
  - simpl. rewrite H. reflexivity.
  - reflexivity.
Qed.

Lemma v2_attempt_connected (port : string) (attempt : Z) (c : Conn) :
  OBD env port attempt = Opened c ->
  connected c = true ->
  attempt_once port attempt
  = (v2_connected_events protocol baudrate retries timeout port attempt,
     Ret (Some (c, port))).
Proof.
  intros Ho Hc. unfold attempt_once, V2.attempt_once, do_OBD.
  rewrite Ho. simpl. rewrite Hc. reflexivity.
Qed.

(** A run of failing attempts leaves the loop where it was, the events of
    the attempts put in front. *)
Lemma v2_attempts_fail_then (port : string) (failing rest : list Z) :
  (forall a, In a failing -> attempt_fails env port a) ->
  attempts_loop port (failing ++ rest)
  = ((flat_map (v2_failed_events env protocol baudrate retries delay timeout port)
               failing
      ++ trace (attempts_loop port rest))%list,
     result (attempts_loop port rest)).
Proof.
  induction failing as [|a failing IH]; intros H.
  - simpl. now destruct (attempts_loop port rest).
  - simpl app. unfold attempts_loop in *. simpl V2.attempts_loop.
    fold attempt_once. rewrite (v2_attempt_failed port a (H a (or_introl eq_refl))).
    rewrite bind_ret_l. rewrite IH by (intros b Hb; apply H; now right).
    simpl flat_map. unfold trace, result. simpl fst. simpl snd.
    now rewrite app_assoc.
Qed.

Lemma v2_obd_opens_failed (port : string) (attempts : list Z) :
  obd_opens port
    (flat_map (v2_failed_events env protocol baudrate retries delay timeout port)
              attempts)
  = List.length attempts.
Proof.
  induction attempts as [|a l IH]; [reflexivity|].
  simpl flat_map. rewrite obd_opens_app, IH. unfold v2_failed_events.
  destruct (OBD env port a); simpl; now rewrite String.eqb_refl.
Qed.

Lemma v2_negotiation_calls_failed (port : string) (attempts : list Z) :
  negotiation_calls
    (flat_map (v2_failed_events env protocol baudrate retries delay timeout port)
              attempts)
  = List.length attempts.
Proof.
  induction attempts as [|a l IH]; [reflexivity|].
  simpl flat_map. rewrite negotiation_calls_app, IH. unfold v2_failed_events.
  destruct (OBD env port a); reflexivity.
Qed.

Lemma v2_attempts_all_fail (port : string) (attempts : list Z) :
  (forall a, In a attempts -> attempt_fails env port a) ->
  attempts_loop port attempts
  = (flat_map (v2_failed_events env protocol baudrate retries delay timeout port)
              attempts,
     Ret None).
Proof.
  intros H. rewrite <- (app_nil_r attempts) at 1.
  rewrite (v2_attempts_fail_then port attempts []%list H).
  unfold attempts_loop. simpl. now rewrite app_nil_r.
Qed.

(** The port loop on a port that settles and whose attempts all fail goes
    on with the next candidate. *)
Lemma v2_port_exhausted (port mac : string) (rest : list (string * string)) :
  serial_Serial env port = None ->
  serial_close env port = None ->
  (forall a, attempt_fails env port a) ->
  ports_loop ((port, mac) :: rest)
  = ((v2_precheck_events baudrate timeout port mac
      ++ flat_map (v2_failed_events env protocol baudrate retries delay timeout port)
                  (PyStr.range_from_1 (retries + 1))
      ++ trace (ports_loop rest))%list,
     result (ports_loop rest)).
Proof.
  intros H1 H2 Hf. unfold ports_loop. simpl V2.ports_loop.
  fold attempts_loop.
  rewrite (v2_precheck_settles port mac H1 H2).
  rewrite (v2_attempts_all_fail port _ (fun a _ => Hf a)).
  rewrite !bind_ret_l. unfold trace, result. reflexivity.
Qed.

(** The port loop on a port that settles and connects at attempt [k]
    returns there. *)
Lemma v2_port_connects (port mac : string) (rest : list (string * string))
    (k : Z) (c : Conn) :
  (1 <= k <= retries)%Z ->
  serial_Serial env port = None ->
  serial_close env port = None ->
  (forall a, (1 <= a < k)%Z -> attempt_fails env port a) ->
  OBD env port k = Opened c ->
  connected c = true ->
  ports_loop ((port, mac) :: rest)
  = (v2_success_trace env protocol baudrate retries delay timeout port mac k,
     Ret (Some (c, port))).
Proof.
  intros Hk H1 H2 Hf Ho Hc.
  assert (E : attempts_loop port (PyStr.range_from_1 (retries + 1))
              = ((flat_map (v2_failed_events env protocol baudrate retries delay
                                             timeout port)
                           (PyStr.range_from_1 k)
                  ++ v2_connected_events protocol baudrate retries timeout port k)%list,
                 Ret (Some (c, port)))).
  { rewrite (range_from_1_split k retries Hk).
    rewrite v2_attempts_fail_then
      by (intros a Ha; apply Hf; now apply range_from_1_bounds).
    unfold attempts_loop. simpl V2.attempts_loop. fold attempt_once.
    rewrite (v2_attempt_connected port k c Ho Hc).
    unfold trace, result. simpl. reflexivity. }
  unfold ports_loop. simpl V2.ports_loop. fold attempts_loop.
  rewrite (v2_precheck_settles port mac H1 H2), E.
  rewrite !bind_ret_l. unfold v2_success_trace, trace, result. simpl.
  now rewrite ?app_nil_r.
Qed.

End NegotiatorV2.

Section NegotiatorV5.

Variable env : Env.

Lemma v5_attempt_failed (port : string) (attempt : Z) :
  attempt_fails env port attempt ->
  V5.attempt_once env port attempt = (v5_failed_events env port attempt, Ret false).
Proof.
  unfold attempt_fails, V5.attempt_once, v5_failed_events, do_OBD.
  destruct (OBD env port attempt) as [c|msg]; intros H.
  - simpl. rewrite H. reflexivity.
  - reflexivity.
Qed.

Lemma v5_attempt_connected (port : string) (attempt : Z) (c : Conn) :
  OBD env port attempt = Opened c ->
  connected c = true ->
  V5.attempt_once env port attempt = (v5_connected_events port attempt c, Ret true).
Proof.
  intros Ho Hc. unfold V5.attempt_once, do_OBD.
  rewrite Ho. simpl. rewrite Hc. reflexivity.
Qed.

Lemma v5_attempts_fail_then (port : string) (failing rest : list Z) :
  (forall a, In a failing -> attempt_fails env port a) ->
  V5.attempts_loop env port (failing ++ rest)
  = ((flat_map (v5_failed_events env port) failing
      ++ trace (V5.attempts_loop env port rest))%list,
     result (V5.attempts_loop env port rest)).
Proof.
  induction failing as [|a failing IH]; intros H.
  - simpl. now destruct (V5.attempts_loop env port rest).
  - simpl app. simpl V5.attempts_loop.
    rewrite (v5_attempt_failed port a (H a (or_introl eq_refl))).
    rewrite bind_ret_l. rewrite IH by (intros b Hb; apply H; now right).
    simpl flat_map. unfold trace, result. simpl fst. simpl snd.
    now rewrite app_assoc.
Qed.

Lemma v5_obd_opens_failed (port : string) (attempts : list Z) :
  obd_opens port (flat_map (v5_failed_events env port) attempts)
  = List.length attempts.
Proof.
  induction attempts as [|a l IH]; [reflexivity|].
  simpl flat_map. rewrite obd_opens_app, IH. unfold v5_failed_events.
  destruct (OBD env port a); simpl; now rewrite String.eqb_refl.
Qed.

Lemma v5_port_exhausted (port : string) :
  (forall a, attempt_fails env port a) ->
  V5.attempt_connection_on_port env port
  = ((flat_map (v5_failed_events env port) [1; 2; 3]%Z
      ++ v5_all_failed_events port)%list,
     Ret tt).
Proof.
  intros Hf. unfold V5.attempt_connection_on_port.
  change (PyStr.range_from_1 4) with ([1; 2; 3]%Z ++ [])%list.
  rewrite (v5_attempts_fail_then port _ []%list) by (intros a _; apply Hf).
  simpl V5.attempts_loop. unfold trace, result, ret. cbn [fst snd].
  rewrite app_nil_r, bind_ret_l. reflexivity.
Qed.

Lemma v5_port_connects (port : string) (k : Z) (c : Conn) :
  (1 <= k <= 3)%Z ->
  (forall a, (1 <= a < k)%Z -> attempt_fails env port a) ->
  OBD env port k = Opened c ->
  connected c = true ->
  V5.attempt_connection_on_port env port
  = ((flat_map (v5_failed_events env port) (PyStr.range_from_1 k)
      ++ v5_connected_events port k c)%list,
     Ret tt).
Proof.
  intros Hk Hf Ho Hc. unfold V5.attempt_connection_on_port.
  change 4%Z with (3 + 1)%Z. rewrite (range_from_1_split k 3 Hk).
  rewrite v5_attempts_fail_then
    by (intros a Ha; apply Hf; now apply range_from_1_bounds).
  simpl V5.attempts_loop. rewrite (v5_attempt_connected port k c Ho Hc).
  unfold trace, result. simpl. now rewrite ?app_nil_r.
Qed.

End NegotiatorV5.

Lemma range_from_1_length_k (k : Z) :
  (1 <= k)%Z -> Z.of_nat (List.length (PyStr.range_from_1 k)) = (k - 1)%Z.
Proof.
  intros Hk. unfold PyStr.range_from_1. rewrite length_map, length_seq. lia.
Qed.

Lemma v2_print_found_returns (l : list (string * string)) :
  exists t, V2.print_found l = (t, Ret tt).
Proof.
  induction l as [|[p m] l [t IH]].
  - now exists []%list.
  - simpl. rewrite IH. eexists. reflexivity.
Qed.

(** C2: a candidate port that settles and whose OBD session opens but is
    not connected at every attempt gets exactly [retries] open attempts in
    [connect_with_retry] of [OBD-v2.py] and [OBD-v3.py]; each session is
    closed and followed by a wait of [delay], and the negotiator then goes
    on with the remaining candidates.  [attempt_connection_on_port] of
    [OBD-v5.py], whose only candidate is the port the user selected, makes
    its three attempts in the same way (its budget and its delay are the
    constants 3 and 2) and then reports the failure. *)
Theorem C2_not_connected_port_exhausts_budget
    (env : Env) (protocol : string) (baudrate retries delay timeout : Z)
    (port mac : string) (rest : list (string * string)) (conn_at : Z -> Conn)
    (Hretries : (0 <= retries)%Z)
    (Hserial_open : serial_Serial env port = None)
    (Hserial_close : serial_close env port = None)
    (Hopens : forall attempt, OBD env port attempt = Opened (conn_at attempt))
    (Hnot_connected : forall attempt, connected (conn_at attempt) = false) :
  V2.ports_loop env protocol baudrate retries delay timeout ((port, mac) :: rest)
  = ((v2_precheck_events baudrate timeout port mac
      ++ flat_map (fun a => v2_not_connected_events protocol baudrate retries
                              delay timeout port a (conn_at a))
                  (PyStr.range_from_1 (retries + 1))
      ++ trace (V2.ports_loop env protocol baudrate retries delay timeout rest))%list,
     result (V2.ports_loop env protocol baudrate retries delay timeout rest))
  /\ V3.ports_loop env protocol baudrate retries delay timeout ((port, mac) :: rest)
     = V2.ports_loop env protocol baudrate retries delay timeout ((port, mac) :: rest)
  /\ Z.of_nat
       (obd_opens port
          (flat_map (fun a => v2_not_connected_events protocol baudrate retries
                                delay timeout port a (conn_at a))
                    (PyStr.range_from_1 (retries + 1))))
     = retries
  /\ V5.attempt_connection_on_port env port
     = ((flat_map (fun a => v5_not_connected_events port a (conn_at a))
                  [1; 2; 3]%Z
         ++ v5_all_failed_events port)%list,
        Ret tt).
Proof.
  assert (Hf : forall a, attempt_fails env port a).
  { intros a. unfold attempt_fails. rewrite Hopens. apply Hnot_connected. }
  assert (E2 : forall l,
             flat_map (v2_failed_events env protocol baudrate retries delay
                                        timeout port) l
             = flat_map (fun a => v2_not_connected_events protocol baudrate
                                    retries delay timeout port a (conn_at a)) l).
  { intros l. apply flat_map_ext. intros a. unfold v2_failed_events.
    now rewrite Hopens. }
  assert (E5 : forall l,
             flat_map (v5_failed_events env port) l
             = flat_map (fun a => v5_not_connected_events port a (conn_at a)) l).
  { intros l. apply flat_map_ext. intros a. unfold v5_failed_events.
    now rewrite Hopens. }
  split; [|split; [|split]].
  - rewrite <- E2.
    apply (v2_port_exhausted env protocol baudrate retries delay timeout
             port mac rest Hserial_open Hserial_close Hf).
  - reflexivity.
  - rewrite <- E2, v2_obd_opens_failed. now apply range_from_1_length.
  - rewrite <- E5. now apply v5_port_exhausted.
Qed.

(** C3: when a candidate port settles and its session is connected at
    attempt [k] of the budget, the attempts before having failed,
    [connect_with_retry] of [OBD-v2.py] returns that session with the port:
    the run ends with the [k]-th open, so that no attempt after [k] and no
    later candidate is tried.  [attempt_connection_on_port] of [OBD-v5.py]
    likewise stops at attempt [k], after a stabilisation wait of five
    seconds, having stored the session. *)
Theorem C3_connected_attempt_returns_session
    (env : Env) (protocol : string) (baudrate retries delay timeout : Z)
    (port mac : string) (rest : list (string * string)) (k : Z) (c : Conn)
    (Hk : (1 <= k <= retries)%Z)
    (Hserial_open : serial_Serial env port = None)
    (Hserial_close : serial_close env port = None)
    (Hfailed : forall a, (1 <= a < k)%Z -> attempt_fails env port a)
    (Hopen : OBD env port k = Opened c)
    (Hconnected : connected c = true) :
  V2.ports_loop env protocol baudrate retries delay timeout ((port, mac) :: rest)
  = (v2_success_trace env protocol baudrate retries delay timeout port mac k,
     Ret (Some (c, port)))
  /\ Z.of_nat
       (obd_opens port
          (v2_success_trace env protocol baudrate retries delay timeout port mac k))
     = k
  /\ Z.of_nat
       (negotiation_calls
          (v2_success_trace env protocol baudrate retries delay timeout port mac k))
     = (1 + k)%Z
  /\ (V2.list_paired_bluetooth_ports (comports env) = ((port, mac) :: rest)%list ->
      result (V2.connect_with_retry env protocol baudrate retries delay timeout)
      = Ret (Some c, Some port))
  /\ ((k <= 3)%Z ->
      V5.attempt_connection_on_port env port
      = ((flat_map (v5_failed_events env port) (PyStr.range_from_1 k)
          ++ v5_connected_events port k c)%list,
         Ret tt)
      /\ Z.of_nat
           (obd_opens port
              (flat_map (v5_failed_events env port) (PyStr.range_from_1 k)
               ++ v5_connected_events port k c))
         = k).
Proof.
  assert (Eloop := v2_port_connects env protocol baudrate retries delay timeout
                     port mac rest k c Hk Hserial_open Hserial_close Hfailed
                     Hopen Hconnected).
  split; [exact Eloop|]. split; [|split; [|split]].
  - unfold v2_success_trace. rewrite !obd_opens_app, v2_obd_opens_failed.
    assert (E1 : obd_opens port (v2_precheck_events baudrate timeout port mac) = 0)
      by reflexivity.
    assert (E2 : obd_opens port
                   (v2_connected_events protocol baudrate retries timeout port k)
                 = 1)
      by (simpl; now rewrite String.eqb_refl).
    rewrite E1, E2. pose proof (range_from_1_length_k k (proj1 Hk)). lia.
  - unfold v2_success_trace.
    rewrite !negotiation_calls_app, v2_negotiation_calls_failed.
    assert (E1 : negotiation_calls (v2_precheck_events baudrate timeout port mac)
                 = 1) by reflexivity.
    assert (E2 : negotiation_calls
                   (v2_connected_events protocol baudrate retries timeout port k)
                 = 1) by reflexivity.
    rewrite E1, E2. pose proof (range_from_1_length_k k (proj1 Hk)). lia.
  - intros Hscan. unfold V2.connect_with_retry. rewrite Hscan.
    fold (V2.ports_loop env protocol baudrate retries delay timeout
            ((port, mac) :: rest)).
    rewrite Eloop. unfold print, emit. rewrite !bind_ret_l.
    destruct (v2_print_found_returns ((port, mac) :: rest)) as [t ->].
    rewrite bind_ret_l. reflexivity.
  - intros Hk3. split.
    + apply v5_port_connects; auto. lia.
    + rewrite obd_opens_app, v5_obd_opens_failed.
      assert (E : obd_opens port (v5_connected_events port k c) = 1)
        by (simpl; now rewrite String.eqb_refl).
      rewrite E. pose proof (range_from_1_length_k k (proj1 Hk)). lia.
Qed.

Lemma C2_not_connected_port_exhausts_budget_witness :
  V2.ports_loop (simulated_env None 3 5) "6" 38400 5 2 3
    [("COM4", "00:1D:A5:08:49:12")]%list
  = ((v2_precheck_events 38400 3 "COM4" "00:1D:A5:08:49:12"
      ++ flat_map (fun a => v2_not_connected_events "6" 38400 5 2 3 "COM4" a
                              (com4_session false a))
                  (PyStr.range_from_1 (5 + 1))
      ++ trace (V2.ports_loop (simulated_env None 3 5) "6" 38400 5 2 3 []))%list,
     result (V2.ports_loop (simulated_env None 3 5) "6" 38400 5 2 3 []))
  /\ V3.ports_loop (simulated_env None 3 5) "6" 38400 5 2 3
       [("COM4", "00:1D:A5:08:49:12")]%list
     = V2.ports_loop (simulated_env None 3 5) "6" 38400 5 2 3
         [("COM4", "00:1D:A5:08:49:12")]%list
  /\ Z.of_nat
       (obd_opens "COM4"
          (flat_map (fun a => v2_not_connected_events "6" 38400 5 2 3 "COM4" a
                                (com4_session false a))
                    (PyStr.range_from_1 (5 + 1))))
     = 5%Z
  /\ V5.attempt_connection_on_port (simulated_env None 3 5) "COM4"
     = ((flat_map (fun a => v5_not_connected_events "COM4" a (com4_session false a))
                  [1; 2; 3]%Z
         ++ v5_all_failed_events "COM4")%list,
        Ret tt).
Proof.
  apply (C2_not_connected_port_exhausts_budget (simulated_env None 3 5)
           "6" 38400 5 2 3 "COM4" "00:1D:A5:08:49:12" []%list
           (com4_session false)).
  - lia.
  - reflexivity.
  - reflexivity.
  - intros attempt. reflexivity.
  - intros attempt. reflexivity.
Defined.

Lemma C3_connected_attempt_returns_session_witness :
  V2.ports_loop (simulated_env (Some 2%Z) 3 5) "6" 38400 5 2 3
    [("COM4", "00:1D:A5:08:49:12"); ("COM9", "00:1D:A5:08:49:13")]%list
  = (v2_success_trace (simulated_env (Some 2%Z) 3 5) "6" 38400 5 2 3
       "COM4" "00:1D:A5:08:49:12" 2,
     Ret (Some (com4_session true 2, "COM4")))
  /\ Z.of_nat
       (obd_opens "COM4"
          (v2_success_trace (simulated_env (Some 2%Z) 3 5) "6" 38400 5 2 3
             "COM4" "00:1D:A5:08:49:12" 2))
     = 2%Z
  /\ Z.of_nat
       (negotiation_calls
          (v2_success_trace (simulated_env (Some 2%Z) 3 5) "6" 38400 5 2 3
             "COM4" "00:1D:A5:08:49:12" 2))
     = (1 + 2)%Z
  /\ (V2.list_paired_bluetooth_ports (comports (simulated_env (Some 2%Z) 3 5))
      = [("COM4", "00:1D:A5:08:49:12"); ("COM9", "00:1D:A5:08:49:13")]%list ->
      result (V2.connect_with_retry (simulated_env (Some 2%Z) 3 5) "6" 38400 5 2 3)
      = Ret (Some (com4_session true 2), Some "COM4"))
  /\ ((2 <= 3)%Z ->
      V5.attempt_connection_on_port (simulated_env (Some 2%Z) 3 5) "COM4"
      = ((flat_map (v5_failed_events (simulated_env (Some 2%Z) 3 5) "COM4")
                   (PyStr.range_from_1 2)
          ++ v5_connected_events "COM4" 2 (com4_session true 2))%list,
         Ret tt)
      /\ Z.of_nat
           (obd_opens "COM4"
              (flat_map (v5_failed_events (simulated_env (Some 2%Z) 3 5) "COM4")
                        (PyStr.range_from_1 2)
               ++ v5_connected_events "COM4" 2 (com4_session true 2)))
         = 2%Z).
Proof.
  apply (C3_connected_attempt_returns_session (simulated_env (Some 2%Z) 3 5)
           "6" 38400 5 2 3 "COM4" "00:1D:A5:08:49:12"
           [("COM9", "00:1D:A5:08:49:13")]%list 2 (com4_session true 2)).
  - lia.
  - reflexivity.
  - reflexivity.
  - intros a Ha. unfold attempt_fails. simpl. apply Z.eqb_neq. lia.
  - reflexivity.
  - reflexivity.
Defined.

(** The whole negotiation of [OBD-v2.py] in the simulated world whose
    second attempt connects: two opens on [COM4], the session returned;
    and in the world where no session connects: a pre-check and five opens
    on each of the two candidates. *)
Example v2_connect_simulated :
  result (V2.connect_with_retry (simulated_env (Some 2%Z) 3 5) "6" 38400 5 2 3)
  = Ret (Some (com4_session true 2), Some "COM4")
  /\ obd_opens "COM4"
       (trace (V2.connect_with_retry (simulated_env (Some 2%Z) 3 5) "6" 38400 5 2 3))
     = 2
  /\ negotiation_calls
       (trace (V2.connect_with_retry (simulated_env None 3 5) "6" 38400 5 2 3))
     = 12
  /\ result (V2.connect_with_retry (simulated_env None 3 5) "6" 38400 5 2 3)
     = Ret (None, None).
Proof. repeat split; vm_compute; reflexivity. Qed.

(* ================================================================= *)
(** ** The acquisition loop *)

Section MonitorLoop.

Variable env : Env.

Lemma v5_tick_live (n : nat) :
  self_connection_set env n = true ->
  is_connected env n = true ->
  queries_answered env n ->
  V5.tick_body env n = (v5_tick_events env n, Ret Continue).
Proof.
  intros Hs Hc Hq. unfold V5.tick_body. rewrite Hs, Hc. cbn [negb orb].
  unfold v5_tick_events, v5_row, parameter_set, answer, do_query.
  cbn [map].
  destruct (Hq COOLANT_TEMP) as [r1 ->]. destruct (Hq RPM) as [r2 ->].
  destruct (Hq THROTTLE_POS) as [r3 ->]. destruct (Hq ENGINE_LOAD) as [r4 ->].
  destruct (Hq SPEED) as [r5 ->]. destruct (Hq FUEL_LEVEL) as [r6 ->].
  destruct (Hq INTAKE_TEMP) as [r7 ->].
  destruct (Hq AMBIANT_AIR_TEMP) as [r8 ->].
  reflexivity.
Qed.

Lemma v4_tick_live (n : nat) :
  self_connection_set env n = true ->
  is_connected env n = true ->
  queries_answered env n ->
  V4.tick_body env n = (v4_tick_events env n, Ret Continue).
Proof.
  intros Hs Hc Hq. unfold V4.tick_body. rewrite Hs, Hc. cbn [negb orb].
  unfold v4_tick_events, v4_row, parameter_set, answer, do_query.
  cbn [map].
  destruct (Hq COOLANT_TEMP) as [r1 ->]. destruct (Hq RPM) as [r2 ->].
  destruct (Hq THROTTLE_POS) as [r3 ->]. destruct (Hq ENGINE_LOAD) as [r4 ->].
  destruct (Hq SPEED) as [r5 ->]. destruct (Hq FUEL_LEVEL) as [r6 ->].
  destruct (Hq INTAKE_TEMP) as [r7 ->].
  destruct (Hq AMBIANT_AIR_TEMP) as [r8 ->].
  reflexivity.
Qed.

Lemma v5_tick_lost (n : nat) :
  is_connected env n = false ->
  V5.tick_body env n = (connection_lost_events, Ret Break).
Proof.
  intros Hc. unfold V5.tick_body. rewrite Hc.
  now destruct (self_connection_set env n).
Qed.

Lemma v4_tick_lost (n : nat) :
  is_connected env n = false ->
  V4.tick_body env n = (connection_lost_events, Ret Break).
Proof.
  intros Hc. unfold V4.tick_body. rewrite Hc.
  now destruct (self_connection_set env n).
Qed.

Lemma v5_loop_live (fuel n : nat) :
  self_running env n = true ->
  self_connection_set env n = true ->
  is_connected env n = true ->
  queries_answered env n ->
  V5.monitor_loop env (S fuel) n
  = ((v5_tick_events env n ++ trace (V5.monitor_loop env fuel (S n)))%list,
     result (V5.monitor_loop env fuel (S n))).
Proof.
  intros Hr Hs Hc Hq. simpl V5.monitor_loop.
  rewrite Hr, (v5_tick_live n Hs Hc Hq). unfold try_except.
  now rewrite bind_ret_l.
Qed.

Lemma v4_loop_live (fuel n : nat) :
  self_running env n = true ->
  self_connection_set env n = true ->
  is_connected env n = true ->
  queries_answered env n ->
  V4.monitor_loop env (S fuel) n
  = ((v4_tick_events env n ++ trace (V4.monitor_loop env fuel (S n)))%list,
     result (V4.monitor_loop env fuel (S n))).
Proof.
  intros Hr Hs Hc Hq. simpl V4.monitor_loop.
  rewrite Hr, (v4_tick_live n Hs Hc Hq). unfold try_except.
  now rewrite bind_ret_l.
Qed.

Lemma v5_loop_lost (fuel n : nat) :
  self_running env n = true ->
  is_connected env n = false ->
  V5.monitor_loop env (S fuel) n = (connection_lost_events, Ret tt).
Proof.
  intros Hr Hc. simpl V5.monitor_loop.
  rewrite Hr, (v5_tick_lost n Hc). reflexivity.
Qed.

Lemma v4_loop_lost (fuel n : nat) :
  self_running env n = true ->
  is_connected env n = false ->
  V4.monitor_loop env (S fuel) n = (connection_lost_events, Ret tt).
Proof.
  intros Hr Hc. simpl V4.monitor_loop.
  rewrite Hr, (v4_tick_lost n Hc). reflexivity.
Qed.

End MonitorLoop.

(** The sampling loop of [OBD-v2.py] does not depend on what
    [is_connected()] would answer: it never asks. *)
Lemma v2_sample_loop_ignores_is_connected (env : Env) (f : nat -> bool)
    (UNITS port : string) :
  forall fuel tick data_log,
    V2.sample_loop (with_is_connected f env) UNITS fuel tick port data_log
    = V2.sample_loop env UNITS fuel tick port data_log.
Proof.
  induction fuel as [|fuel IH]; intros tick data_log; [reflexivity|].
  simpl V2.sample_loop.
  change (V2.sample_once (with_is_connected f env)) with (V2.sample_once env).
  change (ctrl_c (with_is_connected f env)) with (ctrl_c env).
  destruct (V2.sample_once env UNITS tick port data_log) as [t [log|e|]];
    [|reflexivity|reflexivity].
  rewrite !bind_ret_l. destruct (ctrl_c env tick).
  - reflexivity.
  - now rewrite IH.
Qed.

(** C5 as stated fails on [OBD-v2.py]: in the world whose session answers
    connected on the ticks 0, 1, 2 only and whose user presses Ctrl+C
    during tick 5, the loop of [main] displays six samples; it would go on
    until interrupted. *)
Lemma C5_v2_loop_keeps_sampling :
  (forall n, is_connected (simulated_env (Some 2%Z) 3 5) n = (n <? 3)%nat)
  /\ tables_displayed
       (trace (V2.sample_loop (simulated_env (Some 2%Z) 3 5) "metric" 10 0
                 "COM4" []))
     = 6
  /\ tables_displayed
       (trace (V2.main (simulated_env (Some 2%Z) 3 5) "metric" "6" 38400 10))
     = 6
  /\ tables_displayed
       (trace (V2.sample_loop (simulated_env (Some 2%Z) 3 5) "metric" 10 0
                 "COM4" []))
     <> 3.
Proof.
  split; [intros n; reflexivity|].
  split; [vm_compute; reflexivity|].
  split; [vm_compute; reflexivity|].
  vm_compute. discriminate.
Qed.

(** C5 (amended): in [monitor_data] of [OBD-v4.py] and [OBD-v5.py], when
    monitoring is not stopped, the session is set and connected on the
    first three ticks with every query answered, and not connected from
    the fourth tick on, the loop emits exactly the three samples of those
    ticks and ends on the connection-lost branch (the log line and the
    scheduled [disconnect]), with no query and no sample on the failing
    tick.  The loop of [main] in [OBD-v2.py] has no such check. *)
Theorem C5_connection_lost_after_three_samples (env : Env) (fuel : nat)
    (Hfuel : 4 <= fuel)
    (Hrunning : forall n, n <= 3 -> self_running env n = true)
    (Hset : forall n, n < 3 -> self_connection_set env n = true)
    (Hlive : forall n, n < 3 -> is_connected env n = true)
    (Hlost : forall n, 3 <= n -> is_connected env n = false)
    (Hanswered : forall n, n < 3 -> queries_answered env n) :
  V5.monitor_data env fuel
  = ((v5_tick_events env 0 ++ v5_tick_events env 1 ++ v5_tick_events env 2
      ++ connection_lost_events ++ loop_exit_events)%list,
     Ret tt)
  /\ samples_emitted (trace (V5.monitor_data env fuel))
     = [ (now env 0, v5_row env 0); (now env 1, v5_row env 1);
         (now env 2, v5_row env 2) ]%list
  /\ V4.monitor_data env fuel
     = ((v4_tick_events env 0 ++ v4_tick_events env 1 ++ v4_tick_events env 2
         ++ connection_lost_events ++ loop_exit_events)%list,
        Ret tt)
  /\ samples_emitted (trace (V4.monitor_data env fuel))
     = [ (now env 0, v4_row env 0); (now env 1, v4_row env 1);
         (now env 2, v4_row env 2) ]%list.
Proof.
  do 4 (destruct fuel as [|fuel]; [exfalso; lia|]).
  assert (E5 : V5.monitor_data env (S (S (S (S fuel))))
               = ((v5_tick_events env 0 ++ v5_tick_events env 1
                   ++ v5_tick_events env 2
                   ++ connection_lost_events ++ loop_exit_events)%list,
                  Ret tt)).
  { unfold V5.monitor_data.
    rewrite (v5_loop_live env _ 0) by auto.
    rewrite (v5_loop_live env _ 1) by auto.
    rewrite (v5_loop_live env _ 2) by auto.
    rewrite (v5_loop_lost env _ 3) by auto.
    unfold trace, result. cbn [fst snd]. rewrite bind_ret_l.
    unfold trace, result. cbn [fst snd bind emit app].
    now rewrite <- !app_assoc. }
  assert (E4 : V4.monitor_data env (S (S (S (S fuel))))
               = ((v4_tick_events env 0 ++ v4_tick_events env 1
                   ++ v4_tick_events env 2
                   ++ connection_lost_events ++ loop_exit_events)%list,
                  Ret tt)).
  { unfold V4.monitor_data.
    rewrite (v4_loop_live env _ 0) by auto.
    rewrite (v4_loop_live env _ 1) by auto.
    rewrite (v4_loop_live env _ 2) by auto.
    rewrite (v4_loop_lost env _ 3) by auto.
    unfold trace, result. cbn [fst snd]. rewrite bind_ret_l.
    unfold trace, result. cbn [fst snd bind emit app].
    now rewrite <- !app_assoc. }
  rewrite E5, E4. repeat split.
Qed.

Lemma C5_connection_lost_after_three_samples_witness :
  V5.monitor_data (simulated_env (Some 2%Z) 3 5) 10
  = ((v5_tick_events (simulated_env (Some 2%Z) 3 5) 0
      ++ v5_tick_events (simulated_env (Some 2%Z) 3 5) 1
      ++ v5_tick_events (simulated_env (Some 2%Z) 3 5) 2
      ++ connection_lost_events ++ loop_exit_events)%list,
     Ret tt)
  /\ samples_emitted (trace (V5.monitor_data (simulated_env (Some 2%Z) 3 5) 10))
     = [ (now (simulated_env (Some 2%Z) 3 5) 0, v5_row (simulated_env (Some 2%Z) 3 5) 0);
         (now (simulated_env (Some 2%Z) 3 5) 1, v5_row (simulated_env (Some 2%Z) 3 5) 1);
         (now (simulated_env (Some 2%Z) 3 5) 2, v5_row (simulated_env (Some 2%Z) 3 5) 2) ]%list
  /\ V4.monitor_data (simulated_env (Some 2%Z) 3 5) 10
     = ((v4_tick_events (simulated_env (Some 2%Z) 3 5) 0
         ++ v4_tick_events (simulated_env (Some 2%Z) 3 5) 1
         ++ v4_tick_events (simulated_env (Some 2%Z) 3 5) 2
         ++ connection_lost_events ++ loop_exit_events)%list,
        Ret tt)
  /\ samples_emitted (trace (V4.monitor_data (simulated_env (Some 2%Z) 3 5) 10))
     = [ (now (simulated_env (Some 2%Z) 3 5) 0, v4_row (simulated_env (Some 2%Z) 3 5) 0);
         (now (simulated_env (Some 2%Z) 3 5) 1, v4_row (simulated_env (Some 2%Z) 3 5) 1);
         (now (simulated_env (Some 2%Z) 3 5) 2, v4_row (simulated_env (Some 2%Z) 3 5) 2) ]%list.
Proof.
  apply (C5_connection_lost_after_three_samples (simulated_env (Some 2%Z) 3 5) 10).
  - lia.
  - intros n _. reflexivity.
  - intros n _. reflexivity.
  - intros n Hn. simpl. apply Nat.ltb_lt. exact Hn.
  - intros n Hn. simpl. apply Nat.ltb_ge. exact Hn.
  - intros n Hn cmd. simpl. eexists. reflexivity.
Defined.

(** The three samples of the simulated run, as the GUI receives them. *)
Example v5_simulated_samples :
  samples_emitted (trace (V5.monitor_data (simulated_env (Some 2%Z) 3 5) 10))
  = [ ("12:00:00", ["50 °C"; "50.0"; "50.0 %"; "50.0 %"; "50.0 km/h"; "50.0 %";
                    "50 °C"; "50 °C"]);
      ("12:00:01", ["50 °C"; "50.0"; "50.0 %"; "50.0 %"; "50.0 km/h"; "50.0 %";
                    "50 °C"; "50 °C"]);
      ("12:00:02", ["50 °C"; "50.0"; "50.0 %"; "50.0 %"; "50.0 km/h"; "50.0 %";
                    "50 °C"; "50 °C"]) ]%list.
Proof. vm_compute. reflexivity. Qed.

(* ================================================================= *)
(** ** The port scanner of [OBD-v5.py] *)

Lemma v5_scan_in (extract_mac : string -> string) (ports : list ListPortInfo)
    (dev mac : string) :
  In (dev, mac) (V5.list_paired_bluetooth_ports extract_mac ports)
  <-> exists p, In p ports /\ dev = device p /\ mac = extract_mac (hwid p)
                /\ PyStr.contains "Bluetooth" (description p) = true
                /\ extract_mac (hwid p) <> "00:00:00:00:00:00".
Proof.
  induction ports as [|q ports IH]; simpl.
  - split; [tauto | intros (p & [] & _)].
  - destruct (PyStr.contains "Bluetooth" (description q)) eqn:Eb.
    + destruct (String.eqb_spec (extract_mac (hwid q)) "00:00:00:00:00:00")
        as [Es|Es]; cbn [negb].
      * rewrite IH. split.
        -- intros (p & Hp & H). exists p. tauto.
        -- intros (p & [<-|Hp] & Hd & Hm & Hb & Hne); [contradiction|].
           exists p. tauto.
      * simpl. rewrite IH. split.
        -- intros [E|(p & Hp & H)].
           ++ injection E as <- <-. exists q. tauto.
           ++ exists p. tauto.
        -- intros (p & [<-|Hp] & -> & -> & Hb & Hne); [now left|].
           right. exists p. tauto.
    + rewrite IH. split.
      * intros (p & Hp & H). exists p. tauto.
      * intros (p & [<-|Hp] & Hd & Hm & Hb & Hne); [congruence|].
        exists p. tauto.
Qed.

(** The definition of line 491 answers the sentinel exactly when the
    leftmost token is twelve zeros. *)
Lemma extract_line491_sentinel (hwid : string) :
  V5.extract_mac_from_hwid_line491 hwid = "00:00:00:00:00:00"
  <-> zero_first_token hwid.
Proof.
  unfold V5.extract_mac_from_hwid_line491, zero_first_token. split.
  - destruct (Re.search Re.mac_pattern (PyStr.upper hwid)) as [m|] eqn:E;
      [|discriminate].
    destruct (search_some _ _ _ E) as (i & Hi & Hmin & ->).
    apply token_at_matches in Hi. cbv zeta.
    change (List.length Re.mac_pattern) with 13.
    intros Hs. exists i. split; [exact Hi|]. split.
    + intros j Hj Hm. apply (Hmin j Hj). now apply token_at_matches.
    + destruct (token_grouping _ _ Hi)
        as (a & b & c & d & e & f & g & h & i' & j & k & l & Hrun & Hmac).
      rewrite Hs in Hmac. rewrite Hrun. injection Hmac as -> -> -> -> -> ->.
      intros. subst. reflexivity.
  - intros (i & Hi & Hmin & Hz).
    rewrite (leftmost_token_search _ i Hi Hmin). cbv zeta.
    destruct (token_grouping _ _ Hi)
      as (a & b & c & d & e & f & g & h & i' & j & k & l & Hrun & Hmac).
    rewrite Hmac. rewrite Hz in Hrun. injection Hrun as -> -> -> -> -> ->.
    intros. subst. reflexivity.
Qed.

(** When [OBD-v5.py] runs as the main program, the scan the GUI makes at
    start-up happens before line 491 is reached and uses the definition of
    line 73; when the file is imported, the load makes no scan. *)
Lemma v5_gui_scan_uses_line73 (ports : list ListPortInfo) :
  V5.scans_during_load true ports
  = [ Some (V5.list_paired_bluetooth_ports V5.extract_mac_from_hwid_line73 ports) ]%list
  /\ V5.scans_during_load false ports = []%list.
Proof. split; reflexivity. Qed.

(** C9 as stated fails: with the definition of line 491 bound, the scan
    still leaves out a Bluetooth-described port whose address token is all
    zeros, because that token is grouped into the sentinel itself. *)
Lemma C9_zero_token_port_not_admitted :
  PyStr.contains "Bluetooth" (description unpaired_bluetooth_port) = true
  /\ V5.extract_mac_from_hwid (V5.globals_after_load false [unpaired_bluetooth_port])
     = Some V5.extract_mac_from_hwid_line491
  /\ V5.list_paired_bluetooth_ports V5.extract_mac_from_hwid_line491
       [unpaired_bluetooth_port]
     = []%list
  /\ ~ (forall ports p,
          In p ports ->
          PyStr.contains "Bluetooth" (description p) = true ->
          exists mac,
            In (device p, mac)
               (V5.list_paired_bluetooth_ports V5.extract_mac_from_hwid_line491
                  ports)).
Proof.
  split; [reflexivity|]. split; [reflexivity|]. split; [reflexivity|].
  intros H.
  destruct (H [unpaired_bluetooth_port]%list unpaired_bluetooth_port
              (or_introl eq_refl) eq_refl) as [mac Hin].
  exact Hin.
Qed.

(** C9 (amended): once [OBD-v5.py] is loaded, [extract_mac_from_hwid] is
    bound to the second definition (line 491), which answers ["Unknown"]
    and not the sentinel for a hardware id without a token.  A scan made
    with that binding admits every port whose description contains
    ["Bluetooth"] except those whose leftmost token is twelve zeros; a
    port with no token is reported with the mac ["Unknown"], and no
    candidate carries the sentinel. *)
Theorem C9_v5_scan_after_load (is_main : bool) (ports : list ListPortInfo)
    (p : ListPortInfo)
    (Hin : In p ports)
    (Hbluetooth : PyStr.contains "Bluetooth" (description p) = true) :
  V5.extract_mac_from_hwid (V5.globals_after_load is_main ports)
  = Some V5.extract_mac_from_hwid_line491
  /\ ((forall i, ~ hex_token_at (hwid p) i) ->
      In (device p, "Unknown")
         (V5.list_paired_bluetooth_ports V5.extract_mac_from_hwid_line491 ports))
  /\ (~ zero_first_token (hwid p) ->
      In (device p, V5.extract_mac_from_hwid_line491 (hwid p))
         (V5.list_paired_bluetooth_ports V5.extract_mac_from_hwid_line491 ports))
  /\ (zero_first_token (hwid p) ->
      V5.list_paired_bluetooth_ports V5.extract_mac_from_hwid_line491 [p]
      = []%list)
  /\ (forall dev,
        ~ In (dev, "00:00:00:00:00:00")
             (V5.list_paired_bluetooth_ports V5.extract_mac_from_hwid_line491
                ports)).
Proof.
  split; [apply v5_binding_after_load|]. split; [|split; [|split]].
  - intros Hno. apply v5_scan_in. exists p.
    rewrite (extract_line491_without_token _ Hno).
    repeat split; auto. discriminate.
  - intros Hnz. apply v5_scan_in. exists p. repeat split; auto.
    intros Hs. apply Hnz. now apply extract_line491_sentinel.
  - intros Hz. apply extract_line491_sentinel in Hz. simpl.
    rewrite Hbluetooth, Hz. reflexivity.
  - intros dev Hd. apply v5_scan_in in Hd.
    destruct Hd as (q & _ & _ & Hm & _ & Hne). congruence.
Qed.

Lemma C9_v5_scan_after_load_witness :
  In bluetooth_port_without_mac
     (unpaired_ports ++ [bluetooth_port_without_mac])%list
  /\ PyStr.contains "Bluetooth" (description bluetooth_port_without_mac) = true
  /\ (forall i, ~ hex_token_at (hwid bluetooth_port_without_mac) i)
  /\ In (device bluetooth_port_without_mac, "Unknown")
        (V5.list_paired_bluetooth_ports V5.extract_mac_from_hwid_line491
           (unpaired_ports ++ [bluetooth_port_without_mac])).
Proof.
  assert (Hin : In bluetooth_port_without_mac
                   (unpaired_ports ++ [bluetooth_port_without_mac])%list).
  { simpl. auto. }
  assert (Hno : forall i, ~ hex_token_at (hwid bluetooth_port_without_mac) i).
  { intros i [H0 _]. simpl in H0.
    do 16 (destruct i as [|i]; [discriminate H0|]). destruct i; discriminate H0. }
  split; [exact Hin|]. split; [reflexivity|]. split; [exact Hno|].
  exact (proj1 (proj2 (C9_v5_scan_after_load true
                         (unpaired_ports ++ [bluetooth_port_without_mac])%list
                         bluetooth_port_without_mac Hin eq_refl)) Hno).
Defined.

(** The scans of the two definitions on a machine with an unpaired port, a
    port without address and a paired adapter. *)
Example v5_scans_compared :
  V5.list_paired_bluetooth_ports V5.extract_mac_from_hwid_line73
    (unpaired_ports ++ bluetooth_port_without_mac
     :: comports (simulated_env None 3 5))
  = [ ("COM4", "00:1D:A5:08:49:12"); ("COM9", "00:1D:A5:08:49:13") ]%list
  /\ V5.list_paired_bluetooth_ports V5.extract_mac_from_hwid_line491
       (unpaired_ports ++ bluetooth_port_without_mac
        :: comports (simulated_env None 3 5))
     = [ ("COM7", "Unknown"); ("COM4", "00:1D:A5:08:49:12");
         ("COM9", "00:1D:A5:08:49:13") ]%list.
Proof. split; vm_compute; reflexivity. Qed.

(* ================================================================= *)
(** ** Further properties of the MAC extractor and of the port scan *)

Lemma upper_char_idempotent (c : ascii) :
  PyStr.upper_char (PyStr.upper_char c) = PyStr.upper_char c.
Proof. destruct c as [[] [] [] [] [] [] [] []]; reflexivity. Qed.

Lemma upper_idempotent (s : string) :
  PyStr.upper (PyStr.upper s) = PyStr.upper s.
Proof.
  induction s as [|c s IH]; [reflexivity|].
  simpl. now rewrite upper_char_idempotent, IH.
Qed.

(** The extractors of line 73 of [OBD-v5.py], of [OBD-v3.py] and of
    [OBD-v4.py] compute what the one of [OBD-v2.py] computes. *)
Lemma extract_variants_agree (hwid : string) :
  V3.extract_mac_from_hwid hwid = V2.extract_mac_from_hwid hwid
  /\ V4.extract_mac_from_hwid hwid = V2.extract_mac_from_hwid hwid
  /\ V5.extract_mac_from_hwid_line73 hwid = V2.extract_mac_from_hwid hwid.
Proof. repeat split. Qed.

Lemma token_grouping_canonical (s : string) (i : nat) :
  token_at s i ->
  is_canonical_mac
    (PyStr.join ":"
       (map (fun j => PyStr.slice (Re.group1 (substring i 13 s)) j 2)
            (PyStr.range_step 0 12 2)))
  = true.
Proof.
  intros Hi.
  destruct (token_grouping s i Hi)
    as (a & b & c & d & e & f & g & h & i' & j & k & l & Hrun & Hmac).
  rewrite Hmac. destruct Hi as [_ Hk].
  assert (Hhex : forall n x, n < 12 ->
                 get n (substring (i + 1) 12 s) = Some x ->
                 Re.hex_upper x = true).
  { intros n x Hn Hx. rewrite substring_correct1 in Hx by exact Hn.
    destruct (Hk n Hn) as (y & Hy & Hh).
    replace (n + (i + 1)) with (i + 1 + n) in Hx by lia. congruence. }
  rewrite Hrun in Hhex.
  assert (Ha := Hhex 0 a ltac:(lia) eq_refl).
  assert (Hb := Hhex 1 b ltac:(lia) eq_refl).
  assert (Hc := Hhex 2 c ltac:(lia) eq_refl).
  assert (Hd := Hhex 3 d ltac:(lia) eq_refl).
  assert (He := Hhex 4 e ltac:(lia) eq_refl).
  assert (Hf := Hhex 5 f ltac:(lia) eq_refl).
  assert (Hg := Hhex 6 g ltac:(lia) eq_refl).
  assert (Hh := Hhex 7 h ltac:(lia) eq_refl).
  assert (Hi' := Hhex 8 i' ltac:(lia) eq_refl).
  assert (Hj := Hhex 9 j ltac:(lia) eq_refl).
  assert (Hk' := Hhex 10 k ltac:(lia) eq_refl).
  assert (Hl := Hhex 11 l ltac:(lia) eq_refl).
  unfold is_canonical_mac. cbn [canonical_from].
  rewrite Ha, Hb, Hc, Hd, He, Hf, Hg, Hh, Hi', Hj, Hk', Hl. reflexivity.
Qed.

Lemma extract_line73_canonical (hwid : string) :
  is_canonical_mac (V2.extract_mac_from_hwid hwid) = true.
Proof.
  unfold V2.extract_mac_from_hwid.
  destruct (Re.search Re.mac_pattern (PyStr.upper hwid)) as [m|] eqn:E;
    [|reflexivity].
  destruct (search_some _ _ _ E) as (i & Hi & _ & ->).
  apply token_at_matches in Hi. cbv zeta.
  change (List.length Re.mac_pattern) with 13.
  exact (token_grouping_canonical _ _ Hi).
Qed.

(** X1: whatever the hardware id, the extractor returns a string of the
    form [XX:XX:XX:XX:XX:XX] with upper-case hexadecimal digits (the
    sentinel is of that form); the definition of line 491 of [OBD-v5.py]
    returns such a string or ["Unknown"]. *)
Theorem extract_result_is_canonical (hwid : string) :
  is_canonical_mac (V2.extract_mac_from_hwid hwid) = true
  /\ is_canonical_mac (V3.extract_mac_from_hwid hwid) = true
  /\ is_canonical_mac (V4.extract_mac_from_hwid hwid) = true
  /\ is_canonical_mac (V5.extract_mac_from_hwid_line73 hwid) = true
  /\ (V5.extract_mac_from_hwid_line491 hwid = "Unknown"
      \/ is_canonical_mac (V5.extract_mac_from_hwid_line491 hwid) = true).
Proof.
  unfold V3.extract_mac_from_hwid, V2.extract_mac_from_hwid,
    V4.extract_mac_from_hwid, V5.extract_mac_from_hwid_line73,
    V5.extract_mac_from_hwid_line491.
  destruct (Re.search Re.mac_pattern (PyStr.upper hwid)) as [m|] eqn:E.
  - destruct (search_some _ _ _ E) as (i & Hi & _ & ->).
    apply token_at_matches in Hi. cbv zeta.
    change (List.length Re.mac_pattern) with 13.
    pose proof (token_grouping_canonical _ _ Hi) as Hc.
    repeat split; try exact Hc. now right.
  - repeat split; try reflexivity. now left.
Qed.

(** X2: the result of the extractor does not depend on the case of the
    letters of the hardware id. *)
Theorem extract_ignores_case (hwid : string) :
  V2.extract_mac_from_hwid (PyStr.upper hwid) = V2.extract_mac_from_hwid hwid
  /\ V4.extract_mac_from_hwid (PyStr.upper hwid) = V4.extract_mac_from_hwid hwid
  /\ V5.extract_mac_from_hwid_line73 (PyStr.upper hwid)
     = V5.extract_mac_from_hwid_line73 hwid
  /\ V5.extract_mac_from_hwid_line491 (PyStr.upper hwid)
     = V5.extract_mac_from_hwid_line491 hwid.
Proof.
  unfold V2.extract_mac_from_hwid, V4.extract_mac_from_hwid,
    V5.extract_mac_from_hwid_line73, V5.extract_mac_from_hwid_line491.
  rewrite upper_idempotent. repeat split.
Qed.

Lemma leftmost_unique (s : string) (i j : nat) :
  token_at s i -> (forall n, n < i -> ~ token_at s n) ->
  token_at s j -> (forall n, n < j -> ~ token_at s n) ->
  i = j.
Proof.
  intros Hi Hmi Hj Hmj.
  destruct (Nat.lt_trichotomy i j) as [H|[H|H]]; [|exact H|].
  - exfalso. exact (Hmj i H Hi).
  - exfalso. exact (Hmi j H Hj).
Qed.

Lemma extract_line73_sentinel (hwid : string) :
  V2.extract_mac_from_hwid hwid = "00:00:00:00:00:00"
  <-> (forall i, ~ token_at (PyStr.upper hwid) i) \/ zero_first_token hwid.
Proof.
  split.
  - intros H.
    destruct (Re.search Re.mac_pattern (PyStr.upper hwid)) as [m|] eqn:E.
    + right. apply extract_line491_sentinel.
      unfold V2.extract_mac_from_hwid in H.
      unfold V5.extract_mac_from_hwid_line491. rewrite E in *. exact H.
    + left. intros i Hi. apply (search_none_inv _ _ i E).
      now apply token_at_matches.
  - intros [Hno|Hz].
    + unfold V2.extract_mac_from_hwid. rewrite search_none; [reflexivity|].
      intros i Hi. apply (Hno i). now apply token_at_matches.
    + apply extract_line491_sentinel in Hz.
      unfold V5.extract_mac_from_hwid_line491 in Hz.
      unfold V2.extract_mac_from_hwid.
      destruct (Re.search Re.mac_pattern (PyStr.upper hwid));
        [exact Hz | reflexivity].
Qed.

Lemma extract_not_sentinel (hwid : string) :
  V2.extract_mac_from_hwid hwid <> "00:00:00:00:00:00"
  <-> nonzero_first_token hwid.
Proof.
  split.
  - intros Hne.
    destruct (Re.search Re.mac_pattern (PyStr.upper hwid)) as [m|] eqn:E.
    + destruct (search_some _ _ _ E) as (i & Hi & Hmin & _).
      apply token_at_matches in Hi.
      assert (Hmin' : forall j, j < i -> ~ token_at (PyStr.upper hwid) j).
      { intros j Hj Hm. apply (Hmin j Hj). now apply token_at_matches. }
      exists i. split; [exact Hi|]. split; [exact Hmin'|].
      intros Hz. apply Hne. apply extract_line73_sentinel. right.
      exists i. auto.
    + exfalso. apply Hne. unfold V2.extract_mac_from_hwid. now rewrite E.
  - intros (i & Hi & Hmin & Hnz) Hs.
    apply extract_line73_sentinel in Hs. destruct Hs as [Hno|(j & Hj & Hmj & Hz)].
    + exact (Hno i Hi).
    + assert (i = j) by (eapply leftmost_unique; eauto). subst j.
      exact (Hnz Hz).
Qed.

Lemma v2_scan_as_v5 (ports : list ListPortInfo) :
  V2.list_paired_bluetooth_ports ports
  = V5.list_paired_bluetooth_ports V2.extract_mac_from_hwid ports.
Proof.
  induction ports as [|p ports IH]; [reflexivity|].
  simpl. now rewrite IH.
Qed.

Lemma v4_scan_as_v2 (ports : list ListPortInfo) :
  V4.list_paired_bluetooth_ports ports = V2.list_paired_bluetooth_ports ports.
Proof.
  induction ports as [|p ports IH]; [reflexivity|].
  simpl. rewrite IH. reflexivity.
Qed.

(** X3: the scan of [OBD-v2.py], [OBD-v3.py] and [OBD-v4.py] returns
    [(device, mac)] exactly for the ports whose description contains
    ["Bluetooth"] and whose upper-case hardware id has a leftmost token
    that is not all zeros, [mac] being what the extractor returns for the
    port; so every candidate carries a canonical MAC other than the
    sentinel. *)
Theorem scan_candidates (ports : list ListPortInfo) (dev mac : string) :
  (In (dev, mac) (V2.list_paired_bluetooth_ports ports)
   <-> exists p, In p ports /\ device p = dev
                 /\ PyStr.contains "Bluetooth" (description p) = true
                 /\ nonzero_first_token (hwid p)
                 /\ V2.extract_mac_from_hwid (hwid p) = mac)
  /\ (In (dev, mac) (V2.list_paired_bluetooth_ports ports) ->
      mac <> "00:00:00:00:00:00" /\ is_canonical_mac mac = true)
  /\ V3.list_paired_bluetooth_ports ports = V2.list_paired_bluetooth_ports ports
  /\ V4.list_paired_bluetooth_ports ports = V2.list_paired_bluetooth_ports ports.
Proof.
  assert (Hiff : In (dev, mac) (V2.list_paired_bluetooth_ports ports)
                 <-> exists p, In p ports /\ device p = dev
                     /\ PyStr.contains "Bluetooth" (description p) = true
                     /\ nonzero_first_token (hwid p)
                     /\ V2.extract_mac_from_hwid (hwid p) = mac).
  { rewrite v2_scan_as_v5, v5_scan_in. split.
    - intros (p & Hp & -> & -> & Hb & Hne). exists p.
      repeat split; auto. now apply extract_not_sentinel.
    - intros (p & Hp & <- & Hb & Hnz & <-). exists p.
      repeat split; auto. now apply extract_not_sentinel. }
  split; [exact Hiff|]. split; [|split; [reflexivity | apply v4_scan_as_v2]].
  intros Hin. apply Hiff in Hin. destruct Hin as (p & _ & _ & _ & Hnz & <-).
  split.
  - now apply extract_not_sentinel.
  - apply extract_line73_canonical.
Qed.

(** X4: the scan works port by port and keeps the order of the
    enumeration: the scan of two lists put together is the scan of the
    first followed by the scan of the second. *)
Theorem scan_app (ports1 ports2 : list ListPortInfo) :
  V2.list_paired_bluetooth_ports (ports1 ++ ports2)
  = (V2.list_paired_bluetooth_ports ports1
     ++ V2.list_paired_bluetooth_ports ports2)%list
  /\ V4.list_paired_bluetooth_ports (ports1 ++ ports2)
     = (V4.list_paired_bluetooth_ports ports1
        ++ V4.list_paired_bluetooth_ports ports2)%list
  /\ forall extract_mac,
       V5.list_paired_bluetooth_ports extract_mac (ports1 ++ ports2)
       = (V5.list_paired_bluetooth_ports extract_mac ports1
          ++ V5.list_paired_bluetooth_ports extract_mac ports2)%list.
Proof.
  assert (H5 : forall extract_mac,
             V5.list_paired_bluetooth_ports extract_mac (ports1 ++ ports2)
             = (V5.list_paired_bluetooth_ports extract_mac ports1
                ++ V5.list_paired_bluetooth_ports extract_mac ports2)%list).
  { intros extract_mac. induction ports1 as [|p ports1 IH]; [reflexivity|].
    simpl. destruct (PyStr.contains "Bluetooth" (description p)); [|exact IH].
    destruct (negb (extract_mac (hwid p) =? "00:00:00:00:00:00")%string);
      [|exact IH].
    simpl. now rewrite IH. }
  split; [|split; [|exact H5]].
  - rewrite !v2_scan_as_v5. apply H5.
  - rewrite !v4_scan_as_v2, !v2_scan_as_v5. apply H5.
Qed.

(* ================================================================= *)
(** ** Further properties of the connection negotiator *)

Lemma total_obd_opens_app (t1 t2 : list event) :
  total_obd_opens (t1 ++ t2) = total_obd_opens t1 + total_obd_opens t2.
Proof. induction t1 as [|e t1 IH]; [reflexivity|]. destruct e; simpl; auto. Qed.

Lemma serial_opens_app (t1 t2 : list event) :
  serial_opens (t1 ++ t2) = serial_opens t1 + serial_opens t2.
Proof. induction t1 as [|e t1 IH]; [reflexivity|]. destruct e; simpl; auto. Qed.

Lemma closed_sessions_app (t1 t2 : list event) :
  closed_sessions (t1 ++ t2) = (closed_sessions t1 ++ closed_sessions t2)%list.
Proof.
  induction t1 as [|e t1 IH]; [reflexivity|].
  destruct e; simpl; auto. now rewrite IH.
Qed.

Lemma scheduled_app (t1 t2 : list event) :
  scheduled (t1 ++ t2) = (scheduled t1 ++ scheduled t2)%list.
Proof.
  induction t1 as [|e t1 IH]; [reflexivity|].
  destruct e; simpl; auto. now rewrite IH.
Qed.

Lemma samples_emitted_app (t1 t2 : list event) :
  samples_emitted (t1 ++ t2) = (samples_emitted t1 ++ samples_emitted t2)%list.
Proof.
  induction t1 as [|e t1 IH]; [reflexivity|].
  destruct e; simpl; auto. destruct cb; simpl; auto. now rewrite IH.
Qed.

Lemma tables_displayed_app (t1 t2 : list event) :
  tables_displayed (t1 ++ t2) = tables_displayed t1 + tables_displayed t2.
Proof. induction t1 as [|e t1 IH]; [reflexivity|]. destruct e; simpl; auto. Qed.

Lemma v2_print_found_trace (l : list (string * string)) :
  V2.print_found l
  = (map (fun pm => Print ("  - " ++ fst pm ++ " (MAC: " ++ snd pm ++ ")")) l,
     Ret tt).
Proof.
  induction l as [|[p m] l IH]; [reflexivity|].
  simpl V2.print_found. rewrite IH. reflexivity.
Qed.

Lemma prints_count_nothing (l : list string) :
  total_obd_opens (map Print l) = 0
  /\ serial_opens (map Print l) = 0
  /\ closed_sessions (map Print l) = []%list.
Proof. induction l as [|s l (H1 & H2 & H3)]; simpl; auto. Qed.

Section NegotiatorInvariants.

Variable env : Env.
Variables (protocol : string) (baudrate retries delay timeout : Z).

Lemma v2_precheck_cases (port mac : string) :
  (serial_Serial env port = None /\ serial_close env port = None
   /\ V2.precheck env baudrate timeout port mac
      = (v2_precheck_events baudrate timeout port mac, Ret true))
  \/ (precheck_fails env port
      /\ V2.precheck env baudrate timeout port mac
         = (v2_precheck_failed_events env baudrate timeout port mac, Ret false)).
Proof.
  unfold V2.precheck, precheck_fails, v2_precheck_failed_events.
  destruct (serial_Serial env port) as [m1|] eqn:E1.
  - right. split; [left; discriminate | reflexivity].
  - destruct (serial_close env port) as [m2|] eqn:E2.
    + right. split; [right; discriminate | reflexivity].
    + left. repeat split.
Qed.

Lemma v2_precheck_failed_counts (port mac : string) :
  total_obd_opens (v2_precheck_failed_events env baudrate timeout port mac) = 0
  /\ serial_opens (v2_precheck_failed_events env baudrate timeout port mac) = 1
  /\ closed_sessions (v2_precheck_failed_events env baudrate timeout port mac)
     = []%list.
Proof.
  unfold v2_precheck_failed_events.
  destruct (serial_Serial env port); [repeat split|].
  destruct (serial_close env port); repeat split.
Qed.

(** One attempt: it always comes back, with one open; a session it closes
    was not connected, a session it returns is. *)
Lemma v2_attempt_inv (port : string) (attempt : Z) :
  exists t r,
    V2.attempt_once env protocol baudrate retries delay timeout port attempt
    = (t, Ret r)
    /\ total_obd_opens t = 1
    /\ serial_opens t = 0
    /\ (forall c, In c (closed_sessions t) -> connected c = false)
    /\ (forall c p, r = Some (c, p) -> connected c = true /\ p = port)
    /\ (r = None -> attempt_fails env port attempt).
Proof.
  unfold V2.attempt_once, do_OBD, attempt_fails.
  destruct (OBD env port attempt) as [c|msg].
  - destruct (connected c) eqn:Ec.
    + eexists _, _. split; [simpl; rewrite Ec; reflexivity|].
      split; [reflexivity|]. split; [reflexivity|].
      split; [intros c' []|]. split; [|discriminate].
      intros c' p' H. injection H as <- <-. now split.
    + eexists _, _. split; [simpl; rewrite Ec; reflexivity|].
      split; [reflexivity|]. split; [reflexivity|].
      split; [|split; [discriminate | reflexivity]].
      intros c' [<-|[]]. exact Ec.
  - eexists _, _. split; [reflexivity|].
    split; [reflexivity|]. split; [reflexivity|].
    split; [intros c' []|]. split; [discriminate | reflexivity].
Qed.

Lemma v2_attempts_inv (port : string) (attempts : list Z) :
  exists t r,
    V2.attempts_loop env protocol baudrate retries delay timeout port attempts
    = (t, Ret r)
    /\ total_obd_opens t <= List.length attempts
    /\ serial_opens t = 0
    /\ (forall c, In c (closed_sessions t) -> connected c = false)
    /\ (forall c p, r = Some (c, p) -> connected c = true /\ p = port)
    /\ (r = None -> forall a, In a attempts -> attempt_fails env port a).
Proof.
  induction attempts as [|a attempts IH].
  - exists []%list, None. split; [reflexivity|]. split; [simpl; lia|].
    split; [reflexivity|]. split; [intros c []|].
    split; [discriminate | intros _ a []].
  - simpl V2.attempts_loop.
    destruct (v2_attempt_inv port a) as (t1 & r1 & E1 & Ho1 & Hs1 & Hc1 & Hr1 & Hf1).
    rewrite E1, bind_ret_l. destruct r1 as [[c p]|].
    + exists (t1 ++ [])%list, (Some (c, p)). split; [reflexivity|].
      rewrite app_nil_r. split; [simpl; lia|]. split; [exact Hs1|].
      split; [exact Hc1|]. split; [exact Hr1 | discriminate].
    + destruct IH as (t2 & r2 & E2 & Ho2 & Hs2 & Hc2 & Hr2 & Hf2).
      rewrite E2. exists (t1 ++ t2)%list, r2. split; [reflexivity|].
      rewrite total_obd_opens_app, serial_opens_app, closed_sessions_app.
      split; [simpl; lia|]. split; [lia|]. split; [|split; [exact Hr2|]].
      * intros c Hc. apply in_app_iff in Hc. destruct Hc; auto.
      * intros Hn b [<-|Hb]; auto.
Qed.

Lemma range_from_1_succ_length (n : Z) :
  List.length (PyStr.range_from_1 (n + 1)) = Z.to_nat n.
Proof.
  unfold PyStr.range_from_1. rewrite length_map, length_seq. f_equal. lia.
Qed.

Lemma v2_ports_inv (candidates : list (string * string)) :
  exists t r,
    V2.ports_loop env protocol baudrate retries delay timeout candidates
    = (t, Ret r)
    /\ total_obd_opens t <= Z.to_nat retries * List.length candidates
    /\ serial_opens t <= List.length candidates
    /\ (forall c, In c (closed_sessions t) -> connected c = false)
    /\ (forall c p, r = Some (c, p) ->
          connected c = true /\ In p (map fst candidates)).
Proof.
  induction candidates as [|[port mac] rest IH].
  - exists []%list, None. split; [reflexivity|]. split; [simpl; lia|].
    split; [simpl; lia|]. split; [intros c [] | discriminate].
  - destruct IH as (t2 & r2 & E2 & Ho2 & Hs2 & Hc2 & Hr2).
    simpl V2.ports_loop.
    destruct (v2_precheck_cases port mac) as [(_ & _ & Ep)|(_ & Ep)]; rewrite Ep.
    + destruct (v2_attempts_inv port (PyStr.range_from_1 (retries + 1)))
        as (t1 & r1 & E1 & Ho1 & Hs1 & Hc1 & Hr1 & _).
      rewrite range_from_1_succ_length in Ho1.
      rewrite E1, !bind_ret_l.
      assert (Hp0 : total_obd_opens (v2_precheck_events baudrate timeout port mac)
                    = 0) by reflexivity.
      assert (Hp1 : serial_opens (v2_precheck_events baudrate timeout port mac)
                    = 1) by reflexivity.
      assert (Hp2 : closed_sessions (v2_precheck_events baudrate timeout port mac)
                    = []%list) by reflexivity.
      destruct r1 as [[c p]|].
      * eexists _, _. split; [reflexivity|].
        unfold trace, result. cbn [fst snd ret].
        rewrite !total_obd_opens_app, !serial_opens_app, !closed_sessions_app.
        rewrite Hp0, Hp1, Hp2. cbn [List.length map fst].
        split; [simpl; nia|]. split; [simpl; lia|]. split.
        -- intros c0 Hc0. simpl in Hc0. rewrite app_nil_r in Hc0. auto.
        -- intros c0 p0 H. injection H as <- <-.
           destruct (Hr1 c p eq_refl) as [Hcc ->]. split; [exact Hcc | now left].
      * rewrite E2. eexists _, _. split; [reflexivity|].
        unfold trace, result. cbn [fst snd].
        rewrite !total_obd_opens_app, !serial_opens_app, !closed_sessions_app.
        rewrite Hp0, Hp1, Hp2. cbn [List.length map fst].
        split; [simpl; nia|]. split; [simpl; lia|]. split.
        -- intros c0 Hc0. simpl in Hc0. apply in_app_iff in Hc0.
           destruct Hc0; auto.
        -- intros c0 p0 H. destruct (Hr2 c0 p0 H). split; [assumption | now right].
    + rewrite bind_ret_l, E2. eexists _, _. split; [reflexivity|].
      unfold trace, result. cbn [fst snd].
      rewrite total_obd_opens_app, serial_opens_app, closed_sessions_app.
      destruct (v2_precheck_failed_counts port mac) as (-> & -> & ->).
      cbn [List.length map fst].
      split; [simpl; nia|]. split; [simpl; lia|]. split.
      * intros c0 Hc0. simpl in Hc0. auto.
      * intros c0 p0 H. destruct (Hr2 c0 p0 H). split; [assumption | now right].
Qed.

(** What [connect_with_retry] does around the port loop when the scan
    found candidates. *)
Lemma v2_connect_unfold (t : list event) (r : option (Conn * string)) :
  V2.list_paired_bluetooth_ports (comports env) <> []%list ->
  V2.ports_loop env protocol baudrate retries delay timeout
    (V2.list_paired_bluetooth_ports (comports env)) = (t, Ret r) ->
  V2.connect_with_retry env protocol baudrate retries delay timeout
  = ((map Print
        ([ "🔄 Waiting before first attempt..." ]%list)
      ++ [ Sleep (PyNum.PyInt 5) ]
      ++ map Print
           ([ "🔍 Scanning for paired Bluetooth OBD-II devices...";
              "🧭 Found paired ports:" ]
            ++ map (fun pm => ("  - " ++ fst pm ++ " (MAC: " ++ snd pm ++ ")")%string)
                   (V2.list_paired_bluetooth_ports (comports env)))
      ++ t
      ++ match r with
         | Some _ => []
         | None => [ Print "🚫 No responsive OBD-II adapter found." ]
         end)%list,
     Ret match r with
         | Some (c, p) => (Some c, Some p)
         | None => (None, None)
         end).
Proof.
  intros Hne Ep. unfold V2.connect_with_retry.
  destruct (V2.list_paired_bluetooth_ports (comports env)) as [|pm l] eqn:Es;
    [contradiction|].
  rewrite Ep, v2_print_found_trace. unfold print, sleep, emit.
  rewrite !bind_ret_l. unfold trace, result. cbn [fst snd].
  rewrite map_app, map_map. destruct r as [[c p]|]; reflexivity.
Qed.

End NegotiatorInvariants.

Lemma v2_port_skipped
    (env : Env) (protocol : string) (baudrate retries delay timeout : Z)
    (port mac : string) (rest : list (string * string)) :
  precheck_fails env port ->
  V2.ports_loop env protocol baudrate retries delay timeout ((port, mac) :: rest)
  = ((v2_precheck_failed_events env baudrate timeout port mac
      ++ trace (V2.ports_loop env protocol baudrate retries delay timeout rest))%list,
     result (V2.ports_loop env protocol baudrate retries delay timeout rest)).
Proof.
  intros Hfails. simpl V2.ports_loop.
  destruct (v2_precheck_cases env baudrate timeout port mac)
    as [(E1 & E2 & _)|(_ & Ep)].
  - exfalso. destruct Hfails; contradiction.
  - rewrite Ep, bind_ret_l. reflexivity.
Qed.

(** X5: a candidate whose settle pre-check raises, at the open or at the
    close of the serial device, is skipped by [connect_with_retry] of
    [OBD-v2.py] and [OBD-v3.py]: no OBD session is opened on it and the
    loop goes on with the remaining candidates. *)
Theorem precheck_failure_skips_port
    (env : Env) (protocol : string) (baudrate retries delay timeout : Z)
    (port mac : string) (rest : list (string * string))
    (Hfails : precheck_fails env port) :
  V2.ports_loop env protocol baudrate retries delay timeout ((port, mac) :: rest)
  = ((v2_precheck_failed_events env baudrate timeout port mac
      ++ trace (V2.ports_loop env protocol baudrate retries delay timeout rest))%list,
     result (V2.ports_loop env protocol baudrate retries delay timeout rest))
  /\ total_obd_opens (v2_precheck_failed_events env baudrate timeout port mac) = 0
  /\ serial_opens (v2_precheck_failed_events env baudrate timeout port mac) = 1
  /\ V3.ports_loop env protocol baudrate retries delay timeout ((port, mac) :: rest)
     = V2.ports_loop env protocol baudrate retries delay timeout ((port, mac) :: rest).
Proof.
  destruct (v2_precheck_failed_counts env baudrate timeout port mac)
    as (H0 & H1 & _).
  split; [|split; [exact H0 | split; [exact H1 | reflexivity]]].
  now apply v2_port_skipped.
Qed.

Lemma precheck_failure_skips_port_witness :
  precheck_fails
    (with_serial (fun _ => Some "could not open port 'COM4'") (fun _ => None)
                 (simulated_env (Some 2%Z) 3 5))
    "COM4"
  /\ V2.ports_loop
       (with_serial (fun _ => Some "could not open port 'COM4'") (fun _ => None)
                    (simulated_env (Some 2%Z) 3 5))
       "6" 38400 5 2 3 [("COM4", "00:1D:A5:08:49:12")]%list
     = ([ Print (nl ++ "🔍 Pre-checking COM4 (00:1D:A5:08:49:12)...");
          Sleep (PyNum.PyInt 2);
          SerialOpen "COM4" 38400 3;
          Print "⚠️ Skipping COM4: could not open port 'COM4'" ]%list,
        Ret None).
Proof.
  assert (H : precheck_fails
                (with_serial (fun _ => Some "could not open port 'COM4'")
                             (fun _ => None) (simulated_env (Some 2%Z) 3 5))
                "COM4").
  { left. discriminate. }
  split; [exact H|].
  exact (proj1 (precheck_failure_skips_port
                  (with_serial (fun _ => Some "could not open port 'COM4'")
                               (fun _ => None) (simulated_env (Some 2%Z) 3 5))
                  "6" 38400 5 2 3 "COM4" "00:1D:A5:08:49:12" []%list H)).
Defined.

Lemma v2_connect_inv
    (env : Env) (protocol : string) (baudrate retries delay timeout : Z) :
  exists t r,
    V2.connect_with_retry env protocol baudrate retries delay timeout = (t, Ret r)
    /\ total_obd_opens t
       <= Z.to_nat retries
          * List.length (V2.list_paired_bluetooth_ports (comports env))
    /\ serial_opens t
       <= List.length (V2.list_paired_bluetooth_ports (comports env))
    /\ (forall c, In c (closed_sessions t) -> connected c = false)
    /\ (r = (None, None)
        \/ exists c p mac,
             r = (Some c, Some p) /\ connected c = true
             /\ In (p, mac) (V2.list_paired_bluetooth_ports (comports env))).
Proof.
  destruct (V2.list_paired_bluetooth_ports (comports env)) as [|pm l] eqn:Es.
  - unfold V2.connect_with_retry. rewrite Es.
    eexists _, _. split; [reflexivity|].
    split; [simpl; lia|]. split; [simpl; lia|]. split; [intros c []|now left].
  - destruct (v2_ports_inv env protocol baudrate retries delay timeout (pm :: l))
      as (t & r & Ep & Ho & Hs & Hc & Hr).
    assert (Hne : V2.list_paired_bluetooth_ports (comports env) <> []%list)
      by (rewrite Es; discriminate).
    rewrite <- Es in Ep.
    rewrite (v2_connect_unfold env protocol baudrate retries delay timeout
               t r Hne Ep).
    eexists _, _. split; [reflexivity|].
    rewrite !total_obd_opens_app, !serial_opens_app, !closed_sessions_app.
    destruct (prints_count_nothing ["🔄 Waiting before first attempt..."]%list)
      as (-> & -> & ->).
    destruct (prints_count_nothing
                ([ "🔍 Scanning for paired Bluetooth OBD-II devices...";
                   "🧭 Found paired ports:" ]
                 ++ map (fun pm => ("  - " ++ fst pm ++ " (MAC: " ++ snd pm
                                    ++ ")")%string)
                        (V2.list_paired_bluetooth_ports (comports env)))%list)
      as (-> & -> & ->).
    rewrite Es in *.
    assert (Htail : total_obd_opens
                      match r with
                      | Some _ => []
                      | None => [Print "🚫 No responsive OBD-II adapter found."]
                      end = 0
                    /\ serial_opens
                         match r with
                         | Some _ => []
                         | None => [Print "🚫 No responsive OBD-II adapter found."]
                         end = 0
                    /\ closed_sessions
                         match r with
                         | Some _ => []
                         | None => [Print "🚫 No responsive OBD-II adapter found."]
                         end = []%list)
      by (destruct r; repeat split).
    destruct Htail as (-> & -> & ->).
    change (total_obd_opens [Sleep (PyNum.PyInt 5)]) with 0.
    change (serial_opens [Sleep (PyNum.PyInt 5)]) with 0.
    split; [lia|]. split; [lia|]. split.
    + intros c Hin. simpl in Hin. rewrite app_nil_r in Hin. auto.
    + destruct r as [[c p]|]; [right | now left].
      destruct (Hr c p eq_refl) as [Hcc Hin].
      apply in_map_iff in Hin. destruct Hin as ([p' mac] & Hp & Hin).
      simpl in Hp. subst p'. exists c, p, mac. auto.
Qed.

(** X6: [connect_with_retry] of [OBD-v2.py] and [OBD-v3.py] never lets an
    exception of the serial driver or of the OBD library escape; it
    returns [(None, None)] or a session that answered connected together
    with the device of one of the scanned candidates; and every session
    it closed had answered not connected, so the returned session is
    never closed by the negotiator. *)
Theorem connect_returns_connected_session
    (env : Env) (protocol : string) (baudrate retries delay timeout : Z) :
  exists t r,
    V2.connect_with_retry env protocol baudrate retries delay timeout = (t, Ret r)
    /\ V3.connect_with_retry env protocol baudrate retries delay timeout
       = (t, Ret r)
    /\ (r = (None, None)
        \/ exists c p mac,
             r = (Some c, Some p) /\ connected c = true
             /\ In (p, mac) (V2.list_paired_bluetooth_ports (comports env))
             /\ ~ In c (closed_sessions t))
    /\ (forall c, In c (closed_sessions t) -> connected c = false).
Proof.
  destruct (v2_connect_inv env protocol baudrate retries delay timeout)
    as (t & r & E & _ & _ & Hc & Hr).
  exists t, r. split; [exact E|]. split; [exact E|]. split; [|exact Hc].
  destruct Hr as [Hr|(c & p & mac & Hr & Hcc & Hin)]; [now left|].
  right. exists c, p, mac. repeat split; auto.
  intros Hcl. apply Hc in Hcl. congruence.
Qed.


Lemma v2_ports_all_fail
    (env : Env) (protocol : string) (baudrate retries delay timeout : Z)
    (candidates : list (string * string)) :
  (forall port mac, In (port, mac) candidates ->
     precheck_fails env port \/ forall a, attempt_fails env port a) ->
  exists t,
    V2.ports_loop env protocol baudrate retries delay timeout candidates
    = (t, Ret None).
Proof.
  induction candidates as [|[port mac] rest IH]; intros H.
  - now exists []%list.
  - destruct IH as [t2 E2]; [intros p m Hin; apply (H p m); now right|].
    destruct (v2_precheck_cases env baudrate timeout port mac)
      as [(E1 & E1' & _)|(Hf & _)].
    + destruct (H port mac (or_introl eq_refl)) as [[Hf|Hf]|Hf];
        try contradiction.
      rewrite (v2_port_exhausted env protocol baudrate retries delay timeout
                 port mac rest E1 E1' Hf).
      rewrite E2. eexists. reflexivity.
    + rewrite (v2_port_skipped env protocol baudrate retries delay timeout
                 port mac rest Hf).
      rewrite E2. eexists. reflexivity.
Qed.

(** X8: when the scan found candidates and each of them either fails its
    pre-check or fails at every attempt (not connected, or an exception of
    the OBD library), [connect_with_retry] returns [(None, None)] and its
    last action is to print the no-responsive-adapter message, the one
    that tells this failure from an empty scan. *)
Theorem connect_reports_no_responsive_adapter
    (env : Env) (protocol : string) (baudrate retries delay timeout : Z)
    (Hfound : V2.list_paired_bluetooth_ports (comports env) <> []%list)
    (Hall : forall port mac,
        In (port, mac) (V2.list_paired_bluetooth_ports (comports env)) ->
        precheck_fails env port \/ forall a, attempt_fails env port a) :
  result (V2.connect_with_retry env protocol baudrate retries delay timeout)
  = Ret (None, None)
  /\ exists t,
       trace (V2.connect_with_retry env protocol baudrate retries delay timeout)
       = (t ++ [Print "🚫 No responsive OBD-II adapter found."])%list.
Proof.
  destruct (v2_ports_all_fail env protocol baudrate retries delay timeout _ Hall)
    as [t Et].
  rewrite (v2_connect_unfold env protocol baudrate retries delay timeout
             t None Hfound Et).
  split; [reflexivity|]. unfold trace. cbn [fst].
  eexists. rewrite !app_assoc. reflexivity.
Qed.

Lemma connect_reports_no_responsive_adapter_witness :
  result (V2.connect_with_retry (simulated_env None 3 5) "6" 38400 5 2 3)
  = Ret (None, None)
  /\ exists t,
       trace (V2.connect_with_retry (simulated_env None 3 5) "6" 38400 5 2 3)
       = (t ++ [Print "🚫 No responsive OBD-II adapter found."])%list.
Proof.
  apply (connect_reports_no_responsive_adapter (simulated_env None 3 5)
           "6" 38400 5 2 3).
  - discriminate.
  - intros port mac _. right. intros a. reflexivity.
Defined.

(** X9: whatever the adapter answers, [attempt_connection_on_port] of
    [OBD-v5.py] comes back without an exception after at most three opens
    and schedules exactly one completion callback: the failure callback,
    with no session stored, or the success callback for the port with one
    session stored, which answered connected; the sessions it closed had
    answered not connected. *)
Theorem v5_attempt_schedules_one_completion (env : Env) (port : string) :
  exists t,
    V5.attempt_connection_on_port env port = (t, Ret tt)
    /\ total_obd_opens t <= 3
    /\ (forall c, In c (closed_sessions t) -> connected c = false)
    /\ ((scheduled t = [UpdateUiOnFail "Connection Failed"]%list
         /\ stored_sessions t = []%list)
        \/ exists c,
             scheduled t = [UpdateUiOnConnect port]%list
             /\ stored_sessions t = [c]%list
             /\ connected c = true).
Proof.
  unfold V5.attempt_connection_on_port.
  change (PyStr.range_from_1 4) with [1; 2; 3]%Z.
  cbn [V5.attempts_loop]. unfold V5.attempt_once, do_OBD.
  destruct (OBD env port 1) as [c1|m1];
    [destruct (connected c1) eqn:E1|];
    try (eexists; split; [simpl; rewrite ?E1; reflexivity|];
         split; [simpl; lia|]; split; [intros c []|];
         right; exists c1; repeat split; assumption);
    (destruct (OBD env port 2) as [c2|m2];
     [destruct (connected c2) eqn:E2|]);
    try (eexists; split; [simpl; rewrite ?E1, ?E2; reflexivity|];
         split; [simpl; lia|];
         split; [simpl; intuition (subst; assumption)|];
         right; exists c2; repeat split; assumption);
    (destruct (OBD env port 3) as [c3|m3];
     [destruct (connected c3) eqn:E3|]);
    try (eexists; split; [simpl; rewrite ?E1, ?E2, ?E3; reflexivity|];
         split; [simpl; lia|];
         split; [simpl; intuition (subst; assumption)|];
         right; exists c3; repeat split; assumption);
    (eexists; split; [simpl; rewrite ?E1, ?E2, ?E3; reflexivity|];
     split; [simpl; lia|];
     split; [simpl; intuition (subst; assumption)|];
     left; split; reflexivity).
Qed.

(* ================================================================= *)
(** ** Further properties of the sample formatter *)

(** X10: the unit system matters for the units ["°C"] and ["km/h"] only,
    and only when it is spelled ["imperial"]: in every other case the
    formatter of [OBD-v2.py] and [OBD-v3.py] returns what it returns under
    ["metric"]. *)
Theorem v2_conversion_needs_imperial_and_unit
    (UNITS : string) (r : OBDResponse) (unit : string)
    (Hother : UNITS <> "imperial" \/ (unit <> "°C" /\ unit <> "km/h")) :
  V2.get_formatted_value UNITS r unit = V2.get_formatted_value "metric" r unit
  /\ V3.get_formatted_value UNITS r unit = V3.get_formatted_value "metric" r unit.
Proof.
  unfold V3.get_formatted_value, V2.get_formatted_value.
  assert (E : (unit =? "°C")%string && (UNITS =? "imperial")%string = false
              /\ (unit =? "km/h")%string && (UNITS =? "imperial")%string = false).
  { destruct Hother as [H|[H1 H2]].
    - apply String.eqb_neq in H. rewrite H, !andb_false_r. auto.
    - apply String.eqb_neq in H1, H2. rewrite H1, H2. auto. }
  destruct E as [-> ->]. rewrite !andb_false_r. split; reflexivity.
Qed.

Lemma v2_conversion_needs_imperial_and_unit_witness :
  V2.get_formatted_value "Imperial" coolant_93 "°C"
  = V2.get_formatted_value "metric" coolant_93 "°C"
  /\ V3.get_formatted_value "Imperial" coolant_93 "°C"
     = V3.get_formatted_value "metric" coolant_93 "°C".
Proof.
  apply (v2_conversion_needs_imperial_and_unit "Imperial" coolant_93 "°C").
  left. discriminate.
Defined.

(* ================================================================= *)
(** ** Further properties of the monitoring loops *)

Lemma m_eta {A : Type} (m : M A) : (trace m, result m) = m.
Proof. now destruct m. Qed.

Section MonitorRuns.

Variable env : Env.

Lemma v5_tick_gone (n : nat) :
  self_connection_set env n = false \/ is_connected env n = false ->
  V5.tick_body env n = (connection_lost_events, Ret Break)
  /\ V4.tick_body env n = (connection_lost_events, Ret Break).
Proof.
  unfold V5.tick_body, V4.tick_body.
  intros [H|H]; rewrite H;
    destruct (self_connection_set env n), (is_connected env n);
    try discriminate; split; reflexivity.
Qed.

(** [k] live ticks in a row. *)
Lemma v5_live_prefix :
  forall k fuel n,
    (forall j, j < k -> self_running env (n + j) = true /\ live_tick env (n + j)) ->
    V5.monitor_loop env (k + fuel) n
    = ((flat_map (v5_tick_events env) (seq n k)
        ++ trace (V5.monitor_loop env fuel (n + k)))%list,
       result (V5.monitor_loop env fuel (n + k))).
Proof.
  induction k as [|k IH]; intros fuel n H.
  - rewrite Nat.add_0_r. simpl. now rewrite m_eta.
  - destruct (H 0 ltac:(lia)) as (Hr & Hs & Hc & Hq). rewrite Nat.add_0_r in *.
    change (S k + fuel) with (S (k + fuel)).
    rewrite (v5_loop_live env _ n Hr Hs Hc Hq).
    rewrite (IH fuel (S n)).
    + unfold trace, result. cbn [fst snd seq flat_map].
      replace (S n + k) with (n + S k) by lia. now rewrite app_assoc.
    + intros j Hj. replace (S n + j) with (n + S j) by lia. apply H. lia.
Qed.

Lemma v4_live_prefix :
  forall k fuel n,
    (forall j, j < k -> self_running env (n + j) = true /\ live_tick env (n + j)) ->
    V4.monitor_loop env (k + fuel) n
    = ((flat_map (v4_tick_events env) (seq n k)
        ++ trace (V4.monitor_loop env fuel (n + k)))%list,
       result (V4.monitor_loop env fuel (n + k))).
Proof.
  induction k as [|k IH]; intros fuel n H.
  - rewrite Nat.add_0_r. simpl. now rewrite m_eta.
  - destruct (H 0 ltac:(lia)) as (Hr & Hs & Hc & Hq). rewrite Nat.add_0_r in *.
    change (S k + fuel) with (S (k + fuel)).
    rewrite (v4_loop_live env _ n Hr Hs Hc Hq).
    rewrite (IH fuel (S n)).
    + unfold trace, result. cbn [fst snd seq flat_map].
      replace (S n + k) with (n + S k) by lia. now rewrite app_assoc.
    + intros j Hj. replace (S n + j) with (n + S j) by lia. apply H. lia.
Qed.

Lemma v5_samples_of_ticks (l : list nat) :
  samples_emitted (flat_map (v5_tick_events env) l) = map (v5_sample env) l.
Proof.
  induction l as [|n l IH]; [reflexivity|].
  cbn [flat_map map]. rewrite samples_emitted_app, IH. reflexivity.
Qed.

Lemma v4_samples_of_ticks (l : list nat) :
  samples_emitted (flat_map (v4_tick_events env) l) = map (v4_sample env) l.
Proof.
  induction l as [|n l IH]; [reflexivity|].
  cbn [flat_map map]. rewrite samples_emitted_app, IH. reflexivity.
Qed.

(** The run of [monitor_data] after [k] live ticks, given what the loop
    does from tick [k] on. *)
Lemma v5_monitor_after_prefix (k fuel : nat) (t : list event) :
  (forall n, n < k -> self_running env n = true /\ live_tick env n) ->
  V5.monitor_loop env fuel k = (t, Ret tt) ->
  V5.monitor_data env (k + fuel)
  = ((flat_map (v5_tick_events env) (seq 0 k) ++ t ++ loop_exit_events)%list,
     Ret tt).
Proof.
  intros Hlive Et. unfold V5.monitor_data.
  rewrite (v5_live_prefix k fuel 0) by (intros j Hj; apply Hlive; exact Hj).
  cbn [Nat.add]. rewrite Et. unfold trace, result. cbn [fst snd].
  rewrite bind_ret_l. unfold trace, result. cbn [fst snd bind emit app].
  now rewrite <- app_assoc.
Qed.

Lemma v4_monitor_after_prefix (k fuel : nat) (t : list event) :
  (forall n, n < k -> self_running env n = true /\ live_tick env n) ->
  V4.monitor_loop env fuel k = (t, Ret tt) ->
  V4.monitor_data env (k + fuel)
  = ((flat_map (v4_tick_events env) (seq 0 k) ++ t ++ loop_exit_events)%list,
     Ret tt).
Proof.
  intros Hlive Et. unfold V4.monitor_data.
  rewrite (v4_live_prefix k fuel 0) by (intros j Hj; apply Hlive; exact Hj).
  cbn [Nat.add]. rewrite Et. unfold trace, result. cbn [fst snd].
  rewrite bind_ret_l. unfold trace, result. cbn [fst snd bind emit app].
  now rewrite <- app_assoc.
Qed.

End MonitorRuns.

(** X11: for every [k], when the first [k] ticks of [monitor_data] are
    live (monitoring not stopped, session set and connected, queries
    answered) and tick [k] finds the session unset or not connected, the
    run emits exactly the [k] samples of the live ticks, in order, then
    the connection-lost log line and the scheduled [disconnect], and ends;
    in [OBD-v5.py] and in [OBD-v4.py]. *)
Theorem monitor_stops_when_session_is_lost (env : Env) (k fuel : nat)
    (Hfuel : k < fuel)
    (Hlive : forall n, n < k -> self_running env n = true /\ live_tick env n)
    (Hrunning : self_running env k = true)
    (Hgone : self_connection_set env k = false \/ is_connected env k = false) :
  V5.monitor_data env fuel
  = ((flat_map (v5_tick_events env) (seq 0 k)
      ++ connection_lost_events ++ loop_exit_events)%list,
     Ret tt)
  /\ samples_emitted (trace (V5.monitor_data env fuel))
     = map (v5_sample env) (seq 0 k)
  /\ V4.monitor_data env fuel
     = ((flat_map (v4_tick_events env) (seq 0 k)
         ++ connection_lost_events ++ loop_exit_events)%list,
        Ret tt)
  /\ samples_emitted (trace (V4.monitor_data env fuel))
     = map (v4_sample env) (seq 0 k).
Proof.
  replace fuel with (k + S (fuel - S k)) by lia.
  destruct (v5_tick_gone env k Hgone) as [G5 G4].
  assert (E5 : V5.monitor_loop env (S (fuel - S k)) k
               = (connection_lost_events, Ret tt)).
  { simpl V5.monitor_loop. rewrite Hrunning, G5. reflexivity. }
  assert (E4 : V4.monitor_loop env (S (fuel - S k)) k
               = (connection_lost_events, Ret tt)).
  { simpl V4.monitor_loop. rewrite Hrunning, G4. reflexivity. }
  rewrite (v5_monitor_after_prefix env k _ _ Hlive E5).
  rewrite (v4_monitor_after_prefix env k _ _ Hlive E4).
  unfold trace. cbn [fst].
  rewrite !samples_emitted_app, v5_samples_of_ticks, v4_samples_of_ticks.
  cbn [samples_emitted connection_lost_events loop_exit_events app].
  rewrite !app_nil_r. repeat split.
Qed.

Lemma monitor_stops_when_session_is_lost_witness :
  V5.monitor_data (simulated_env (Some 2%Z) 3 5) 7
  = ((flat_map (v5_tick_events (simulated_env (Some 2%Z) 3 5)) (seq 0 3)
      ++ connection_lost_events ++ loop_exit_events)%list,
     Ret tt)
  /\ samples_emitted (trace (V5.monitor_data (simulated_env (Some 2%Z) 3 5) 7))
     = map (v5_sample (simulated_env (Some 2%Z) 3 5)) (seq 0 3)
  /\ V4.monitor_data (simulated_env (Some 2%Z) 3 5) 7
     = ((flat_map (v4_tick_events (simulated_env (Some 2%Z) 3 5)) (seq 0 3)
         ++ connection_lost_events ++ loop_exit_events)%list,
        Ret tt)
  /\ samples_emitted (trace (V4.monitor_data (simulated_env (Some 2%Z) 3 5) 7))
     = map (v4_sample (simulated_env (Some 2%Z) 3 5)) (seq 0 3).
Proof.
  apply (monitor_stops_when_session_is_lost (simulated_env (Some 2%Z) 3 5) 3 7).
  - lia.
  - intros n Hn. split; [reflexivity|]. split; [reflexivity|]. split.
    + simpl. apply Nat.ltb_lt. exact Hn.
    + intros cmd. simpl. eexists. reflexivity.
  - reflexivity.
  - right. reflexivity.
Defined.

(** X12: cancellation is polled once a tick: when the first [k] ticks are
    live and [self.running] is found false at the test of tick [k], the
    run of [monitor_data] emits exactly the [k] samples of those ticks,
    makes no further query and schedules neither [disconnect] nor
    [toggle_monitoring]: it resets the button and [self.running] and
    ends. *)
Theorem monitor_stops_when_cancelled (env : Env) (k fuel : nat)
    (Hfuel : k < fuel)
    (Hlive : forall n, n < k -> self_running env n = true /\ live_tick env n)
    (Hstopped : self_running env k = false) :
  V5.monitor_data env fuel
  = ((flat_map (v5_tick_events env) (seq 0 k) ++ loop_exit_events)%list, Ret tt)
  /\ samples_emitted (trace (V5.monitor_data env fuel))
     = map (v5_sample env) (seq 0 k)
  /\ V4.monitor_data env fuel
     = ((flat_map (v4_tick_events env) (seq 0 k) ++ loop_exit_events)%list, Ret tt)
  /\ samples_emitted (trace (V4.monitor_data env fuel))
     = map (v4_sample env) (seq 0 k).
Proof.
  replace fuel with (k + S (fuel - S k)) by lia.
  assert (E5 : V5.monitor_loop env (S (fuel - S k)) k = ([]%list, Ret tt)).
  { simpl V5.monitor_loop. rewrite Hstopped. reflexivity. }
  assert (E4 : V4.monitor_loop env (S (fuel - S k)) k = ([]%list, Ret tt)).
  { simpl V4.monitor_loop. rewrite Hstopped. reflexivity. }
  rewrite (v5_monitor_after_prefix env k _ _ Hlive E5).
  rewrite (v4_monitor_after_prefix env k _ _ Hlive E4).
  unfold trace. cbn [fst app].
  rewrite !samples_emitted_app, v5_samples_of_ticks, v4_samples_of_ticks.
  cbn [samples_emitted loop_exit_events]. rewrite !app_nil_r. repeat split.
Qed.

Lemma monitor_stops_when_cancelled_witness :
  V5.monitor_data (with_running (fun n => (n <? 2)%nat) (simulated_env (Some 2%Z) 3 5)) 7
  = ((flat_map (v5_tick_events
                  (with_running (fun n => (n <? 2)%nat) (simulated_env (Some 2%Z) 3 5)))
               (seq 0 2)
      ++ loop_exit_events)%list,
     Ret tt)
  /\ samples_emitted
       (trace (V5.monitor_data
                 (with_running (fun n => (n <? 2)%nat) (simulated_env (Some 2%Z) 3 5)) 7))
     = map (v5_sample (with_running (fun n => (n <? 2)%nat) (simulated_env (Some 2%Z) 3 5)))
           (seq 0 2)
  /\ V4.monitor_data (with_running (fun n => (n <? 2)%nat) (simulated_env (Some 2%Z) 3 5)) 7
     = ((flat_map (v4_tick_events
                     (with_running (fun n => (n <? 2)%nat) (simulated_env (Some 2%Z) 3 5)))
                  (seq 0 2)
         ++ loop_exit_events)%list,
        Ret tt)
  /\ samples_emitted
       (trace (V4.monitor_data
                 (with_running (fun n => (n <? 2)%nat) (simulated_env (Some 2%Z) 3 5)) 7))
     = map (v4_sample (with_running (fun n => (n <? 2)%nat) (simulated_env (Some 2%Z) 3 5)))
           (seq 0 2).
Proof.
  apply (monitor_stops_when_cancelled
           (with_running (fun n => (n <? 2)%nat) (simulated_env (Some 2%Z) 3 5)) 2 7).
  - lia.
  - intros n Hn. split; [simpl; apply Nat.ltb_lt; exact Hn|].
    split; [reflexivity|]. split.
    + simpl. apply Nat.ltb_lt. lia.
    + intros cmd. simpl. eexists. reflexivity.
  - reflexivity.
Defined.

Lemma samples_of_queries (l : list command) :
  samples_emitted (map ObdQuery l) = []%list.
Proof. induction l; simpl; auto. Qed.

Section GuardedTick.

Variable env : Env.

(** The three ways in which a tick of [OBD-v5.py] can go, the [except]
    branch included: the session is gone; the eight queries are answered;
    the query number [j] is the first that raises. *)
Lemma v5_guarded_tick (n : nat) :
  ((self_connection_set env n = false \/ is_connected env n = false)
   /\ try_except (V5.tick_body env n) V5.on_error
      = (connection_lost_events, Ret Break))
  \/ ((forall cmd, In cmd parameter_set -> exists r, query env n cmd = Response r)
      /\ try_except (V5.tick_body env n) V5.on_error
         = (v5_tick_events env n, Ret Continue))
  \/ (exists j msg,
        j < 8
        /\ query env n (nth j parameter_set COOLANT_TEMP) = QueryRaises msg
        /\ try_except (V5.tick_body env n) V5.on_error
           = ((Log "Querying data from vehicle..."
               :: map ObdQuery (firstn (S j) parameter_set)
               ++ monitor_error_events msg)%list,
              Ret Break)).
Proof.
  destruct (self_connection_set env n) eqn:Es;
    [|left; split; [now left|];
      now rewrite (proj1 (v5_tick_gone env n (or_introl Es)))].
  destruct (is_connected env n) eqn:Ec;
    [|left; split; [now right|];
      now rewrite (proj1 (v5_tick_gone env n (or_intror Ec)))].
  right.
  assert (Hstep : forall j msg,
             j < 8 ->
             (forall i, i < j ->
                exists r, query env n (nth i parameter_set COOLANT_TEMP) = Response r) ->
             query env n (nth j parameter_set COOLANT_TEMP) = QueryRaises msg ->
             try_except (V5.tick_body env n) V5.on_error
             = ((Log "Querying data from vehicle..."
                 :: map ObdQuery (firstn (S j) parameter_set)
                 ++ monitor_error_events msg)%list,
                Ret Break)).
  { intros j msg Hj Hbefore Hr. unfold V5.tick_body, do_query.
    rewrite Es, Ec. cbn [negb orb].
    do 8 (destruct j as [|j];
          [ repeat match goal with
                   | H : forall i, i < ?b -> _ |- _ =>
                       match b with
                       | S _ =>
                           let r := fresh "r" in let E := fresh "E" in
                           destruct (H (Nat.pred b) ltac:(simpl; lia)) as [r E];
                           simpl in E; rewrite E;
                           assert (forall i, i < Nat.pred b ->
                                     exists r, query env n
                                       (nth i parameter_set COOLANT_TEMP)
                                       = Response r)
                             by (intros i Hi; apply H; simpl in *; lia);
                           clear H; simpl in *
                       end
                   end;
            simpl in Hr; rewrite Hr; reflexivity |]).
    lia. }
  destruct (query env n COOLANT_TEMP) as [r1|m] eqn:Q1;
    [|right; exists 0, m; split; [lia|]; split; [exact Q1|];
      apply Hstep; [lia | intros i Hi; lia | exact Q1]].
  destruct (query env n RPM) as [r2|m] eqn:Q2;
    [|right; exists 1, m; split; [lia|]; split; [exact Q2|];
      apply Hstep; [lia | | exact Q2];
      intros i Hi; do 1 (destruct i as [|i]; [eexists; eassumption|]); lia].
  destruct (query env n THROTTLE_POS) as [r3|m] eqn:Q3;
    [|right; exists 2, m; split; [lia|]; split; [exact Q3|];
      apply Hstep; [lia | | exact Q3];
      intros i Hi; do 2 (destruct i as [|i]; [eexists; eassumption|]); lia].
  destruct (query env n ENGINE_LOAD) as [r4|m] eqn:Q4;
    [|right; exists 3, m; split; [lia|]; split; [exact Q4|];
      apply Hstep; [lia | | exact Q4];
      intros i Hi; do 3 (destruct i as [|i]; [eexists; eassumption|]); lia].
  destruct (query env n SPEED) as [r5|m] eqn:Q5;
    [|right; exists 4, m; split; [lia|]; split; [exact Q5|];
      apply Hstep; [lia | | exact Q5];
      intros i Hi; do 4 (destruct i as [|i]; [eexists; eassumption|]); lia].
  destruct (query env n FUEL_LEVEL) as [r6|m] eqn:Q6;
    [|right; exists 5, m; split; [lia|]; split; [exact Q6|];
      apply Hstep; [lia | | exact Q6];
      intros i Hi; do 5 (destruct i as [|i]; [eexists; eassumption|]); lia].
  destruct (query env n INTAKE_TEMP) as [r7|m] eqn:Q7;
    [|right; exists 6, m; split; [lia|]; split; [exact Q7|];
      apply Hstep; [lia | | exact Q7];
      intros i Hi; do 6 (destruct i as [|i]; [eexists; eassumption|]); lia].
  destruct (query env n AMBIANT_AIR_TEMP) as [r8|m] eqn:Q8;
    [|right; exists 7, m; split; [lia|]; split; [exact Q8|];
      apply Hstep; [lia | | exact Q8];
      intros i Hi; do 7 (destruct i as [|i]; [eexists; eassumption|]); lia].
  left. split.
  - intros cmd [<-|[<-|[<-|[<-|[<-|[<-|[<-|[<-|[]]]]]]]]]; eexists; eassumption.
  - unfold V5.tick_body, do_query, v5_tick_events, v5_row, parameter_set, answer.
    cbn [map]. rewrite Es, Ec, Q1, Q2, Q3, Q4, Q5, Q6, Q7, Q8. reflexivity.
Qed.

End GuardedTick.

(** X13: no partial sample.  When the first [k] ticks of [monitor_data]
    of [OBD-v5.py] are live and at tick [k], with the session set and
    connected, one of the eight queries raises, the run makes the queries
    up to the first that raises, emits no sample for that tick, logs the
    error, schedules [toggle_monitoring] and ends: the samples of the run
    are exactly those of the [k] live ticks. *)
Theorem monitor_error_emits_no_partial_sample
    (env : Env) (k fuel : nat) (cmd : command) (msg0 : string)
    (Hfuel : k < fuel)
    (Hlive : forall n, n < k -> self_running env n = true /\ live_tick env n)
    (Hrunning : self_running env k = true)
    (Hset : self_connection_set env k = true)
    (Hconnected : is_connected env k = true)
    (Hcmd : In cmd parameter_set)
    (Hraises : query env k cmd = QueryRaises msg0) :
  exists j msg,
    j < 8
    /\ query env k (nth j parameter_set COOLANT_TEMP) = QueryRaises msg
    /\ V5.monitor_data env fuel
       = ((flat_map (v5_tick_events env) (seq 0 k)
           ++ (Log "Querying data from vehicle..."
               :: map ObdQuery (firstn (S j) parameter_set)
               ++ monitor_error_events msg)
           ++ loop_exit_events)%list,
          Ret tt)
    /\ samples_emitted (trace (V5.monitor_data env fuel))
       = map (v5_sample env) (seq 0 k).
Proof.
  destruct (v5_guarded_tick env k)
    as [([H|H] & _)|[(Hall & _)|(j & msg & Hj & Hq & Et)]].
  - congruence.
  - congruence.
  - destruct (Hall cmd Hcmd) as [r Hr]. congruence.
  - exists j, msg. split; [exact Hj|]. split; [exact Hq|].
    replace fuel with (k + S (fuel - S k)) by lia.
    assert (E : V5.monitor_loop env (S (fuel - S k)) k
                = ((Log "Querying data from vehicle..."
                    :: map ObdQuery (firstn (S j) parameter_set)
                    ++ monitor_error_events msg)%list,
                   Ret tt)).
    { simpl V5.monitor_loop. rewrite Hrunning, Et, bind_ret_l.
      unfold trace, result. cbn [fst snd ret]. now rewrite app_nil_r. }
    rewrite (v5_monitor_after_prefix env k _ _ Hlive E).
    split; [reflexivity|]. unfold trace. cbn [fst].
    rewrite !samples_emitted_app, v5_samples_of_ticks.
    change (Log "Querying data from vehicle..."
            :: map ObdQuery (firstn (S j) parameter_set)
            ++ monitor_error_events msg)%list
      with ([Log "Querying data from vehicle..."]
            ++ map ObdQuery (firstn (S j) parameter_set)
            ++ monitor_error_events msg)%list.
    rewrite !samples_emitted_app, samples_of_queries.
    cbn [samples_emitted monitor_error_events loop_exit_events app].
    now rewrite app_nil_r.
Qed.

Lemma monitor_error_emits_no_partial_sample_witness :
  exists j msg,
    j < 8
    /\ query (with_query
                (fun tick cmd =>
                   if (tick =? 1)%nat && command_eqb cmd SPEED
                   then QueryRaises "device reports readiness to read but returned no data"
                   else Response (answered cmd (PyNum.PyInt 50) "percent"))
                (simulated_env (Some 2%Z) 3 5))
             1 (nth j parameter_set COOLANT_TEMP)
       = QueryRaises msg
    /\ V5.monitor_data
         (with_query
            (fun tick cmd =>
               if (tick =? 1)%nat && command_eqb cmd SPEED
               then QueryRaises "device reports readiness to read but returned no data"
               else Response (answered cmd (PyNum.PyInt 50) "percent"))
            (simulated_env (Some 2%Z) 3 5))
         5
       = ((flat_map
             (v5_tick_events
                (with_query
                   (fun tick cmd =>
                      if (tick =? 1)%nat && command_eqb cmd SPEED
                      then QueryRaises "device reports readiness to read but returned no data"
                      else Response (answered cmd (PyNum.PyInt 50) "percent"))
                   (simulated_env (Some 2%Z) 3 5)))
             (seq 0 1)
           ++ (Log "Querying data from vehicle..."
               :: map ObdQuery (firstn (S j) parameter_set)
               ++ monitor_error_events msg)
           ++ loop_exit_events)%list,
          Ret tt)
    /\ samples_emitted
         (trace
            (V5.monitor_data
               (with_query
                  (fun tick cmd =>
                     if (tick =? 1)%nat && command_eqb cmd SPEED
                     then QueryRaises "device reports readiness to read but returned no data"
                     else Response (answered cmd (PyNum.PyInt 50) "percent"))
                  (simulated_env (Some 2%Z) 3 5))
               5))
       = map (v5_sample
                (with_query
                   (fun tick cmd =>
                      if (tick =? 1)%nat && command_eqb cmd SPEED
                      then QueryRaises "device reports readiness to read but returned no data"
                      else Response (answered cmd (PyNum.PyInt 50) "percent"))
                   (simulated_env (Some 2%Z) 3 5)))
             (seq 0 1).
Proof.
  apply (monitor_error_emits_no_partial_sample
           (with_query
              (fun tick cmd =>
                 if (tick =? 1)%nat && command_eqb cmd SPEED
                 then QueryRaises "device reports readiness to read but returned no data"
                 else Response (answered cmd (PyNum.PyInt 50) "percent"))
              (simulated_env (Some 2%Z) 3 5))
           1 5 SPEED "device reports readiness to read but returned no data").
  - lia.
  - intros n Hn. assert (n = 0) by lia. subst n.
    split; [reflexivity|]. split; [reflexivity|]. split; [reflexivity|].
    intros cmd. simpl. eexists. reflexivity.
  - reflexivity.
  - reflexivity.
  - reflexivity.
  - simpl. tauto.
  - reflexivity.
Defined.

Section MonitorInvariants.

Variable env : Env.

Lemma v5_guarded_tick_summary (n : nat) :
  exists t ctl,
    try_except (V5.tick_body env n) V5.on_error = (t, Ret ctl)
    /\ Forall (fun s => List.length (snd s) = 8) (samples_emitted t)
    /\ List.length (samples_emitted t) <= 1.
Proof.
  destruct (v5_guarded_tick env n) as [(_ & E)|[(_ & E)|(j & msg & _ & _ & E)]];
    rewrite E; eexists _, _; (split; [reflexivity|]).
  - split; [constructor | simpl; lia].
  - split; [repeat constructor | simpl; lia].
  - change (Log "Querying data from vehicle..."
            :: map ObdQuery (firstn (S j) parameter_set)
            ++ monitor_error_events msg)%list
      with ([Log "Querying data from vehicle..."]
            ++ map ObdQuery (firstn (S j) parameter_set)
            ++ monitor_error_events msg)%list.
    rewrite !samples_emitted_app, samples_of_queries.
    split; [constructor | simpl; lia].
Qed.

Lemma v5_monitor_loop_inv :
  forall fuel n,
    exists t r,
      V5.monitor_loop env fuel n = (t, r)
      /\ (r = Ret tt \/ r = OutOfFuel)
      /\ Forall (fun s => List.length (snd s) = 8) (samples_emitted t)
      /\ List.length (samples_emitted t) <= fuel.
Proof.
  induction fuel as [|fuel IH]; intros n.
  - exists []%list, OutOfFuel. split; [reflexivity|]. split; [now right|].
    split; [constructor | simpl; lia].
  - simpl V5.monitor_loop. destruct (self_running env n).
    + destruct (v5_guarded_tick_summary n) as (t1 & ctl & E1 & Hw1 & Hl1).
      rewrite E1, bind_ret_l. destruct ctl.
      * destruct (IH (S n)) as (t2 & r2 & E2 & Hr2 & Hw2 & Hl2).
        rewrite E2. exists (t1 ++ t2)%list, r2. split; [reflexivity|].
        split; [exact Hr2|]. rewrite samples_emitted_app. split.
        -- apply Forall_app. now split.
        -- rewrite length_app. lia.
      * exists (t1 ++ [])%list, (Ret tt). split; [reflexivity|].
        split; [now left|]. rewrite app_nil_r. split; [exact Hw1 | lia].
    + exists []%list, (Ret tt). split; [reflexivity|]. split; [now left|].
      split; [constructor | simpl; lia].
Qed.

End MonitorInvariants.

(** X14: whatever the session, the user and the queries do, a run of
    [monitor_data] of [OBD-v5.py] never ends with an exception; every
    sample it emits has eight readings, one for each parameter; it emits
    at most one sample a tick; and when the loop ends, the last two
    actions are the reset of the button text and [self.running = False]. *)
Theorem monitor_data_invariants (env : Env) (fuel : nat) :
  exists t r,
    V5.monitor_data env fuel = (t, r)
    /\ (r = Ret tt \/ r = OutOfFuel)
    /\ Forall (fun s => List.length (snd s) = List.length parameter_set)
              (samples_emitted t)
    /\ List.length (samples_emitted t) <= fuel
    /\ (r = Ret tt -> exists t0, t = (t0 ++ loop_exit_events)%list).
Proof.
  unfold V5.monitor_data.
  destruct (v5_monitor_loop_inv env fuel 0) as (t & r & E & Hr & Hw & Hl).
  rewrite E. destruct Hr as [-> | ->].
  - rewrite bind_ret_l. eexists _, _. split; [reflexivity|].
    split; [now left|]. unfold trace, result. cbn [fst snd bind emit app].
    rewrite samples_emitted_app. cbn [samples_emitted]. rewrite app_nil_r.
    split; [exact Hw|]. split; [exact Hl|]. intros _. now exists t.
  - exists t, OutOfFuel. split; [reflexivity|]. split; [now right|].
    split; [exact Hw|]. split; [exact Hl | discriminate].
Qed.

(* ================================================================= *)
(** ** Further properties of the command-line logger *)






Section SampleLoopV2.

Variable env : Env.
Variables (UNITS port : string).

Lemma v2_sample_once_answered (n : nat) (data_log : list V2.row) :
  (forall cmd, In cmd parameter_set -> exists r, query env n cmd = Response r) ->
  V2.sample_once env UNITS n port data_log
  = ((map ObdQuery parameter_set
      ++ [DisplayTable (data_log ++ [v2_row env UNITS n]) port])%list,
     Ret (data_log ++ [v2_row env UNITS n])%list).
Proof.
  intros Hq. unfold V2.sample_once, do_query, v2_row, answer.
  destruct (Hq COOLANT_TEMP) as [r1 ->]; [simpl; tauto|].
  destruct (Hq RPM) as [r2 ->]; [simpl; tauto|].
  destruct (Hq THROTTLE_POS) as [r3 ->]; [simpl; tauto|].
  destruct (Hq ENGINE_LOAD) as [r4 ->]; [simpl; tauto|].
  destruct (Hq SPEED) as [r5 ->]; [simpl; tauto|].
  destruct (Hq FUEL_LEVEL) as [r6 ->]; [simpl; tauto|].
  destruct (Hq INTAKE_TEMP) as [r7 ->]; [simpl; tauto|].
  destruct (Hq AMBIANT_AIR_TEMP) as [r8 ->]; [simpl; tauto|].
  reflexivity.
Qed.

Lemma v2_sample_loop_until_interrupt :
  forall s fuel tick data_log,
    s < fuel ->
    (forall n, n < s -> ctrl_c env (tick + n) = false) ->
    ctrl_c env (tick + s) = true ->
    (forall n cmd, n <= s -> In cmd parameter_set ->
       exists r, query env (tick + n) cmd = Response r) ->
    exists t,
      V2.sample_loop env UNITS fuel tick port data_log
      = (t, Ret (data_log ++ map (v2_row env UNITS) (seq tick (S s)))%list)
      /\ tables_displayed t = S s
      /\ total_obd_opens t = 0.
Proof.
  induction s as [|s IH]; intros fuel tick data_log Hfuel Hno Hint Hq;
    (destruct fuel as [|fuel]; [lia|]); simpl V2.sample_loop.
  - rewrite Nat.add_0_r in Hint.
    rewrite v2_sample_once_answered
      by (intros cmd Hc; specialize (Hq 0 cmd); rewrite Nat.add_0_r in Hq;
          apply Hq; [lia | exact Hc]).
    rewrite !bind_ret_l, Hint. eexists. split; [reflexivity|].
    split; reflexivity.
  - assert (H0 : ctrl_c env tick = false)
      by (specialize (Hno 0); rewrite Nat.add_0_r in Hno; apply Hno; lia).
    rewrite v2_sample_once_answered
      by (intros cmd Hc; specialize (Hq 0 cmd); rewrite Nat.add_0_r in Hq;
          apply Hq; [lia | exact Hc]).
    rewrite !bind_ret_l, H0.
    destruct (IH fuel (S tick) (data_log ++ [v2_row env UNITS tick])%list)
      as (t & Et & Hd & Ho).
    + lia.
    + intros n Hn. replace (S tick + n) with (tick + S n) by lia. apply Hno. lia.
    + replace (S tick + s) with (tick + S s) by lia. exact Hint.
    + intros n cmd Hn Hc. replace (S tick + n) with (tick + S n) by lia.
      apply Hq; [lia | exact Hc].
    + rewrite Et. unfold trace, result. cbn [fst snd].
      exists ((map ObdQuery parameter_set
               ++ [DisplayTable (data_log ++ [v2_row env UNITS tick]) port])
              ++ [Sleep V2.REFRESH_RATE] ++ t)%list.
      split.
      * f_equal. f_equal. rewrite <- app_assoc. reflexivity.
      * rewrite !tables_displayed_app, !total_obd_opens_app, Hd, Ho.
        split; reflexivity.
Qed.






End SampleLoopV2.

(** X15: the sampling loop of [main] in [OBD-v2.py] builds one row of
    nine fields (the time and the eight readings) on every tick and
    displays the whole log; when the user interrupts it during the sleep
    of tick [s], the queries having been answered, the log holds the
    [s + 1] rows of the ticks [0] to [s] in order, [s + 1] tables were
    displayed, and what [is_connected()] would have answered plays no
    part. *)
Theorem v2_loop_logs_one_row_per_tick
    (env : Env) (UNITS port : string) (s fuel : nat)
    (Hfuel : s < fuel)
    (Hnot_yet : forall n, n < s -> ctrl_c env n = false)
    (Hinterrupt : ctrl_c env s = true)
    (Hanswered : forall n cmd, n <= s -> In cmd parameter_set ->
                   exists r, query env n cmd = Response r) :
  result (V2.sample_loop env UNITS fuel 0 port [])
  = Ret (map (v2_row env UNITS) (seq 0 (S s)))
  /\ tables_displayed (trace (V2.sample_loop env UNITS fuel 0 port [])) = S s
  /\ Forall (fun row => List.length row = 9) (map (v2_row env UNITS) (seq 0 (S s)))
  /\ forall f,
       V2.sample_loop (with_is_connected f env) UNITS fuel 0 port []
       = V2.sample_loop env UNITS fuel 0 port [].
Proof.
  destruct (v2_sample_loop_until_interrupt env UNITS port s fuel 0 []%list
              Hfuel Hnot_yet Hinterrupt Hanswered) as (t & Et & Hd & _).
  split; [rewrite Et; reflexivity|]. split; [rewrite Et; exact Hd|]. split.
  - apply Forall_forall. intros row Hin. apply in_map_iff in Hin.
    destruct Hin as (n & <- & _). reflexivity.
  - intros f. apply v2_sample_loop_ignores_is_connected.
Qed.

Lemma v2_loop_logs_one_row_per_tick_witness :
  result (V2.sample_loop (simulated_env (Some 2%Z) 3 5) "metric" 10 0 "COM4" [])
  = Ret (map (v2_row (simulated_env (Some 2%Z) 3 5) "metric") (seq 0 (S 5)))
  /\ tables_displayed
       (trace (V2.sample_loop (simulated_env (Some 2%Z) 3 5) "metric" 10 0 "COM4" []))
     = S 5
  /\ Forall (fun row => List.length row = 9)
            (map (v2_row (simulated_env (Some 2%Z) 3 5) "metric") (seq 0 (S 5)))
  /\ forall f,
       V2.sample_loop (with_is_connected f (simulated_env (Some 2%Z) 3 5))
         "metric" 10 0 "COM4" []
       = V2.sample_loop (simulated_env (Some 2%Z) 3 5) "metric" 10 0 "COM4" [].
Proof.
  apply (v2_loop_logs_one_row_per_tick (simulated_env (Some 2%Z) 3 5)
           "metric" "COM4" 5 10).
  - lia.
  - intros n Hn. simpl. apply Nat.eqb_neq. lia.
  - reflexivity.
  - intros n cmd _ _. simpl. eexists. reflexivity.
Defined.



(* ================================================================= *)
(** ** The callbacks on the table and on the CSV file *)

Lemma split_first_field (sep : ascii) (s : string) :
  nth_error (V5Gui.split_char sep s) 0 = Some (first_field sep s).
Proof.
  induction s as [|c s IH]; [reflexivity|].
  simpl. destruct (Ascii.eqb c sep); [reflexivity|].
  destruct (V5Gui.split_char sep s) as [|w ws]; [discriminate IH|].
  simpl in *. now injection IH as ->.
Qed.

Lemma split_without_separator (sep : ascii) (s : string) :
  no_char sep s = true -> V5Gui.split_char sep s = [s]%list.
Proof.
  induction s as [|c s IH]; [reflexivity|].
  simpl. destruct (Ascii.eqb c sep); [discriminate|].
  intros H. now rewrite (IH H).
Qed.

Lemma split_second_field (sep : ascii) (before rest : string) :
  no_char sep before = true ->
  nth_error (V5Gui.split_char sep (before ++ String sep rest)) 1
  = Some (first_field sep rest).
Proof.
  induction before as [|c before IH]; intros H.
  - simpl. rewrite Ascii.eqb_refl. simpl. apply split_first_field.
  - simpl in H. simpl. destruct (Ascii.eqb c sep); [discriminate H|].
    specialize (IH H).
    destruct (V5Gui.split_char sep (before ++ String sep rest)) as [|w ws];
      [discriminate IH | exact IH].
Qed.

Lemma clock_text_fields (time tail : string) :
  clock_text time = true ->
  (tail = "" \/ exists c tl, tail = String c tl /\ ends_time c = true) ->
  first_field "." (first_field "+" (first_field "T" (time ++ tail))) = time.
Proof.
  intros Ht Htail. induction time as [|a time IH].
  - destruct Htail as [->|(c & tl & -> & Hc)]; [reflexivity|].
    simpl. unfold ends_time in Hc.
    destruct (Ascii.eqb c "T") eqn:E1; [reflexivity|].
    simpl. destruct (Ascii.eqb c "+") eqn:E2; [reflexivity|].
    simpl. simpl in Hc. now rewrite Hc.
  - simpl in Ht. apply andb_prop in Ht. destruct Ht as [Ha Ht].
    unfold ends_time in Ha. apply negb_true_iff in Ha.
    apply orb_false_elim in Ha. destruct Ha as [Ha E3].
    apply orb_false_elim in Ha. destruct Ha as [E1 E2].
    simpl. rewrite E1. simpl. rewrite E2. simpl. rewrite E3.
    now rewrite (IH Ht).
Qed.

Lemma read_write_same (p : string) (rows : list (list string))
    (fs : V5Gui.filesystem) :
  V5Gui.read_file p (V5Gui.write_file p rows fs) = Some rows.
Proof.
  induction fs as [|[q old] fs IH]; simpl.
  - now rewrite String.eqb_refl.
  - destruct (String.eqb q p) eqn:E; simpl; rewrite E; auto.
Qed.

Lemma read_write_other (p p' : string) (rows : list (list string))
    (fs : V5Gui.filesystem) :
  p' <> p ->
  V5Gui.read_file p' (V5Gui.write_file p rows fs) = V5Gui.read_file p' fs.
Proof.
  intros Hne. induction fs as [|[q old] fs IH]; simpl.
  - destruct (String.eqb_spec p p'); [congruence | reflexivity].
  - destruct (String.eqb_spec q p) as [->|Hq]; simpl.
    + destruct (String.eqb_spec p p'); [congruence | reflexivity].
    + destruct (String.eqb q p'); auto.
Qed.

Lemma rows_after_append (p : string) (row : list string) (fs : V5Gui.filesystem) :
  rows_of p (V5Gui.append_row_to_csv p row fs) = (rows_of p fs ++ [row])%list.
Proof.
  unfold rows_of, V5Gui.append_row_to_csv.
  destruct (V5Gui.read_file p fs); now rewrite read_write_same.
Qed.

Lemma read_after_append_other (p p' : string) (row : list string)
    (fs : V5Gui.filesystem) :
  p' <> p ->
  V5Gui.read_file p' (V5Gui.append_row_to_csv p row fs) = V5Gui.read_file p' fs.
Proof.
  intros Hne. unfold V5Gui.append_row_to_csv.
  destruct (V5Gui.read_file p fs); now apply read_write_other.
Qed.

Lemma rows_after_appends (p : string) (rows : list (list string)) :
  forall fs, rows_of p (append_rows p rows fs) = (rows_of p fs ++ rows)%list.
Proof.
  unfold append_rows.
  induction rows as [|row rows IH]; intros fs; simpl.
  - now rewrite app_nil_r.
  - rewrite IH, rows_after_append, <- app_assoc. reflexivity.
Qed.

Lemma read_after_appends_other (p p' : string) (rows : list (list string)) :
  p' <> p ->
  forall fs, V5Gui.read_file p' (append_rows p rows fs) = V5Gui.read_file p' fs.
Proof.
  intros Hne. unfold append_rows.
  induction rows as [|row rows IH]; intros fs; simpl; [reflexivity|].
  rewrite IH. now apply read_after_append_other.
Qed.

(** X17: [update_gui_and_csv] on a timestamp [<date>T<time><tail>], where
    the date holds no [T], the time none of [T], [+], [.], and the tail is
    empty or starts with one of them (the form [isoformat()] gives),
    shows [<time>] in the first column of the new table row (only when
    the table still exists) and appends to the CSV file the row of the
    full timestamp, the three vehicle entries and the readings, which has
    as many columns as the header when there are eight readings; no other
    file changes.  On a timestamp without [T] the index [1] raises before
    anything is shown or written. *)
Theorem update_gui_and_csv_on_iso_timestamp
    (st : V5Gui.app_state) (date time tail : string) (row_data : list string)
    (Hdate : no_char "T" date = true)
    (Htime : clock_text time = true)
    (Htail : tail = "" \/ exists c tl, tail = String c tl /\ ends_time c = true) :
  V5Gui.display_ts (date ++ "T" ++ time ++ tail) = Some time
  /\ (exists st',
        V5Gui.update_gui_and_csv st (date ++ "T" ++ time ++ tail) row_data
        = Some st'
        /\ V5Gui.tree_rows st'
           = (if V5Gui.tree_exists st
              then V5Gui.tree_rows st ++ [time :: row_data]
              else V5Gui.tree_rows st)%list
        /\ rows_of V5Gui.CSV_FILENAME (V5Gui.files st')
           = (rows_of V5Gui.CSV_FILENAME (V5Gui.files st)
              ++ [[(date ++ "T" ++ time ++ tail)%string; V5Gui.veh_no st;
                   V5Gui.veh_type st; V5Gui.yr_mfr st] ++ row_data])%list
        /\ (forall p, p <> V5Gui.CSV_FILENAME ->
              V5Gui.read_file p (V5Gui.files st')
              = V5Gui.read_file p (V5Gui.files st)))
  /\ (List.length row_data = 8 ->
      List.length ([(date ++ "T" ++ time ++ tail)%string; V5Gui.veh_no st;
                    V5Gui.veh_type st; V5Gui.yr_mfr st] ++ row_data)%list
      = List.length V5Gui.csv_header)
  /\ (forall bad, no_char "T" bad = true ->
        V5Gui.update_gui_and_csv st bad row_data = None).
Proof.
  assert (Hts : V5Gui.display_ts (date ++ "T" ++ time ++ tail) = Some time).
  { unfold V5Gui.display_ts.
    change (date ++ "T" ++ time ++ tail) with (date ++ String "T" (time ++ tail)).
    rewrite (split_second_field "T" date (time ++ tail) Hdate).
    rewrite split_first_field, split_first_field.
    now rewrite (clock_text_fields time tail Htime Htail). }
  split; [exact Hts|]. split; [|split].
  - unfold V5Gui.update_gui_and_csv. rewrite Hts. eexists. split; [reflexivity|].
    cbn [V5Gui.tree_rows V5Gui.files]. split; [reflexivity|]. split.
    + apply rows_after_append.
    + intros p Hp. now apply read_after_append_other.
  - intros Hlen. rewrite length_app, Hlen. reflexivity.
  - intros bad Hbad. unfold V5Gui.update_gui_and_csv, V5Gui.display_ts.
    now rewrite (split_without_separator "T" bad Hbad).
Qed.

Lemma update_gui_and_csv_on_iso_timestamp_witness :
  V5Gui.display_ts ("2025-07-06" ++ "T" ++ "14:03:27" ++ ".481592+05:00")
  = Some "14:03:27".
Proof.
  exact (proj1 (update_gui_and_csv_on_iso_timestamp
                  {| V5Gui.tree_exists := true; V5Gui.tree_rows := [];
                     V5Gui.veh_no := "BBJ-91";
                     V5Gui.veh_type := "Chery Tiggo 8 Pro";
                     V5Gui.yr_mfr := "2023"; V5Gui.files := [] |}
                  "2025-07-06" "14:03:27" ".481592+05:00" []
                  eq_refl eq_refl
                  (or_intror (ex_intro _ "."%char
                                (ex_intro _ "481592+05:00" (conj eq_refl eq_refl)))))).
Defined.

(** X18: [initialize_csv] writes the header once: on a file that exists
    it changes nothing, so that calling it again is without effect; the
    rows appended after it follow, in order, the rows the file had, or the
    header alone when the file was missing; the other files keep their
    content.  [append_row_to_csv] alone adds the row at the end of the
    file and creates a missing file, which then has no header. *)
Theorem initialize_csv_writes_header_once
    (path : string) (fs : V5Gui.filesystem) (rows : list (list string)) :
  V5Gui.initialize_csv path (V5Gui.initialize_csv path fs)
  = V5Gui.initialize_csv path fs
  /\ (V5Gui.isfile path fs = true -> V5Gui.initialize_csv path fs = fs)
  /\ rows_of path (append_rows path rows (V5Gui.initialize_csv path fs))
     = (match V5Gui.read_file path fs with
        | Some old => old
        | None => [V5Gui.csv_header]
        end ++ rows)%list
  /\ (forall other, other <> path ->
        V5Gui.read_file other (append_rows path rows (V5Gui.initialize_csv path fs))
        = V5Gui.read_file other fs)
  /\ rows_of path (append_rows path rows fs) = (rows_of path fs ++ rows)%list.
Proof.
  assert (Einit : V5Gui.initialize_csv path fs
                  = match V5Gui.read_file path fs with
                    | Some _ => fs
                    | None => V5Gui.write_file path [V5Gui.csv_header] fs
                    end).
  { unfold V5Gui.initialize_csv, V5Gui.isfile.
    now destruct (V5Gui.read_file path fs). }
  assert (Hself : V5Gui.isfile path (V5Gui.initialize_csv path fs) = true).
  { rewrite Einit. unfold V5Gui.isfile.
    destruct (V5Gui.read_file path fs) eqn:E; [now rewrite E|].
    now rewrite read_write_same. }
  split; [|split; [|split; [|split]]].
  - unfold V5Gui.initialize_csv at 1. now rewrite Hself.
  - intros H. unfold V5Gui.initialize_csv. now rewrite H.
  - rewrite rows_after_appends, Einit. unfold rows_of.
    destruct (V5Gui.read_file path fs) eqn:E; [now rewrite E|].
    now rewrite read_write_same.
  - intros other Hne. rewrite read_after_appends_other by exact Hne.
    rewrite Einit. destruct (V5Gui.read_file path fs); [reflexivity|].
    now apply read_write_other.
  - apply rows_after_appends.
Qed.

(* ================================================================= *)
(** ** The port list of the GUI *)

Lemma string_length_app (a b : string) :
  String.length (a ++ b) = String.length a + String.length b.
Proof. induction a as [|c a IH]; simpl; auto. Qed.

Lemma string_app_same_tail_length (a b x y : string) :
  a ++ x = b ++ y -> String.length x = String.length y -> a = b.
Proof.
  revert b. induction a as [|c a IH]; intros [|d b] H Hl.
  - reflexivity.
  - exfalso. simpl in H. rewrite H in Hl. simpl in Hl.
    rewrite string_length_app in Hl. lia.
  - exfalso. simpl in H. rewrite <- H in Hl. simpl in Hl.
    rewrite string_length_app in Hl. lia.
  - simpl in H. injection H as -> H. f_equal. now apply IH.
Qed.

Lemma canonical_from_length (s : string) :
  forall pos, canonical_from pos s = true -> pos + String.length s = 17.
Proof.
  induction s as [|c s IH]; intros pos H; simpl in H.
  - apply Nat.eqb_eq in H. simpl. lia.
  - apply andb_prop in H. destruct H as [_ H]. apply IH in H. simpl. lia.
Qed.

Lemma canonical_mac_length (mac : string) :
  is_canonical_mac mac = true -> String.length mac = 17.
Proof. intros H. apply canonical_from_length in H. lia. Qed.

Lemma display_string_port (p p' m m' : string) :
  String.length m = String.length m' ->
  V5Gui.display_string p m = V5Gui.display_string p' m' -> p = p'.
Proof.
  intros Hl H. unfold V5Gui.display_string in H.
  apply string_app_same_tail_length in H; [exact H|].
  repeat (rewrite ?string_length_app; simpl). lia.
Qed.

Lemma display_string_not_empty (p m : string) :
  (V5Gui.display_string p m =? "")%string = false.
Proof. unfold V5Gui.display_string. now destruct p. Qed.

Lemma dict_lookup_set (d : V5Gui.dict) (k v k' : string) :
  V5Gui.dict_lookup (V5Gui.dict_set d k v) k'
  = if (k =? k')%string then Some v else V5Gui.dict_lookup d k'.
Proof.
  induction d as [|[k0 v0] d IH]; simpl.
  - reflexivity.
  - destruct (String.eqb_spec k0 k) as [->|Hne]; simpl.
    + destruct (k =? k')%string; reflexivity.
    + rewrite IH. destruct (String.eqb_spec k0 k') as [->|Hne'].
      * destruct (String.eqb_spec k k'); [congruence | reflexivity].
      * reflexivity.
Qed.

(** Looking a key up in a dict built from pairs whose key determines the
    value. *)
Lemma build_lookup (k v : string) :
  forall (l : list (string * string)) (d : V5Gui.dict),
    (forall p m, In (p, m) l -> V5Gui.display_string p m = k -> p = v) ->
    ((exists p m, In (p, m) l /\ V5Gui.display_string p m = k)
     \/ V5Gui.dict_lookup d k = Some v) ->
    V5Gui.dict_lookup
      (fold_left (fun d pm => V5Gui.dict_set d (V5Gui.display_string (fst pm) (snd pm))
                                             (fst pm)) l d) k
    = Some v.
Proof.
  induction l as [|[p0 m0] l IH]; intros d Hfun H; simpl.
  - destruct H as [(p & m & [] & _)|H]; exact H.
  - apply IH.
    + intros p m Hin. apply Hfun. now right.
    + destruct H as [(p & m & [Heq|Hin] & Hk)|H].
      * injection Heq as -> ->. right. rewrite dict_lookup_set, Hk.
        rewrite String.eqb_refl. f_equal. apply (Hfun p m); [now left | exact Hk].
      * left. exists p, m. auto.
      * right. rewrite dict_lookup_set.
        destruct (String.eqb_spec (V5Gui.display_string p0 m0) k) as [Hk|_];
          [|exact H].
        f_equal. apply (Hfun p0 m0); [now left | exact Hk].
Qed.

Lemma dict_lookup_in_keys (d : V5Gui.dict) (k v : string) :
  V5Gui.dict_lookup d k = Some v -> In k (map fst d).
Proof.
  induction d as [|[k0 v0] d IH]; simpl; [discriminate|].
  destruct (String.eqb_spec k0 k); [now left | intros H; right; auto].
Qed.

Lemma fold_keeps_first_key (l : list (string * string)) :
  forall k0 v0 d,
    exists v d',
      fold_left (fun d pm => V5Gui.dict_set d (V5Gui.display_string (fst pm) (snd pm))
                                             (fst pm)) l ((k0, v0) :: d)
      = (k0, v) :: d'.
Proof.
  induction l as [|[p m] l IH]; intros k0 v0 d; simpl.
  - now exists v0, d.
  - destruct (k0 =? V5Gui.display_string p m)%string; apply IH.
Qed.

Lemma update_ports_list_port_map (l : list (string * string)) :
  V5Gui.port_map (V5Gui.update_ports_list l) = V5Gui.build_port_map l
  /\ V5Gui.combo_values (V5Gui.update_ports_list l)
     = map fst (V5Gui.build_port_map l).
Proof.
  unfold V5Gui.update_ports_list.
  destruct (map fst (V5Gui.build_port_map l)) eqn:E; simpl; rewrite ?E; auto.
Qed.

Lemma scan_member_canonical (ports : list ListPortInfo) (p m : string) :
  In (p, m) (V2.list_paired_bluetooth_ports ports) -> is_canonical_mac m = true.
Proof.
  rewrite v2_scan_as_v5, v5_scan_in. intros (q & _ & _ & -> & _).
  apply extract_line73_canonical.
Qed.

Lemma scan_keys_determine_port (ports : list ListPortInfo) (k v : string)
    (mac : string) :
  In (v, mac) (V4.list_paired_bluetooth_ports ports) ->
  V5Gui.display_string v mac = k ->
  forall p m, In (p, m) (V4.list_paired_bluetooth_ports ports) ->
              V5Gui.display_string p m = k -> p = v.
Proof.
  intros Hin Hk p m Hpm Hk'. rewrite v4_scan_as_v2 in *.
  apply (display_string_port p v m mac); [|congruence].
  pose proof (scan_member_canonical ports p m Hpm) as H1.
  pose proof (scan_member_canonical ports v mac Hin) as H2.
  rewrite (canonical_mac_length _ H1), (canonical_mac_length _ H2). reflexivity.
Qed.

Lemma scan_port_map_lookup (ports : list ListPortInfo) (port mac : string) :
  In (port, mac) (V4.list_paired_bluetooth_ports ports) ->
  V5Gui.dict_lookup
    (V5Gui.build_port_map (V4.list_paired_bluetooth_ports ports))
    (V5Gui.display_string port mac)
  = Some port.
Proof.
  intros Hin. unfold V5Gui.build_port_map. apply build_lookup.
  - apply (scan_keys_determine_port ports _ port mac Hin eq_refl).
  - left. exists port, mac. auto.
Qed.

(** X19: the port list of the GUI leads back to the port.  For every
    candidate [(port, mac)] of the scan, the text
    ["<port> (MAC: <mac>)"] is offered in the combobox after
    [update_ports_list], [port_map] maps it to [port], and [connect] with
    that text selected hands [port] (when it is not the empty string) to
    [attempt_connection_on_port]; two candidates never share a text with
    different ports, the MACs of a scan being all seventeen characters
    long. *)
Theorem port_list_selects_the_scanned_port
    (ports : list ListPortInfo) (port mac : string)
    (Hin : In (port, mac) (V4.list_paired_bluetooth_ports ports)) :
  V5Gui.dict_lookup
    (V5Gui.port_map (V5Gui.update_ports_list (V4.list_paired_bluetooth_ports ports)))
    (V5Gui.display_string port mac)
  = Some port
  /\ In (V5Gui.display_string port mac)
        (V5Gui.combo_values
           (V5Gui.update_ports_list (V4.list_paired_bluetooth_ports ports)))
  /\ (port <> "" ->
      V5Gui.connect
        {| V5Gui.port_map :=
             V5Gui.port_map
               (V5Gui.update_ports_list (V4.list_paired_bluetooth_ports ports));
           V5Gui.combo_values :=
             V5Gui.combo_values
               (V5Gui.update_ports_list (V4.list_paired_bluetooth_ports ports));
           V5Gui.combo_selection := V5Gui.display_string port mac;
           V5Gui.logged := [] |}
      = V5Gui.StartAttempt port).
Proof.
  destruct (update_ports_list_port_map (V4.list_paired_bluetooth_ports ports))
    as [-> ->].
  pose proof (scan_port_map_lookup ports port mac Hin) as Hl.
  split; [exact Hl|]. split; [exact (dict_lookup_in_keys _ _ _ Hl)|].
  intros Hne. unfold V5Gui.connect. cbn [V5Gui.combo_selection V5Gui.port_map].
  rewrite display_string_not_empty, Hl.
  destruct (String.eqb_spec port ""); [contradiction | reflexivity].
Qed.

Lemma port_list_selects_the_scanned_port_witness :
  V5Gui.dict_lookup
    (V5Gui.port_map
       (V5Gui.update_ports_list
          (V4.list_paired_bluetooth_ports (comports (simulated_env None 3 5)))))
    (V5Gui.display_string "COM9" "00:1D:A5:08:49:13")
  = Some "COM9".
Proof.
  refine (proj1 (port_list_selects_the_scanned_port
                   (comports (simulated_env None 3 5)) "COM9" "00:1D:A5:08:49:13" _)).
  vm_compute. right. left. reflexivity.
Defined.

(** X20: after [update_ports_list] the combobox shows the first candidate
    of the scan, so that [connect] without any choice of the user starts
    the attempt on the device of that candidate; after a scan without
    candidates the selection is empty and [connect] returns at once,
    asking for a selection. *)
Theorem port_list_default_selection
    (ports : list ListPortInfo) (port mac : string)
    (rest : list (string * string))
    (Hscan : V4.list_paired_bluetooth_ports ports = ((port, mac) :: rest)%list)
    (Hport : port <> "") :
  V5Gui.combo_selection
    (V5Gui.update_ports_list (V4.list_paired_bluetooth_ports ports))
  = V5Gui.display_string port mac
  /\ V5Gui.connect (V5Gui.update_ports_list (V4.list_paired_bluetooth_ports ports))
     = V5Gui.StartAttempt port
  /\ V5Gui.connect (V5Gui.update_ports_list []) = V5Gui.PleaseSelect.
Proof.
  assert (Hin : In (port, mac) (V4.list_paired_bluetooth_ports ports))
    by (rewrite Hscan; now left).
  pose proof (scan_port_map_lookup ports port mac Hin) as Hl.
  destruct (update_ports_list_port_map (V4.list_paired_bluetooth_ports ports))
    as [Hm _].
  assert (Hsel : V5Gui.combo_selection
                   (V5Gui.update_ports_list (V4.list_paired_bluetooth_ports ports))
                 = V5Gui.display_string port mac).
  { unfold V5Gui.update_ports_list, V5Gui.build_port_map. rewrite Hscan.
    cbn [fold_left V5Gui.dict_set fst snd].
    destruct (fold_keeps_first_key rest (V5Gui.display_string port mac) port [])
      as (v & d' & ->).
    reflexivity. }
  split; [exact Hsel|]. split; [|reflexivity].
  unfold V5Gui.connect. rewrite Hsel, Hm, display_string_not_empty, Hl.
  destruct (String.eqb_spec port ""); [contradiction | reflexivity].
Qed.

Lemma port_list_default_selection_witness :
  V5Gui.combo_selection
    (V5Gui.update_ports_list
       (V4.list_paired_bluetooth_ports (comports (simulated_env None 3 5))))
  = V5Gui.display_string "COM4" "00:1D:A5:08:49:12"
  /\ V5Gui.connect
       (V5Gui.update_ports_list
          (V4.list_paired_bluetooth_ports (comports (simulated_env None 3 5))))
     = V5Gui.StartAttempt "COM4"
  /\ V5Gui.connect (V5Gui.update_ports_list []) = V5Gui.PleaseSelect.
Proof.
  apply (port_list_default_selection (comports (simulated_env None 3 5))
           "COM4" "00:1D:A5:08:49:12" [("COM9", "00:1D:A5:08:49:13")]%list).
  - vm_compute. reflexivity.
  - discriminate.
Defined.

(* ================================================================= *)
(** ** [OBD-v5.py] run as the main program *)

(** X21: when [OBD-v5.py] runs as the main program, the scan the GUI makes
    at start-up is made before the second definition of the extractor is
    reached: it is the scan of [OBD-v2.py], whose candidates carry a
    canonical MAC that is neither the sentinel nor ["Unknown"]; when the
    file is imported, the load itself makes no scan. *)
Theorem v5_start_up_scan_uses_first_definition
    (ports : list ListPortInfo) (dev mac : string) :
  V5.scans_during_load true ports = [Some (V2.list_paired_bluetooth_ports ports)]%list
  /\ V5.scans_during_load false ports = []%list
  /\ (In (dev, mac) (V2.list_paired_bluetooth_ports ports) ->
      is_canonical_mac mac = true
      /\ mac <> "00:00:00:00:00:00"
      /\ mac <> "Unknown").
Proof.
  split; [|split; [reflexivity|]].
  - rewrite v2_scan_as_v5. reflexivity.
  - intros Hin. pose proof (scan_member_canonical ports dev mac Hin) as Hc.
    split; [exact Hc|]. split.
    + rewrite v2_scan_as_v5 in Hin. apply v5_scan_in in Hin.
      destruct Hin as (p & _ & _ & -> & _ & Hne). exact Hne.
    + intros ->. discriminate Hc.
Qed.

Lemma extract_without_token_is_sentinel_witness :
  (forall i, ~ hex_token_at usb_hwid i)
  /\ V2.extract_mac_from_hwid usb_hwid = "00:00:00:00:00:00"
  /\ V3.extract_mac_from_hwid usb_hwid = "00:00:00:00:00:00"
  /\ V4.extract_mac_from_hwid usb_hwid = "00:00:00:00:00:00"
  /\ V5.extract_mac_from_hwid_line73 usb_hwid = "00:00:00:00:00:00".
Proof.
  assert (H : forall i, ~ hex_token_at usb_hwid i).
  { intros i Hi. apply (proj1 (hex_token_at_upper usb_hwid i)) in Hi.
    apply (proj1 (token_at_matches _ i)) in Hi.
    exact (search_none_inv Re.mac_pattern (PyStr.upper usb_hwid) i eq_refl Hi). }
  split; [exact H | exact (extract_without_token_is_sentinel usb_hwid H)].
Defined.
